(** * PDF-to-CSV: extraction dispatch, table clean-up, merge and validation

    A shallow embedding of [src/core/pdf_extractor.py] (class [PDFExtractor])
    and [src/core/csv_converter.py] (class [CSVConverter]).

    - Python values, strings and the string methods the two classes call
      live in [Module Py].
    - The slice of pandas the two classes use (frames, [dropna], [concat],
      [reindex], [drop_duplicates], ...) lives in [Module Pd].
    - The PDF libraries (tabula, camelot, pdfplumber, PyPDF2) are external:
      a [World] record says, for one PDF file, what each library call
      returns or raises.
    - Code that raises returns a [result]; code that calls the libraries
      runs in the monad [M], which also records every library call.

    Strings are sequences of code points below 256 (one [ascii] each). *)

From Stdlib Require Import ZArith String Ascii List Bool Lia.
From Stdlib Require Import Floats.PrimFloat Numbers.Cyclic.Int63.Uint63.
From stdpp Require Import ssreflect base option list gmap strings pretty sorting.

Set Warnings "-rewrite-rw".

Open Scope string_scope.
Open Scope Z_scope.

(** ** Exceptions and results *)

Inductive exn : Type :=
  | FileNotFoundError
  | ValueError
  | TypeError
  | AttributeError
  | IndexError
  | KeyError
  | InvalidIndexError
  | LibraryError (code : nat).   (* whatever an external library raises *)

Inductive result (A : Type) : Type :=
  | Ok (a : A)
  | Raise (e : exn).
Arguments Ok {A} a.
Arguments Raise {A} e.

Definition rbind {A B} (r : result A) (k : A -> result B) : result B :=
  match r with
  | Ok a => k a
  | Raise e => Raise e
  end.

Fixpoint rmapM {A B} (f : A -> result B) (l : list A) : result (list B) :=
  match l with
  | [] => Ok []
  | x :: l' => rbind (f x) (fun y => rbind (rmapM f l') (fun ys => Ok (y :: ys)))
  end.

(** ** Python values and string methods *)

Module Py.

(** The values that travel through [**kwargs]. *)
Inductive pyval : Type :=
  | PNone
  | PBool (b : bool)
  | PInt (z : Z)
  | PStr (s : string).

#[global] Instance pyval_eq_dec : EqDecision pyval.
Proof. solve_decision. Defined.

(** [bool(v)] *)
Definition truthy (v : pyval) : bool :=
  match v with
  | PNone => false
  | PBool b => b
  | PInt z => negb (z =? 0)
  | PStr s => negb (String.eqb s "")
  end.

(** [kwargs.get(key, default)] *)
Definition get (kwargs : gmap string pyval) (key : string) (default : pyval) : pyval :=
  match kwargs !! key with
  | Some v => v
  | None => default
  end.

(** [c.isspace()] for a code point below 256. *)
Definition isspace (c : ascii) : bool :=
  let n := nat_of_ascii c in
  ((9 <=? n) && (n <=? 13) || (28 <=? n) && (n <=? 32)
   || (n =? 133) || (n =? 160))%nat.

Fixpoint lstrip (s : string) : string :=
  match s with
  | EmptyString => EmptyString
  | String c s' => if isspace c then lstrip s' else s
  end.

Fixpoint rstrip (s : string) : string :=
  match s with
  | EmptyString => EmptyString
  | String c s' =>
      match rstrip s' with
      | EmptyString => if isspace c then EmptyString else String c EmptyString
      | r => String c r
      end
  end.

(** [s.strip()] *)
Definition strip (s : string) : string := lstrip (rstrip s).

(** [sub in s] *)
Fixpoint contains (sub s : string) : bool :=
  String.prefix sub s ||
  match s with
  | EmptyString => false
  | String _ s' => contains sub s'
  end.

(** [s.split(sep)] for a non-empty [sep]: scan left to right, cut at every
    occurrence of [sep], occurrences do not overlap.  [skip] counts the
    characters of a matched separator that are still to be passed over. *)
Fixpoint split_go (sep : string) (skip : nat) (s : string) : list string :=
  match s with
  | EmptyString => [EmptyString]
  | String c s' =>
      match skip with
      | S k => split_go sep k s'
      | O =>
          if String.prefix sep s
          then EmptyString :: split_go sep (String.length sep - 1) s'
          else match split_go sep 0 s' with
               | h :: t => String c h :: t
               | [] => [String c EmptyString]
               end
      end
  end.

Definition split (sep s : string) : list string := split_go sep 0 s.

Definition digit_of (c : ascii) : option Z :=
  let n := nat_of_ascii c in
  if ((48 <=? n) && (n <=? 57))%nat then Some (Z.of_nat n - 48) else None.

(** The digits of an integer literal: decimal digits, a single underscore
    allowed between two digits.  [prev] tells whether the previous
    character was a digit. *)
Fixpoint int_digits (acc : Z) (prev : bool) (s : string) : option Z :=
  match s with
  | EmptyString => if prev then Some acc else None
  | String c s' =>
      match digit_of c with
      | Some d => int_digits (10 * acc + d) true s'
      | None =>
          if (Ascii.eqb c "_") && prev
          then match s' with
               | EmptyString => None
               | String c' _ =>
                   match digit_of c' with
                   | Some _ => int_digits acc false s'
                   | None => None
                   end
               end
          else None
      end
  end.

(** [int(s)] in base ten; [ValueError] when [s] is not an integer
    literal. *)
Definition int (s : string) : result Z :=
  let body sign t :=
    match int_digits 0 false t with
    | Some z => Ok (sign * z)
    | None => Raise ValueError
    end in
  match strip s with
  | String "-" t => body (-1) t
  | String "+" t => body 1 t
  | t => body 1 t
  end.

End Py.

(** ** The pandas operations the two classes use

    A frame is a header (label and dtype per column) over a list of rows;
    every row carries its index label.  What the model keeps of pandas:
    - a cell is missing ([None], [nan], [pd.NA]), a text, or any other
      scalar, which is carried by its [str()] form;
    - a column label is [None], an integer or a text (the labels the four
      backends produce);
    - a column dtype is [object] or something else; the conversions that
      pandas makes between the other dtypes are left out. *)

Module Pd.

Inductive na_kind : Type := PyNone | NaN | NA.

Inductive cell : Type :=
  | Missing (k : na_kind)
  | Text (s : string)
  | Scalar (repr : string).

Inductive label : Type :=
  | LNone
  | LInt (z : Z)
  | LStr (s : string).

Inductive dtype : Type := DObject | DOther.

Record Row : Type := mkRow { index : nat; cells : list cell }.

Record DataFrame : Type := mkDF { columns : list (label * dtype); rows : list Row }.

#[global] Instance na_kind_eq_dec : EqDecision na_kind.
Proof. solve_decision. Defined.
#[global] Instance cell_eq_dec : EqDecision cell.
Proof. solve_decision. Defined.
#[global] Instance label_eq_dec : EqDecision label.
Proof. solve_decision. Defined.
#[global] Instance dtype_eq_dec : EqDecision dtype.
Proof. solve_decision. Defined.
#[global] Instance Row_eq_dec : EqDecision Row.
Proof. solve_decision. Defined.
#[global] Instance DataFrame_eq_dec : EqDecision DataFrame.
Proof. solve_decision. Defined.

(** [pd.DataFrame()] *)
Definition empty_frame : DataFrame := mkDF [] [].

Definition labels (df : DataFrame) : list label := map fst (columns df).
Definition dtypes (df : DataFrame) : list dtype := map snd (columns df).

(** [len(df)] and [len(df.columns)] *)
Definition len (df : DataFrame) : nat := length (rows df).
Definition ncols (df : DataFrame) : nat := length (columns df).

(** [df.empty]: one of the two axes has length zero. *)
Definition empty (df : DataFrame) : bool :=
  (ncols df =? 0)%nat || (len df =? 0)%nat.

(** Every row has one cell per column. *)
Definition wf (df : DataFrame) : Prop :=
  Forall (fun r => length (cells r) = ncols df) (rows df).

Definition isna (c : cell) : bool :=
  match c with
  | Missing _ => true
  | _ => false
  end.
Definition notna (c : cell) : bool := negb (isna c).

(** [str(x)] of a cell value and of a label. *)
Definition str (c : cell) : string :=
  match c with
  | Missing PyNone => "None"
  | Missing NaN => "nan"
  | Missing NA => "<NA>"
  | Text s => s
  | Scalar r => r
  end.

Definition label_str (l : label) : string :=
  match l with
  | LNone => "None"
  | LInt z => pretty z
  | LStr s => s
  end.

(** [df.reset_index(drop=True)]: the rows are relabelled 0, 1, 2, ... *)
Definition renumber (rs : list Row) : list Row :=
  imap (fun i r => mkRow i (cells r)) rs.

Definition reset_index (df : DataFrame) : DataFrame :=
  mkDF (columns df) (renumber (rows df)).

(** [df.dropna(how='all')]: a row stays when one of its cells is not
    missing. *)
Definition dropna_rows (df : DataFrame) : DataFrame :=
  mkDF (columns df) (filter (fun r => existsb notna (cells r) = true) (rows df)).

(** Keep the positions of [xs] that [keep] marks. *)
Fixpoint select {A} (keep : list bool) (xs : list A) : list A :=
  match keep, xs with
  | b :: keep', x :: xs' => if b then x :: select keep' xs' else select keep' xs'
  | _, _ => []
  end.

(** [df.notna().any(axis=0)] over [n] columns. *)
Definition any_notna (n : nat) (rs : list Row) : list bool :=
  foldr (fun r acc => zip_with orb (map notna (cells r)) acc) (replicate n false) rs.

(** [df.dropna(axis=1, how='all')]: a column stays when one of its cells
    is not missing. *)
Definition dropna_cols (df : DataFrame) : DataFrame :=
  let keep := any_notna (ncols df) (rows df) in
  mkDF (select keep (columns df))
       (map (fun r => mkRow (index r) (select keep (cells r))) (rows df)).

(** [df.columns = new_labels] (as many labels as columns). *)
Definition set_columns (df : DataFrame) (ls : list label) : DataFrame :=
  mkDF (zip ls (dtypes df)) (rows df).

(** [df[col]] is a Series when one column carries the label and a frame
    when several do. *)
Inductive item : Type :=
  | Series (d : dtype) (vals : list cell)
  | Frame (n : nat).   (* the sub-frame of the [n] columns labelled [col] *)

Definition positions (col : label) (ls : list label) : list nat :=
  map fst (filter (fun p => p.2 = col) (imap pair ls)).

Definition column_at (j : nat) (df : DataFrame) : list cell :=
  map (fun r => default (Missing NaN) (cells r !! j)) (rows df).

Definition getitem (df : DataFrame) (col : label) : result item :=
  match positions col (labels df) with
  | [] => Raise KeyError
  | [j] => Ok (Series (default DObject (dtypes df !! j)) (column_at j df))
  | ps => Ok (Frame (length ps))
  end.

(** [x.dtype] and [x.str]: a frame has neither attribute. *)
Definition series_of (x : result item) : result (dtype * list cell) :=
  match x with
  | Ok (Series d vals) => Ok (d, vals)
  | Ok (Frame _) => Raise AttributeError
  | Raise e => Raise e
  end.

(** [df[col] = Series(vals, dtype=object)] for a label that one column
    carries. *)
Definition setitem (df : DataFrame) (col : label) (vals : list cell) : DataFrame :=
  match positions col (labels df) with
  | [j] =>
      mkDF (<[j := (col, DObject)]> (columns df))
           (zip_with (fun r v => mkRow (index r) (<[j := v]> (cells r))) (rows df) vals)
  | _ => df
  end.

(** [s.astype(str).str.strip()] and [s.replace(old, new)], cell by
    cell. *)
Definition astype_str_strip (c : cell) : cell := Text (Py.strip (str c)).
Definition replace (old new c : cell) : cell := if decide (c = old) then new else c.

(** [pd.DataFrame(data, columns=header)] for a list of lists of texts and
    [None]: an empty [data] gives a frame without rows; otherwise the rows
    are padded with [None] to the longest one, and the header must have
    that length. *)
Definition of_opt (o : option string) : cell :=
  match o with
  | Some s => Text s
  | None => Missing PyNone
  end.
Definition label_of_opt (o : option string) : label :=
  match o with
  | Some s => LStr s
  | None => LNone
  end.

Definition from_records (data : list (list (option string)))
    (header : list (option string)) : result DataFrame :=
  let cols := map (fun h => (label_of_opt h, DObject)) header in
  match data with
  | [] => Ok (mkDF cols [])
  | _ =>
      let k := foldr (fun r m => Nat.max (length r) m) 0%nat data in
      if decide (length header = k)
      then Ok (mkDF cols
                 (imap (fun i r =>
                          mkRow i (map of_opt r
                                   ++ replicate (k - length r) (Missing PyNone))%list)
                       data))
      else Raise ValueError
  end.

(** The first occurrence of every element, in order of appearance. *)
Fixpoint unique {A} `{EqDecision A} (l : list A) : list A :=
  match l with
  | [] => []
  | x :: l' => x :: filter (fun y => y <> x) (unique l')
  end.

Definition lookup_label (col : label) (ls : list label) : option nat :=
  head (positions col ls).

(** The cells of a row under the labels [labs], [fill] where the frame has
    no such column. *)
Definition realign (ls labs : list label) (fill : cell) (r : Row) : Row :=
  mkRow (index r)
        (map (fun l => match lookup_label l ls with
                       | Some j => default fill (cells r !! j)
                       | None => fill
                       end) labs).

(** [df.reindex(columns=labs, fill_value=fill)]: refused on a frame with
    duplicate labels; a new column of [fill] has dtype [object]. *)
Definition aligned (df : DataFrame) (labs : list label) (fill : cell) : DataFrame :=
  mkDF (map (fun l => (l, match lookup_label l (labels df) with
                          | Some j => default DObject (dtypes df !! j)
                          | None => DObject
                          end)) labs)
       (map (realign (labels df) labs fill) (rows df)).

Definition reindex (df : DataFrame) (labs : list label) (fill : cell) : result DataFrame :=
  if decide (NoDup (labels df)) then Ok (aligned df labs fill) else Raise ValueError.

(** [pd.concat(frames, ignore_index=True, sort=False)].
    - Nothing to concatenate is a [ValueError].
    - The result has the columns of the first frame when all frames have
      the same labels, and otherwise the union of the labels in order of
      first appearance.
    - A frame whose labels differ from the result's is realigned with
      [nan]; that is refused when the frame has duplicate labels.
    - A result column has dtype [object] as soon as one frame holds it
      with dtype [object].
    - The cells are carried as they are.  pandas does so in a result
      column of dtype [object]; in a result column of another dtype it
      converts the values to the common dtype of the pieces (85 comes out
      as 85.0 where [int64] meets [float64] or a [nan] fill).  With one
      dtype for all that is not [object] the conversion is left out:
      what is stated about the cells of a concatenation is stated for
      frames of [object] columns. *)
Definition concat_labels (frames : list DataFrame) : list label :=
  match frames with
  | [] => []
  | f0 :: rest =>
      if forallb (fun f => bool_decide (labels f = labels f0)) rest
      then labels f0
      else unique (flat_map labels frames)
  end.

Definition concat_piece (labs : list label) (f : DataFrame) : result (list Row) :=
  if decide (labels f = labs) then Ok (rows f)
  else if decide (NoDup (labels f))
       then Ok (map (realign (labels f) labs (Missing NaN)) (rows f))
       else Raise InvalidIndexError.

Definition piece_dtype (labs : list label) (j : nat) (l : label) (f : DataFrame) : option dtype :=
  if decide (labels f = labs) then dtypes f !! j
  else match lookup_label l (labels f) with
       | Some i => dtypes f !! i
       | None => None
       end.

Definition concat_dtype (frames : list DataFrame) (labs : list label) (j : nat) (l : label) : dtype :=
  if forallb (fun f => match piece_dtype labs j l f with
                       | Some DObject => false
                       | _ => true
                       end) frames
  then DOther else DObject.

Definition concat (frames : list DataFrame) : result DataFrame :=
  match frames with
  | [] => Raise ValueError
  | _ =>
      let labs := concat_labels frames in
      rbind (rmapM (concat_piece labs) frames) (fun pieces =>
        Ok (mkDF (imap (fun j l => (l, concat_dtype frames labs j l)) labs)
                 (renumber (List.concat pieces))))
  end.

(** [df.drop_duplicates()]: an empty frame is returned as it is; otherwise a
    row goes when an earlier row has the same cells, missing values
    counting as equal to each other.  Two cells that hold a value are the
    same when they are the same text or have the same [str()] form; pandas
    compares the values, to which 1, 1.0 and [True] in an [object] column
    are one value: every row that goes here goes in pandas, and pandas may
    drop more. *)
Definition same_cell (a b : cell) : bool :=
  match a, b with
  | Missing _, Missing _ => true
  | _, _ => bool_decide (a = b)
  end.

Fixpoint same_cells (r1 r2 : list cell) : bool :=
  match r1, r2 with
  | [], [] => true
  | a :: r1', b :: r2' => same_cell a b && same_cells r1' r2'
  | _, _ => false
  end.

Fixpoint drop_seen (seen : list (list cell)) (rs : list Row) : list Row :=
  match rs with
  | [] => []
  | r :: rs' =>
      if existsb (same_cells (cells r)) seen
      then drop_seen seen rs'
      else r :: drop_seen (cells r :: seen) rs'
  end.

Definition drop_duplicates (df : DataFrame) : DataFrame :=
  if empty df then df else mkDF (columns df) (drop_seen [] (rows df)).

(** [df.select_dtypes(include=['object']).columns] *)
Definition object_columns (df : DataFrame) : list label :=
  map fst (filter (fun c => c.2 = DObject) (columns df)).

(** [sorted(labels)]: texts compare by code point, integers by value, and
    comparing anything else is a [TypeError]. *)
Definition text_of (l : label) : option string :=
  match l with
  | LStr s => Some s
  | _ => None
  end.
Definition int_of (l : label) : option Z :=
  match l with
  | LInt z => Some z
  | _ => None
  end.

Definition sorted (ls : list label) : result (list label) :=
  if decide (length ls <= 1)%nat then Ok ls
  else match mapM text_of ls, mapM int_of ls with
       | Some ss, _ => Ok (map LStr (merge_sort String.le ss))
       | _, Some zs => Ok (map LInt (merge_sort Z.le zs))
       | _, _ => Raise TypeError
       end.

End Pd.

(** ** The external libraries and the call log *)

Inductive backend : Type := Tabula | Camelot | Pdfplumber | PyPDF2.

#[global] Instance backend_eq_dec : EqDecision backend.
Proof. solve_decision. Defined.

(** The method identifier of a backend. *)
Definition backend_id (b : backend) : string :=
  match b with
  | Tabula => "tabula"
  | Camelot => "camelot"
  | Pdfplumber => "pdfplumber"
  | PyPDF2 => "pypdf2"
  end.

(** One call into a library: [tabula.read_pdf], [camelot.read_pdf],
    [pdfplumber.open] or [PyPDF2.PdfReader], with its keyword arguments. *)
Record Call : Type := mkCall { lib : backend; args : gmap string Py.pyval }.

(** A table as camelot returns it. *)
Record CamelotTable : Type := mkCamelotTable { df : option Pd.DataFrame; accuracy : float }.

(** What pdfplumber's [page.extract_tables()] returns: tables as rows of
    cells, a cell being a text or [None]. *)
Definition table_data : Type := list (list (option string)).

(** One PDF file as the libraries see it.  A library that failed to import
    is [None]. *)
Record World : Type := mkWorld {
  path : string;
  path_exists : bool;
  tabula : option (gmap string Py.pyval -> result (list (option Pd.DataFrame)));
  camelot : option (gmap string Py.pyval -> result (list CamelotTable));
  pdfplumber : option (result (list (result (list table_data))));
  pypdf2 : result (list (result string))
}.

(** Computations that call libraries: the log of calls is threaded through
    and survives an exception. *)
Definition M (A : Type) : Type := list Call -> list Call * result A.

Definition ret {A} (a : A) : M A := fun log => (log, Ok a).
Definition raise {A} (e : exn) : M A := fun log => (log, Raise e).
Definition lift {A} (r : result A) : M A := fun log => (log, r).
Definition bind {A B} (m : M A) (k : A -> M B) : M B :=
  fun log =>
    match m log with
    | (log', Ok a) => k a log'
    | (log', Raise e) => (log', Raise e)
    end.
Definition try_except {A} (m : M A) (handler : exn -> M A) : M A :=
  fun log =>
    match m log with
    | (log', Ok a) => (log', Ok a)
    | (log', Raise e) => handler e log'
    end.
Definition invoke {A} (b : backend) (kw : gmap string Py.pyval) (r : result A) : M A :=
  fun log => ((log ++ [mkCall b kw])%list, r).

Declare Scope m_scope.
Delimit Scope m_scope with M.
Notation "x <- m ;; k" := (bind m (fun x => k))
  (at level 100, m at next level, right associativity) : m_scope.

(** Calling into a module that is [None] is an [AttributeError]. *)
Definition tabula_read_pdf (w : World) (kw : gmap string Py.pyval)
    : M (list (option Pd.DataFrame)) :=
  match tabula w with
  | Some f => invoke Tabula kw (f kw)
  | None => raise AttributeError
  end.

Definition camelot_read_pdf (w : World) (kw : gmap string Py.pyval)
    : M (list CamelotTable) :=
  match camelot w with
  | Some f => invoke Camelot kw (f kw)
  | None => raise AttributeError
  end.

Definition pdfplumber_open (w : World) : M (list (result (list table_data))) :=
  match pdfplumber w with
  | Some r => invoke Pdfplumber ∅ r
  | None => raise AttributeError
  end.

Definition PdfReader (w : World) : M (list (result string)) :=
  invoke PyPDF2 ∅ (pypdf2 w).

(** ** Python sequences: indexing, slicing, [range] *)

(** [xs[i]] on a sequence of length [n]: the position read, or
    [IndexError]. *)
Definition getindex (n : nat) (i : Z) : result nat :=
  if decide (0 <= i < Z.of_nat n) then Ok (Z.to_nat i)
  else if decide (- Z.of_nat n <= i < 0) then Ok (Z.to_nat (Z.of_nat n + i))
  else Raise IndexError.

(** The positions of [xs[start:stop]] on a sequence of length [n]. *)
Definition slice_bound (n : nat) (i : Z) : nat :=
  if decide (i < 0) then Z.to_nat (Z.max (Z.of_nat n + i) 0)
  else Nat.min (Z.to_nat i) n.

Definition slice (n : nat) (start stop : Z) : list nat :=
  let lo := slice_bound n start in
  let hi := slice_bound n stop in
  seq lo (hi - lo).

(** [range(start, stop)] *)
Definition range (start stop : Z) : list Z :=
  map (fun k => start + Z.of_nat k) (seq 0 (Z.to_nat (stop - start))).

(** ** [PDFExtractor] *)

(** The values of the dictionary an extraction returns. *)
Inductive dval : Type :=
  | DTables (tables : list Pd.DataFrame)
  | DVal (v : Py.pyval)
  | DFloat (f : float)
  | DTexts (texts : list string).

Definition TAB : string := String (ascii_of_nat 9) EmptyString.
Definition NL : string := String (ascii_of_nat 10) EmptyString.

Definition kw_int (n : nat) : dval := DVal (Py.PInt (Z.of_nat n)).

Module PDFExtractor.

Import Pd.
Open Scope m_scope.

(** [self.available_methods], as [__init__] builds it. *)
Definition available_methods (w : World) : gmap string bool :=
  <["tabula" := bool_decide (is_Some (tabula w))]>
  (<["camelot" := bool_decide (is_Some (camelot w))]>
  (<["pdfplumber" := bool_decide (is_Some (pdfplumber w))]>
  (<["pypdf2" := true]> ∅))).

(** [self.available_methods[m]]; a name that is not a key counts as not
    available (the code only reads the four keys). *)
Definition available (w : World) (m : string) : bool :=
  default false (available_methods w !! m).

(** The body of the column loop of [_clean_dataframe]:
    [if df[col].dtype == 'object': df[col] = df[col].astype(str).str.strip();
     df[col] = df[col].replace('nan', '')]. *)
Definition clean_column (df : DataFrame) (col : label) : result DataFrame :=
  rbind (series_of (getitem df col)) (fun '(d, _) =>
    if decide (d = DObject)
    then
      rbind (series_of (getitem df col)) (fun '(_, vals) =>
        let df1 := setitem df col (map astype_str_strip vals) in
        rbind (series_of (getitem df1 col)) (fun '(_, vals1) =>
          Ok (setitem df1 col (map (replace (Text "nan") (Text "")) vals1))))
    else Ok df).

(** [for col in cols: ...] over the local variable [df]: the frame reached,
    and the exception that stopped the loop, if any. *)
Fixpoint clean_columns (cols : list label) (df : DataFrame) : DataFrame * option exn :=
  match cols with
  | [] => (df, None)
  | col :: cols' =>
      match clean_column df col with
      | Ok df' => clean_columns cols' df'
      | Raise e => (df, Some e)
      end
  end.

(** [_clean_dataframe]: on an exception the handler returns the local [df]
    as it stands. *)
Definition _clean_dataframe (df : DataFrame) : DataFrame :=
  let df := dropna_cols (dropna_rows df) in
  let df := set_columns df (map (fun col => LStr (Py.strip (label_str col))) (labels df)) in
  match clean_columns (labels df) df with
  | (df, None) => reset_index df
  | (df, Some _) => df
  end.

(** The keyword arguments of the two probe calls,
    [tabula.read_pdf(path, pages=1, silent=True, lattice=True)] and
    [camelot.read_pdf(path, pages='1')]. *)
Definition probe_args_tabula : gmap string Py.pyval :=
  <["pages" := Py.PInt 1]> (<["silent" := Py.PBool true]> (<["lattice" := Py.PBool true]> ∅)).

Definition probe_args_camelot : gmap string Py.pyval := <["pages" := Py.PStr "1"]> ∅.

(** [_detect_best_method]: [Some m] is an early [return m]. *)
Definition probe_tabula (w : World) : M (option string) :=
  try_except
    (test_tables <- tabula_read_pdf w probe_args_tabula ;;
     match test_tables with
     | [] => ret None
     | Some t :: _ => if negb (empty t) then ret (Some "tabula") else ret None
     | None :: _ => raise AttributeError
     end)
    (fun _ => ret None).

Definition probe_camelot (w : World) : M (option string) :=
  try_except
    (test_tables <- camelot_read_pdf w probe_args_camelot ;;
     match test_tables with
     | [] => ret None
     | _ :: _ => ret (Some "camelot")
     end)
    (fun _ => ret None).

Definition _detect_best_method (w : World) : M string :=
  try_except
    (r <- (if available w "tabula" then probe_tabula w else ret None) ;;
     match r with
     | Some m => ret m
     | None =>
         r <- (if available w "camelot" then probe_camelot w else ret None) ;;
         match r with
         | Some m => ret m
         | None =>
             if available w "pdfplumber" then ret "pdfplumber" else ret "pypdf2"
         end
     end)
    (fun _ => ret "pypdf2").

(** The accumulators [tables], [total_rows], [max_columns] of the
    extraction loops. *)
Record Acc : Type := mkAcc { acc_tables : list DataFrame; total_rows : nat; max_columns : nat }.

Definition acc0 : Acc := mkAcc [] 0 0.

Definition acc_add (a : Acc) (t : DataFrame) : Acc :=
  mkAcc (acc_tables a ++ [t])%list (total_rows a + len t) (Nat.max (max_columns a) (ncols t)).

(** [if df is not None and not df.empty: df = self._clean_dataframe(df); ...] *)
Definition add_cleaned (a : Acc) (d : option DataFrame) : Acc :=
  match d with
  | Some t => if negb (empty t) then acc_add a (_clean_dataframe t) else a
  | None => a
  end.

(** The keyword arguments of the extraction call
    [tabula.read_pdf(path, pages=pages, lattice=lattice, stream=not lattice,
     guess=True, silent=True)]. *)
Definition tabula_args (kwargs : gmap string Py.pyval) : gmap string Py.pyval :=
  let pages := Py.get kwargs "pages" (Py.PStr "all") in
  let lattice := Py.get kwargs "lattice" (Py.PBool true) in
  <["pages" := pages]> (<["lattice" := lattice]>
  (<["stream" := Py.PBool (negb (Py.truthy lattice))]>
  (<["guess" := Py.PBool true]> (<["silent" := Py.PBool true]> ∅)))).

Definition _extract_with_tabula (w : World) (kwargs : gmap string Py.pyval)
    : M (gmap string dval) :=
  try_except
    (let pages := Py.get kwargs "pages" (Py.PStr "all") in
     dfs <- tabula_read_pdf w (tabula_args kwargs) ;;
     match dfs with
     | [] =>
         ret (<["tables" := DTables []]> (<["total_rows" := kw_int 0]>
              (<["total_columns" := kw_int 0]> (<["method" := DVal (Py.PStr "tabula")]> ∅))))
     | _ =>
         let a := foldl add_cleaned acc0 dfs in
         ret (<["tables" := DTables (acc_tables a)]> (<["total_rows" := kw_int (total_rows a)]>
              (<["total_columns" := kw_int (max_columns a)]>
               (<["method" := DVal (Py.PStr "tabula")]> (<["pages" := DVal pages]> ∅)))))
     end)
    (fun e => raise e).

(** The keyword arguments of the extraction call
    [camelot.read_pdf(path, pages=pages, flavor=flavor)]. *)
Definition camelot_args (kwargs : gmap string Py.pyval) : gmap string Py.pyval :=
  let pages := Py.get kwargs "pages" (Py.PStr "1-end") in
  let flavor := Py.get kwargs "flavor" (Py.PStr "lattice") in
  <["pages" := pages]> (<["flavor" := flavor]> ∅).

(** [sum(xs) / len(xs)] on floats, as the plain sum from 0, left to right
    (CPython 3.12 and later compensate the rounding of [sum]). *)
Definition mean (xs : list float) : float :=
  PrimFloat.div (foldl PrimFloat.add PrimFloat.zero xs)
                (PrimFloat.of_uint63 (Uint63.of_Z (Z.of_nat (length xs)))).

Definition _extract_with_camelot (w : World) (kwargs : gmap string Py.pyval)
    : M (gmap string dval) :=
  try_except
    (let pages := Py.get kwargs "pages" (Py.PStr "1-end") in
     tables_obj <- camelot_read_pdf w (camelot_args kwargs) ;;
     match tables_obj with
     | [] =>
         ret (<["tables" := DTables []]> (<["total_rows" := kw_int 0]>
              (<["total_columns" := kw_int 0]> (<["method" := DVal (Py.PStr "camelot")]> ∅))))
     | _ =>
         let a := foldl (fun a table => add_cleaned a (df table)) acc0 tables_obj in
         ret (<["tables" := DTables (acc_tables a)]> (<["total_rows" := kw_int (total_rows a)]>
              (<["total_columns" := kw_int (max_columns a)]>
               (<["method" := DVal (Py.PStr "camelot")]> (<["pages" := DVal pages]>
                (<["accuracy" := DFloat (mean (map accuracy tables_obj))]> ∅))))))
     end)
    (fun e => raise e).

(** The page-range code that [_extract_with_pdfplumber] and
    [_extract_with_pypdf2] both contain, on a document of [n] pages:
    [start, end = pages_range.split('-')],
    [start = int(start) - 1 if start else 0],
    [end = int(end) if end != 'end' else n]. *)
Definition parse_range (n : nat) (s : string) : result (Z * Z) :=
  match Py.split "-" s with
  | [start; stop] =>
      rbind (if decide (start = "") then Ok 0
             else rbind (Py.int start) (fun z => Ok (z - 1))) (fun start =>
      rbind (if decide (stop = "end") then Ok (Z.of_nat n) else Py.int stop) (fun stop =>
      Ok (start, stop)))
  | _ => Raise ValueError
  end.

(** [page_nums = [int(p) - 1 for p in pages_range.split(',')]] *)
Definition parse_list (s : string) : result (list Z) :=
  rmapM (fun p => rbind (Py.int p) (fun z => Ok (z - 1))) (Py.split "," s).

(** The pages [_extract_with_pdfplumber] processes, as positions in
    [pdf.pages]. *)
Definition plumber_pages (n : nat) (pages_range : Py.pyval) : result (list nat) :=
  match pages_range with
  | Py.PStr s =>
      if Py.truthy pages_range then
        if Py.contains "-" s
        then rbind (parse_range n s) (fun '(start, stop) => Ok (slice n start stop))
        else rbind (parse_list s) (fun page_nums =>
               rmapM (getindex n) (filter (fun i => i < Z.of_nat n) page_nums))
      else Ok (seq 0 n)
  | _ => Ok (seq 0 n)
  end.

(** The page numbers [_extract_with_pypdf2] loops over; each is then used
    as [pdf_reader.pages[page_num]]. *)
Definition pypdf2_pages (n : nat) (pages_range : Py.pyval) : result (list Z) :=
  match pages_range with
  | Py.PStr s =>
      if Py.truthy pages_range then
        if Py.contains "-" s
        then rbind (parse_range n s) (fun '(start, stop) =>
               Ok (range start (Z.min stop (Z.of_nat n))))
        else rbind (parse_list s) (fun page_nums =>
               Ok (filter (fun i => i < Z.of_nat n) page_nums))
      else Ok (range 0 (Z.of_nat n))
  | _ => Ok (range 0 (Z.of_nat n))
  end.

Fixpoint rfoldl {A B} (f : A -> B -> result A) (a : A) (l : list B) : result A :=
  match l with
  | [] => Ok a
  | x :: l' => rbind (f a x) (fun a' => rfoldl f a' l')
  end.

(** [if table_data: df = pd.DataFrame(table_data[1:], columns=table_data[0]);
     df = self._clean_dataframe(df); if not df.empty: ...] *)
Definition add_table_data (a : Acc) (td : table_data) : result Acc :=
  match td with
  | [] => Ok a
  | header :: data =>
      rbind (from_records data header) (fun t =>
        let t := _clean_dataframe t in
        if negb (empty t) then Ok (acc_add a t) else Ok a)
  end.

Definition add_page (pages : list (result (list table_data))) (a : Acc) (i : nat)
    : result Acc :=
  rbind (default (Raise IndexError) (pages !! i)) (fun page_tables =>
    rfoldl add_table_data a page_tables).

Definition or_all (v : Py.pyval) : Py.pyval :=
  if Py.truthy v then v else Py.PStr "all".

Definition _extract_with_pdfplumber (w : World) (kwargs : gmap string Py.pyval)
    : M (gmap string dval) :=
  try_except
    (let pages_range := Py.get kwargs "pages" Py.PNone in
     pages <- pdfplumber_open w ;;
     pages_to_process <- lift (plumber_pages (length pages) pages_range) ;;
     a <- lift (rfoldl (add_page pages) acc0 pages_to_process) ;;
     ret (<["tables" := DTables (acc_tables a)]> (<["total_rows" := kw_int (total_rows a)]>
          (<["total_columns" := kw_int (max_columns a)]>
           (<["method" := DVal (Py.PStr "pdfplumber")]>
            (<["pages" := DVal (or_all pages_range)]> ∅))))))
    (fun e => raise e).

(** The cells of one line of text in [_parse_text_to_table], or [None] when
    the line is not kept. *)
Definition stripped_parts (sep line : string) : list string :=
  filter (fun c => c <> "") (map Py.strip (Py.split sep line)).

Definition line_cells (line : string) : option (list string) :=
  let line := Py.strip line in
  if negb (String.eqb line "")
     && (Py.contains TAB line || Py.contains "  " line || Py.contains "|" line)
  then
    let cells :=
      if Py.contains TAB line then Py.split TAB line
      else if Py.contains "|" line then stripped_parts "|" line
      else stripped_parts "  " line in
    if decide (1 < length cells)%nat then Some cells else None
  else None.

Definition text_table (text : string) : result (option DataFrame) :=
  let potential_rows := omap line_cells (Py.split NL text) in
  match potential_rows with
  | [] => Ok None
  | _ =>
      let max_cols := foldr (fun r m => Nat.max (length r) m) 0%nat potential_rows in
      let consistent_rows :=
        filter (fun r => (max_cols / 2 <= length r)%nat) potential_rows in
      let padded_rows :=
        map (fun r => take max_cols (r ++ replicate (max_cols - length r) "")%list)
            consistent_rows in
      match padded_rows with
      | header :: ((_ :: _) as data) =>
          rbind (from_records (map (map Some) data) (map Some header)) (fun t =>
            let t := _clean_dataframe t in
            if negb (empty t) then Ok (Some t) else Ok None)
      | _ => Ok None
      end
  end.

(** [_parse_text_to_table]: any exception gives the empty list. *)
Definition _parse_text_to_table (text_content : list string) : list DataFrame :=
  match rmapM text_table text_content with
  | Ok found => omap id found
  | Raise _ => []
  end.

Definition read_page (pages : list (result string)) (page_num : Z) : result (option string) :=
  rbind (getindex (length pages) page_num) (fun i =>
  rbind (default (Raise IndexError) (pages !! i)) (fun text =>
    if negb (String.eqb (Py.strip text) "") then Ok (Some text) else Ok None)).

Definition sum_rows (tables : list DataFrame) : nat :=
  foldr (fun t n => (len t + n)%nat) 0%nat tables.
Definition max_cols (tables : list DataFrame) : nat :=
  foldr (fun t n => Nat.max (ncols t) n) 0%nat tables.

Definition _extract_with_pypdf2 (w : World) (kwargs : gmap string Py.pyval)
    : M (gmap string dval) :=
  try_except
    (pages <- PdfReader w ;;
     let pages_range := Py.get kwargs "pages" Py.PNone in
     pages_to_process <- lift (pypdf2_pages (length pages) pages_range) ;;
     texts <- lift (rmapM (read_page pages) pages_to_process) ;;
     let text_content := omap id texts in
     let parsed_data := _parse_text_to_table text_content in
     ret (<["tables" := DTables parsed_data]> (<["total_rows" := kw_int (sum_rows parsed_data)]>
          (<["total_columns" := kw_int (max_cols parsed_data)]>
           (<["method" := DVal (Py.PStr "pypdf2")]>
            (<["raw_text" := DTexts text_content]> ∅))))))
    (fun e => raise e).

(** The [if]/[elif] chain of [extract_data]. *)
Definition dispatch (w : World) (method : Py.pyval) (kwargs : gmap string Py.pyval)
    : M (gmap string dval) :=
  if bool_decide (method = Py.PStr "tabula") && available w "tabula"
  then _extract_with_tabula w kwargs
  else if bool_decide (method = Py.PStr "camelot") && available w "camelot"
  then _extract_with_camelot w kwargs
  else if bool_decide (method = Py.PStr "pdfplumber") && available w "pdfplumber"
  then _extract_with_pdfplumber w kwargs
  else _extract_with_pypdf2 w kwargs.

(** [extracted_data.get('pages', 'all')] *)
Definition get_pages (d : gmap string dval) : dval :=
  match d !! "pages" with
  | Some v => v
  | None => DVal (Py.PStr "all")
  end.

(** [extracted_data.update({...})] *)
Definition add_metadata (w : World) (method : Py.pyval) (d : gmap string dval)
    : gmap string dval :=
  <["source_file" := DVal (Py.PStr (path w))]>
  (<["extraction_method" := DVal method]>
  (<["pages_processed" := get_pages d]> d)).

Definition resolve_method (w : World) (kwargs : gmap string Py.pyval) : M Py.pyval :=
  let method := Py.get kwargs "method" (Py.PStr "auto") in
  if decide (method = Py.PStr "auto")
  then m <- _detect_best_method w ;; ret (Py.PStr m)
  else ret method.

Definition extract_data (w : World) (kwargs : gmap string Py.pyval)
    : M (gmap string dval) :=
  try_except
    (if negb (path_exists w) then raise FileNotFoundError
     else
       method <- resolve_method w kwargs ;;
       extracted_data <- dispatch w method kwargs ;;
       ret (add_metadata w method extracted_data))
    (fun e => raise e).

End PDFExtractor.

(** ** [CSVConverter] *)

Module CSVConverter.

Import Pd.

(** [_union_tables]: the set of all labels is taken as the labels in any
    order without repetition, which [sorted] then orders. *)
Definition union_body (tables : list DataFrame) : result DataFrame :=
  match tables with
  | [] => Ok empty_frame
  | _ =>
      let all_columns := remove_dups (flat_map labels tables) in
      rbind (sorted all_columns) (fun all_columns =>
      rbind (rmapM (fun table => reindex table all_columns (Text "")) tables) (fun aligned_tables =>
      concat aligned_tables))
  end.

Definition _union_tables (tables : list DataFrame) : result DataFrame :=
  match union_body tables with
  | Ok merged_df => Ok merged_df
  | Raise _ => concat tables
  end.

(** The body of the column loop of [_clean_merged_data]. *)
Definition clean_merged_column (df : DataFrame) (col : label) : result DataFrame :=
  rbind (series_of (getitem df col)) (fun '(_, vals) =>
    let df1 := setitem df col (map astype_str_strip vals) in
    rbind (series_of (getitem df1 col)) (fun '(_, vals1) =>
      let df2 := setitem df1 col (map (replace (Text "nan") (Text "")) vals1) in
      rbind (series_of (getitem df2 col)) (fun '(_, vals2) =>
        Ok (setitem df2 col (map (replace (Text "") (Missing NA)) vals2))))).

Fixpoint clean_merged_columns (cols : list label) (df : DataFrame) : DataFrame * option exn :=
  match cols with
  | [] => (df, None)
  | col :: cols' =>
      match clean_merged_column df col with
      | Ok df' => clean_merged_columns cols' df'
      | Raise e => (df, Some e)
      end
  end.

(** [_clean_merged_data]: on an exception the handler returns the local
    [df] as it stands. *)
Definition _clean_merged_data (df : DataFrame) (kwargs : gmap string Py.pyval) : DataFrame :=
  let clean_data := Py.get kwargs "clean_data" (Py.PBool true) in
  let skip_empty := Py.get kwargs "skip_empty" (Py.PBool true) in
  let '(df, e) :=
    if Py.truthy clean_data
    then let df := drop_duplicates df in clean_merged_columns (object_columns df) df
    else (df, None) in
  match e with
  | Some _ => df
  | None =>
      let df := if Py.truthy skip_empty then dropna_rows df else df in
      reset_index df
  end.

(** The [try] block of [_merge_tables].  The options travel on as
    [self._clean_merged_data(merged_df, **kwargs)]: an option named [df]
    collides with the parameter of that method, and the call is a
    [TypeError]. *)
Definition merge_body (tables : list DataFrame) (kwargs : gmap string Py.pyval)
    : result DataFrame :=
  let merge_method := Py.get kwargs "merge_method" (Py.PStr "concat") in
  rbind (if decide (merge_method = Py.PStr "concat") then concat tables
         else if decide (merge_method = Py.PStr "union") then _union_tables tables
         else concat tables) (fun merged_df =>
  if bool_decide (is_Some (kwargs !! "df")) then Raise TypeError
  else Ok (_clean_merged_data merged_df kwargs)).

(** [_merge_tables]: when the block raises, the first table is the
    fallback, or [pd.DataFrame()] when there is none. *)
Definition _merge_tables (tables : list DataFrame) (kwargs : gmap string Py.pyval)
    : DataFrame :=
  match merge_body tables kwargs with
  | Ok merged_df => merged_df
  | Raise _ =>
      match tables with
      | t :: _ => t
      | [] => empty_frame
      end
  end.

(** The report of [validate_csv_data].  The messages are kept as
    constructors: [VerySparse] is the warning
    'Data appears to be very sparse (>80% empty cells)'. *)
Inductive problem : Type :=
  | EmptyCsvData
  | NoDataRows
  | ValidationFailed (e : exn).

Inductive warning : Type :=
  | EmptyColumns (cols : list label)
  | VerySparse
  | InconsistentRows (lines : list nat).

Inductive number : Type :=
  | NInt (z : Z)
  | NFloat (f : float).

Record Report : Type := mkReport {
  valid : bool;
  errors : list problem;
  warnings : option (list warning);
  row_count : option nat;
  column_count : option nat;
  empty_cell_percentage : option number
}.

Definition to_float (n : nat) : float :=
  PrimFloat.of_uint63 (Uint63.of_Z (Z.of_nat n)).

(** [df.size] and [df.isnull().sum().sum()] *)
Definition size (df : DataFrame) : nat := (len df * ncols df)%nat.
Definition count_null (df : DataFrame) : nat :=
  foldr (fun r n => (length (filter (fun c => isna c = true) (cells r)) + n)%nat) 0%nat (rows df).

(** [df.columns[df.isnull().all()].tolist()] *)
Definition all_null (n : nat) (rs : list Row) : list bool :=
  foldr (fun r acc => zip_with andb (map isna (cells r)) acc) (replicate n true) rs.
Definition null_columns (df : DataFrame) : list label :=
  select (all_null (ncols df) (rows df)) (labels df).

(** [empty_cells / total_cells > 0.8] in binary64; the literal is the
    double nearest to 0.8. *)
Definition sparse (empty_cells total_cells : nat) : bool :=
  PrimFloat.ltb 0x1.999999999999ap-1%float
    (PrimFloat.div (to_float empty_cells) (to_float total_cells)).

(** The lines whose number of comma-separated fields differs from the
    first line's. *)
Definition inconsistent_rows (csv_data : string) : list nat :=
  match Py.split NL (Py.strip csv_data) with
  | first :: ((_ :: _) as others) =>
      let first_row_cols := length (Py.split "," first) in
      map fst (filter (fun p => length (Py.split "," p.2) <> first_row_cols)
                      (imap (fun i line => (S i, line)) others))
  | _ => []
  end.

Section validate.

(** [pd.read_csv(StringIO(csv_data))] *)
Variable read_csv : string -> result DataFrame.

Definition validate_csv_data (csv_data : string) : Report :=
  if String.eqb csv_data "" then mkReport false [EmptyCsvData] None None None None
  else
    match read_csv csv_data with
    | Raise e => mkReport false [ValidationFailed e] (Some []) None None None
    | Ok df =>
        let errors := if empty df then [NoDataRows] else [] in
        let empty_cols := null_columns df in
        let w1 := match empty_cols with [] => [] | _ => [EmptyColumns empty_cols] end in
        let total_cells := size df in
        let empty_cells := count_null df in
        let w2 := if (0 <? total_cells)%nat && sparse empty_cells total_cells
                  then [VerySparse] else [] in
        let inconsistent := inconsistent_rows csv_data in
        let w3 := match inconsistent with
                  | [] => []
                  | _ => [InconsistentRows (take 5 inconsistent)]
                  end in
        mkReport (bool_decide (errors = [])) errors (Some (w1 ++ w2 ++ w3)%list)
                 (Some (len df)) (Some (ncols df))
                 (Some (if (0 <? total_cells)%nat
                        then NFloat (PrimFloat.mul
                                       (PrimFloat.div (to_float empty_cells) (to_float total_cells))
                                       100%float)
                        else NInt 0))
    end.

End validate.

End CSVConverter.

(** ** Closed forms used in the statements *)

Module Facts.

Import Pd PDFExtractor.

(** The outcome of the two probes, read off the libraries. *)
Definition tabula_probe_ok (w : World) : bool :=
  match tabula w with
  | Some f =>
      match f probe_args_tabula with
      | Ok (Some t :: _) => negb (empty t)
      | _ => false
      end
  | None => false
  end.

Definition camelot_probe_ok (w : World) : bool :=
  match camelot w with
  | Some f =>
      match f probe_args_camelot with
      | Ok (_ :: _) => true
      | _ => false
      end
  | None => false
  end.

Definition detected (w : World) : string :=
  if tabula_probe_ok w then "tabula"
  else if camelot_probe_ok w then "camelot"
  else if bool_decide (is_Some (pdfplumber w)) then "pdfplumber"
  else "pypdf2".

(** The dictionary [d], returned with call log [log], was produced by
    backend [b]: the last library call went to [b], [d] names [b] as its
    [method], and its totals are those of its tables. *)
Definition produced_by (b : backend) (log : list Call) (d : gmap string dval) : Prop :=
  (exists kw, last log = Some (mkCall b kw)) /\
  d !! "method" = Some (DVal (Py.PStr (backend_id b))) /\
  exists tables,
    d !! "tables" = Some (DTables tables) /\
    d !! "total_rows" = Some (kw_int (sum_rows tables)) /\
    d !! "total_columns" = Some (kw_int (max_cols tables)).

Definition acc_ok (a : Acc) : Prop :=
  total_rows a = sum_rows (acc_tables a) /\ max_columns a = max_cols (acc_tables a).





(** The positions of [pdf_reader.pages] that the loop of
    [_extract_with_pypdf2] reads, one [pdf_reader.pages[page_num]] per page
    number. *)
Definition pypdf2_positions (n : nat) (pages_range : Py.pyval) : result (list nat) :=
  rbind (pypdf2_pages n pages_range) (rmapM (getindex n)).

(** Does the character occur in the text? *)
Fixpoint occurs (x : ascii) (s : string) : bool :=
  match s with
  | EmptyString => false
  | String c s' => Ascii.eqb c x || occurs x s'
  end.

(** One mask marks every position that the other marks. *)
Definition le_mask (a b : list bool) : Prop :=
  Forall2 (fun x y => x = true -> y = true) a b.

(** What the column loop of [_clean_dataframe] does to one cell. *)
Definition clean_cell (c : cell) : cell :=
  replace (Text "nan") (Text "") (astype_str_strip c).

(** The cells of a row once the columns at positions [js] are cleaned. *)
Definition alters (js : list nat) (cs : list cell) : list cell :=
  foldl (fun cs j => alter clean_cell j cs) cs js.

Definition alter_rows (js : list nat) (rs : list Row) : list Row :=
  map (fun r => mkRow (index r) (alters js (cells r))) rs.

(** The column loop read off the header alone: the positions it cleans, in
    order, and the exception that stops it. *)
Fixpoint cleaned_positions (cols : list label) (header : list (label * dtype))
    : list nat * option exn :=
  match cols with
  | [] => ([], None)
  | col :: cols' =>
      match positions col (map fst header) with
      | [j] =>
          if decide (default DObject (map snd header !! j) = DObject)
          then let '(js, st) := cleaned_positions cols' header in (j :: js, st)
          else cleaned_positions cols' header
      | [] => ([], Some KeyError)
      | _ => ([], Some AttributeError)
      end
  end.

(** A frame that [_clean_dataframe] leaves as it is. *)
Definition Clean (df : DataFrame) : Prop :=
  wf df /\
  Forall (fun r => existsb notna (cells r) = true) (rows df) /\
  any_notna (ncols df) (rows df) = replicate (ncols df) true /\
  Forall (fun l => exists s, l = LStr s /\ Py.strip s = s) (labels df) /\
  Forall (fun r => alters (cleaned_positions (labels df) (columns df)).1 (cells r) = cells r)
         (rows df) /\
  ((cleaned_positions (labels df) (columns df)).2 = None -> renumber (rows df) = rows df).

End Facts.

(** ** The selection as the specification words it

    Probe tabula, camelot and pdfplumber on page 1, in this order; the
    first backend whose probe yields at least one non-empty table is
    selected; a probe that raises has failed; [pypdf2] otherwise. *)

Module SpecSelector.

Import Pd PDFExtractor Facts.

Definition nonempty_frame (d : option DataFrame) : bool :=
  match d with
  | Some t => negb (empty t)
  | None => false
  end.

Definition nonempty_table_data (td : table_data) : bool :=
  match td with
  | [] => false
  | header :: data =>
      match from_records data header with
      | Ok t => negb (empty t)
      | Raise _ => false
      end
  end.

Definition tabula_yields (w : World) : bool :=
  match tabula w with
  | Some f =>
      match f probe_args_tabula with
      | Ok tables => existsb nonempty_frame tables
      | Raise _ => false
      end
  | None => false
  end.

Definition camelot_yields (w : World) : bool :=
  match camelot w with
  | Some f =>
      match f probe_args_camelot with
      | Ok tables => existsb (fun t => nonempty_frame (df t)) tables
      | Raise _ => false
      end
  | None => false
  end.

Definition pdfplumber_yields (w : World) : bool :=
  match pdfplumber w with
  | Some (Ok (Ok page_tables :: _)) => existsb nonempty_table_data page_tables
  | _ => false
  end.

Definition select_by_probing (w : World) : string :=
  if tabula_yields w then "tabula"
  else if camelot_yields w then "camelot"
  else if pdfplumber_yields w then "pdfplumber"
  else "pypdf2".

End SpecSelector.

(** ** Concrete files used in the examples *)

Module Scenario.

Import Pd.

(** Only PyPDF2 is installed; the single page holds plain text. *)
Definition text_only : World :=
  mkWorld "report.pdf" true None None None (Ok [Ok "Quarterly report"]).

(** pdfplumber is installed and finds no table on the single page. *)
Definition plumber_blank : World :=
  mkWorld "blank.pdf" true None None (Some (Ok [Ok []])) (Ok [Ok ""]).

(** tabula is installed and its Java process fails on every call. *)
Definition tabula_crash : World :=
  mkWorld "broken.pdf" true (Some (fun _ => Raise (LibraryError 1))) None None (Ok [Ok ""]).

(** tabula is installed and returns one table of two rows. *)
Definition people : DataFrame :=
  mkDF [(LStr "Name", DObject); (LStr "Age", DOther)]
       [mkRow 0 [Text "John"; Scalar "25"]; mkRow 1 [Text " Jane "; Scalar "30"]].

Definition tabula_people : World :=
  mkWorld "people.pdf" true (Some (fun _ => Ok [Some people])) None None (Ok [Ok ""]).

(** Three pages of text for PyPDF2 and three pages without tables for
    pdfplumber. *)
Definition three_pages : World :=
  mkWorld "three.pdf" true None None (Some (Ok [Ok []; Ok []; Ok []]))
          (Ok [Ok "one"; Ok "two"; Ok "three"]).

(** camelot is requested on a machine that has only tabula: what
    [extract_data] returns. *)
Definition fallback_result : gmap string dval :=
  match PDFExtractor.extract_data tabula_people (<["method" := Py.PStr "camelot"]> ∅) [] with
  | (_, Ok d) => d
  | (_, Raise _) => ∅
  end.

(** Two single-row tables with disjoint columns. *)
Definition table_ab : DataFrame :=
  mkDF [(LStr "A", DObject); (LStr "B", DObject)] [mkRow 0 [Text "a1"; Text "b1"]].

(** A one-row table, and two tables that cannot be concatenated: the first
    has a repeated label. *)
Definition alice : DataFrame :=
  mkDF [(LStr "Name", DObject); (LStr "Score", DOther)] [mkRow 0 [Text "Alice"; Scalar "85"]].
Definition twice_x : DataFrame :=
  mkDF [(LStr "x", DObject); (LStr "x", DObject)] [mkRow 0 [Text "1"; Text "2"]].
Definition only_y : DataFrame :=
  mkDF [(LStr "y", DObject)] [mkRow 0 [Text "3"]].

(** The serialization of a table of 5 rows and 3 columns in which 3 of the
    15 cells hold a value, and the frame [read_csv] makes of it. *)
Definition sparse_csv : string :=
  "Col1,Col2,Col3" ++ NL ++ "Value1,," ++ NL ++ ",," ++ NL ++ ",Value2," ++ NL
  ++ ",," ++ NL ++ ",,Value3" ++ NL.

Definition sparse_frame : DataFrame :=
  mkDF [(LStr "Col1", DObject); (LStr "Col2", DObject); (LStr "Col3", DObject)]
       [mkRow 0 [Text "Value1"; Missing NaN; Missing NaN];
        mkRow 1 [Missing NaN; Missing NaN; Missing NaN];
        mkRow 2 [Missing NaN; Text "Value2"; Missing NaN];
        mkRow 3 [Missing NaN; Missing NaN; Missing NaN];
        mkRow 4 [Missing NaN; Missing NaN; Text "Value3"]].

(** A frame with padded texts, missing values and a column without any
    value. *)
Definition messy : DataFrame :=
  mkDF [(LStr "Col1", DObject); (LStr " Col2 ", DObject); (LStr "", DObject)]
       [mkRow 0 [Text "  Value1  "; Text "Value3"; Missing PyNone];
        mkRow 1 [Text "Value2"; Text "  Value4  "; Missing PyNone];
        mkRow 2 [Missing PyNone; Missing NaN; Missing PyNone];
        mkRow 3 [Text "nan"; Missing NaN; Missing PyNone]].

End Scenario.

(** * Further closed forms and scenarios *)

Module More.

Import Pd PDFExtractor Facts.

(** The header of the cleaned table: the columns that survive [dropna],
    under their trimmed labels. *)
Definition trimmed_header (df : DataFrame) : list (label * dtype) :=
  let df1 := dropna_cols (dropna_rows df) in
  zip (map (fun col => LStr (Py.strip (label_str col))) (labels df1)) (dtypes df1).


(** The library calls that [_detect_best_method] makes: the tabula probe
    when tabula is installed, then the camelot probe when camelot is
    installed and the tabula probe did not succeed. *)
Definition probe_calls (w : World) : list Call :=
  ((if bool_decide (is_Some (tabula w)) then [mkCall Tabula probe_args_tabula] else [])
   ++ (if negb (tabula_probe_ok w) && bool_decide (is_Some (camelot w))
       then [mkCall Camelot probe_args_camelot] else []))%list.

(** The backend the [if]/[elif] chain of [extract_data] runs for a
    method. *)
Definition chosen (w : World) (method : Py.pyval) : backend :=
  if bool_decide (method = Py.PStr "tabula") && available w "tabula" then Tabula
  else if bool_decide (method = Py.PStr "camelot") && available w "camelot" then Camelot
  else if bool_decide (method = Py.PStr "pdfplumber") && available w "pdfplumber" then Pdfplumber
  else PyPDF2.

(** The method [extract_data] runs with: the caller's [method] option, or
    the outcome of the detection when the option is missing or "auto". *)
Definition resolved (w : World) (kwargs : gmap string Py.pyval) : Py.pyval :=
  let method := Py.get kwargs "method" (Py.PStr "auto") in
  if decide (method = Py.PStr "auto") then Py.PStr (detected w) else method.

(** The library calls of one [extract_data]: the probes when the method is
    detected, then the extraction call, a call to [lib] with some
    arguments. *)
Definition probes (w : World) (kwargs : gmap string Py.pyval) : list Call :=
  if decide (Py.get kwargs "method" (Py.PStr "auto") = Py.PStr "auto") then probe_calls w else [].

(** Labels that are texts without surrounding whitespace. *)
Definition trimmed (t : DataFrame) : Prop :=
  Forall (fun l => exists s, l = LStr s /\ Py.strip s = s) (labels t).

(** A table all of whose columns have dtype [object]: its cells are kept
    as the objects they are, where pandas may convert the values of a
    column of another dtype (an [int64] column that meets a [float64] one
    in [pd.concat] comes out as [float64]). *)
Definition all_object (t : DataFrame) : Prop :=
  Forall (fun c => c.2 = DObject) (columns t).

(** A table that holds something and has one cell per column in every
    row. *)
Definition proper (t : DataFrame) : Prop := empty t = false /\ wf t.

(** The backend functions, by backend. *)
Definition backend_function (b : backend)
    : World -> gmap string Py.pyval -> M (gmap string dval) :=
  match b with
  | Tabula => _extract_with_tabula
  | Camelot => _extract_with_camelot
  | Pdfplumber => _extract_with_pdfplumber
  | PyPDF2 => _extract_with_pypdf2
  end.

(** tabula is installed and returns one table in which both columns are
    labelled x. *)
Definition tabula_twice_x : World :=
  mkWorld "twice.pdf" true (Some (fun _ => Ok [Some Scenario.twice_x])) None None (Ok [Ok ""]).

(** A path at which there is no file; every library is installed. *)
Definition no_file : World :=
  mkWorld "missing.pdf" false (Some (fun _ => Ok [])) (Some (fun _ => Ok []))
          (Some (Ok [])) (Ok []).

(** A table an extraction from page contents keeps: it holds something,
    is rectangular and is as [_clean_dataframe] leaves it. *)
Definition kept (t : DataFrame) : Prop := proper t /\ Clean t.

(** pdfplumber is installed and finds one table on the single page, with a
    padded header cell and a blank line. *)
Definition plumber_people : World :=
  mkWorld "people.pdf" true None None
          (Some (Ok [Ok [[[Some " Name"; Some "Age"]; [Some "John"; Some "25"];
                          [None; None]; [Some "Jane"; Some "30"]]]]))
          (Ok [Ok ""]).

Definition plumber_result : gmap string dval :=
  match _extract_with_pdfplumber plumber_people ∅ [] with
  | (_, Ok d) => d
  | (_, Raise _) => ∅
  end.

(** What [extract_data] returns for the two-row table of tabula when no
    option is given. *)
Definition people_result : gmap string dval :=
  match extract_data Scenario.tabula_people ∅ [] with
  | (_, Ok d) => d
  | (_, Raise _) => ∅
  end.

End More.

(** ** More on [CSVConverter] *)

Module MoreCsv.

Import Pd CSVConverter.

(** What the column loop of [_clean_merged_data] does to one cell. *)
Definition merged_cell (c : cell) : cell :=
  replace (Text "") (Missing NA) (replace (Text "nan") (Text "") (astype_str_strip c)).

(** A cell as that loop leaves it: [pd.NA], or a text without surrounding
    whitespace that is neither empty nor "nan". *)
Definition tidy (c : cell) : Prop :=
  c = Missing NA \/ exists s, c = Text s /\ Py.strip s = s /\ s <> "" /\ s <> "nan".

(** The cells of a row once the loop has worked on the columns at
    positions [js]. *)
Definition alters_merged (js : list nat) (cs : list cell) : list cell :=
  foldl (fun cs j => alter merged_cell j cs) cs js.

(** A text whose third line has one field where the first has two, and
    the frame [read_csv] makes of it: a line that is too short is filled
    up with [nan]. *)
Definition short_line_csv : string :=
  "A,B" ++ NL ++ "a1,b1" ++ NL ++ "a2" ++ NL.

Definition short_line_frame : DataFrame :=
  mkDF [(LStr "A", DObject); (LStr "B", DObject)]
       [mkRow 0 [Text "a1"; Text "b1"]; mkRow 1 [Text "a2"; Missing NaN]].

End MoreCsv.


(** ** From tables to text: [convert_to_csv], [preview_csv]

    [DataFrame.to_csv] is pandas' own serializer and stays a parameter:
    [to_csv df sep header] is the text that
    [df.to_csv(output, sep=sep, index=False, header=header, na_rep='',
    quoting=csv.QUOTE_MINIMAL)] writes, or what it raises. *)

Module Converter.

Import Pd CSVConverter.

(** [extracted_data.get('tables', [])] for a dictionary as the backends
    build it: the entry, when there is one, is a list of frames. *)
Definition get_tables (extracted_data : gmap string dval) : list DataFrame :=
  match extracted_data !! "tables" with
  | Some (DTables tables) => tables
  | _ => []
  end.

(** [f(x, **kwargs)] is a [TypeError] when a key of [kwargs] names a
    parameter that the call already binds. *)
Definition binds (kwargs : gmap string Py.pyval) (params : list string) : bool :=
  existsb (fun p => bool_decide (is_Some (kwargs !! p))) params.

(** [df.head(n)] *)
Definition head (df : DataFrame) (n : Py.pyval) : result DataFrame :=
  match n with
  | Py.PInt z => Ok (mkDF (columns df) (take (slice_bound (len df) z) (rows df)))
  | Py.PNone => Ok df
  | _ => Raise TypeError
  end.

(** The statistics [preview_csv] returns; the two keys that only the
    successful branch sets are optional. *)
Record Preview : Type := mkPreview {
  preview : string;
  row_count : nat;
  column_count : nat;
  preview_columns : option (list label);
  total_tables : option nat
}.

(** [{'preview': '', 'row_count': 0, 'column_count': 0}] *)
Definition no_preview : Preview := mkPreview "" 0 0 None None.

Section to_csv.

Variable to_csv : DataFrame -> Py.pyval -> Py.pyval -> result string.

Definition _dataframe_to_csv (df : DataFrame) (delimiter header_row : Py.pyval)
    : result string :=
  if empty df then Ok "" else to_csv df delimiter header_row.

(** [self._dataframe_to_csv(df, **kwargs)]: the method has the keyword
    parameters [delimiter] and [header_row] and no others. *)
Definition _dataframe_to_csv_kw (df : DataFrame) (kwargs : gmap string Py.pyval)
    : result string :=
  if bool_decide (dom kwargs ⊆ ({["delimiter"; "header_row"]} : gset string))
  then _dataframe_to_csv df (Py.get kwargs "delimiter" (Py.PStr ","))
                            (Py.get kwargs "header_row" (Py.PBool true))
  else Raise TypeError.

(** [self._merge_tables(tables, **kwargs)]: an option named [tables]
    stops the call. *)
Definition call_merge_tables (tables : list DataFrame) (kwargs : gmap string Py.pyval)
    : result DataFrame :=
  if binds kwargs ["tables"] then Raise TypeError
  else Ok (_merge_tables tables kwargs).

Definition convert_to_csv (extracted_data : gmap string dval)
    (kwargs : gmap string Py.pyval) : result string :=
  let tables := get_tables extracted_data in
  match tables with
  | [] => Ok ""
  | main_table :: _ =>
      let delimiter := Py.get kwargs "delimiter" (Py.PStr ",") in
      let header_row := Py.get kwargs "header_row" (Py.PBool true) in
      let merge_tables :=
        Py.get kwargs "merge_tables" (Py.PBool (1 <? length tables)%nat) in
      if Py.truthy merge_tables && (1 <? length tables)%nat
      then rbind (call_merge_tables tables kwargs) (fun merged_df =>
             _dataframe_to_csv merged_df delimiter header_row)
      else _dataframe_to_csv main_table delimiter header_row
  end.

(** [preview_csv]: any exception gives the dictionary without preview. *)
Definition preview_csv (extracted_data : gmap string dval)
    (kwargs : gmap string Py.pyval) : Preview :=
  let tables := get_tables extracted_data in
  match tables with
  | [] => no_preview
  | main_table :: _ =>
      let preview_rows := Py.get kwargs "preview_rows" (Py.PInt 10) in
      match rbind (head main_table preview_rows) (fun preview_table =>
              _dataframe_to_csv_kw preview_table kwargs) with
      | Ok csv_preview =>
          mkPreview csv_preview (len main_table) (ncols main_table)
                    (Some (labels main_table)) (Some (length tables))
      | Raise _ => no_preview
      end
  end.

End to_csv.

End Converter.

(** ** The command-line pipeline: [PDFProcessor]

    One [World] per input file.  The file checks of
    [FileHandler.validate_pdf] and the file operations of
    [FileHandler.save_csv] are the operating system's and stay parameters:
    [validate_pdf w] is the outcome of the checks on the file of [w], and
    [write csv_data] tells whether writing [csv_data] to the output path
    went through and left a file that is not empty. *)

Module PDFProcessor.

Import Pd Converter.

Section pipeline.

Variable to_csv : DataFrame -> Py.pyval -> Py.pyval -> result string.
Variable validate_pdf : World -> bool.
Variable write : string -> bool.

(** [FileHandler.save_csv]: nothing is written for an empty text. *)
Definition save_csv (csv_data : string) : bool :=
  if String.eqb csv_data "" then false else write csv_data.

(** [process_single_pdf]: every exception gives [False]. *)
Definition process_single_pdf (w : World) (kwargs : gmap string Py.pyval) : M bool :=
  try_except
    (if negb (validate_pdf w) then ret false
     else
       extracted_data <-
         (if binds kwargs ["pdf_path"] then raise TypeError
          else PDFExtractor.extract_data w kwargs) ;;
       if bool_decide (extracted_data = ∅) then ret false
       else
         csv_data <-
           lift (if binds kwargs ["extracted_data"] then Raise TypeError
                 else convert_to_csv to_csv extracted_data kwargs) ;;
         ret (save_csv csv_data))%M
    (fun _ => ret false).

(** The counters of [process_batch]; the call of [process_single_pdf] is
    outside any [try]. *)
Record Summary : Type := mkSummary { success : nat; failed : nat; total : nat }.

Definition count (r : Summary) (ok : bool) : Summary :=
  if ok then mkSummary (S (success r)) (failed r) (total r)
  else mkSummary (success r) (S (failed r)) (total r).

Fixpoint process_files (pdf_files : list World) (kwargs : gmap string Py.pyval)
    (results : Summary) : M Summary :=
  match pdf_files with
  | [] => ret results
  | pdf_file :: rest =>
      (ok <- (if binds kwargs ["input_path"; "output_path"] then raise TypeError
              else process_single_pdf pdf_file kwargs) ;;
       process_files rest kwargs (count results ok))%M
  end.

(** [process_batch] on the files that [input_path.glob("*.pdf")] finds. *)
Definition process_batch (pdf_files : list World) (kwargs : gmap string Py.pyval)
    : M Summary :=
  match pdf_files with
  | [] => ret (mkSummary 0 0 0)
  | _ => process_files pdf_files kwargs (mkSummary 0 0 (length pdf_files))
  end.

End pipeline.

End PDFProcessor.

(** ** [ConfigManager]

    The configuration is a dictionary of dictionaries that [set] changes
    in place, and [dict.copy()] is a shallow copy: a dictionary is an
    object in a store, and a value refers to it by its location. *)

Module ConfigManager.

Definition loc := nat.

(** A value of the configuration: a scalar, a list of scalars, or a
    dictionary, by reference. *)
Inductive value : Type :=
  | VScalar (v : Py.pyval)
  | VList (items : list Py.pyval)
  | VDict (l : loc).

Definition dict := gmap string value.

(** The store ([l] is the position of the dictionary in the list) and the
    two attributes [self.config_data] and [self.default_config]. *)
Record state : Type := mkState {
  heap : list dict;
  config_data : loc;
  default_config : loc
}.

(** A new dictionary object. *)
Definition alloc (h : list dict) (d : dict) : list dict * loc := ((h ++ [d])%list, length h).

(** The four dictionaries that [__init__] builds for [default_config]. *)
Definition output_format : dict :=
  <["delimiter" := VScalar (Py.PStr ",")]>
  (<["encoding" := VScalar (Py.PStr "utf-8")]>
  (<["header_row" := VScalar (Py.PBool true)]> ∅)).

Definition processing : dict :=
  <["clean_data" := VScalar (Py.PBool true)]>
  (<["merge_cells" := VScalar (Py.PBool true)]>
  (<["skip_empty_rows" := VScalar (Py.PBool true)]>
  (<["ocr_enabled" := VScalar (Py.PBool false)]> ∅))).

Definition advanced : dict :=
  <["verbose_logging" := VScalar (Py.PBool false)]>
  (<["parallel_processing" := VScalar (Py.PBool true)]>
  (<["max_workers" := VScalar (Py.PInt 4)]>
  (<["chunk_size" := VScalar (Py.PInt 1000)]> ∅))).

Definition defaults (out proc adv : loc) : dict :=
  <["extraction_method" := VScalar (Py.PStr "auto")]>
  (<["table_detection" := VScalar (Py.PBool true)]>
  (<["text_patterns" := VList [Py.PStr "table"; Py.PStr "form"; Py.PStr "structured"]]>
  (<["output_format" := VDict out]>
  (<["processing" := VDict proc]>
  (<["advanced" := VDict adv]> ∅))))).

(** [self.config_data = self.default_config.copy()] *)
Definition load_default_config (s : state) : state :=
  let '(h, l) := alloc (heap s) (default ∅ (heap s !! default_config s)) in
  mkState h l (default_config s).

(** [ConfigManager()], without a configuration file. *)
Definition init : state :=
  load_default_config
    (mkState [output_format; processing; advanced; defaults 0%nat 1%nat 2%nat; ∅] 4%nat 3%nat).

(** [get]: the loop over [key.split('.')]. *)
Fixpoint get_keys (h : list dict) (v : value) (keys : list string) (default : value) : value :=
  match keys with
  | [] => v
  | k :: keys' =>
      match v with
      | VDict l =>
          match h !! l with
          | Some d =>
              match d !! k with
              | Some v' => get_keys h v' keys' default
              | None => default
              end
          | None => default
          end
      | _ => default
      end
  end.

Definition get (s : state) (key : string) (default : value) : value :=
  get_keys (heap s) (VDict (config_data s)) (Py.split "." key) default.

(** [set]: the loop over [keys[:-1]] and the final assignment.  On
    anything but a dictionary the membership test, the subscript or the
    assignment raises, and the handler returns [False]; the store is
    returned as the exception found it. *)
Fixpoint set_keys (h : list dict) (config : value) (keys : list string) (v : value)
    : list dict * bool :=
  match keys with
  | [] => (h, false)
  | [k] =>
      match config with
      | VDict l =>
          match h !! l with
          | Some d => (<[l := <[k := v]> d]> h, true)
          | None => (h, false)
          end
      | _ => (h, false)
      end
  | k :: keys' =>
      match config with
      | VDict l =>
          match h !! l with
          | Some d =>
              match d !! k with
              | Some config' => set_keys h config' keys' v
              | None =>
                  let '(h1, l') := alloc h ∅ in
                  set_keys (<[l := <[k := VDict l']> d]> h1) (VDict l') keys' v
              end
          | None => (h, false)
          end
      | _ => (h, false)
      end
  end.

Definition set (s : state) (key : string) (v : value) : state * bool :=
  let '(h, ok) := set_keys (heap s) (VDict (config_data s)) (Py.split "." key) v in
  (mkState h (config_data s) (default_config s), ok).

(** [update_settings]: the results of the calls of [set] are dropped. *)
Definition update_settings (s : state) (settings : list (string * value)) : state * bool :=
  (foldl (fun s kv => (set s kv.1 kv.2).1) s settings, true).

(** [reset_to_defaults] *)
Definition reset_to_defaults (s : state) : state * bool := (load_default_config s, true).

(** The dictionaries that the loop of [set] goes through for [keys]. *)
Fixpoint walk (h : list dict) (l : loc) (keys : list string) : list loc :=
  l :: match keys with
       | [] => []
       | k :: keys' =>
           match h !! l ≫= (fun d => d !! k) with
           | Some (VDict l') => walk h l' keys'
           | _ => []
           end
       end.

End ConfigManager.
(** * Theorems *)

(** ** Python and sequence examples *)

Example strip_ex : Py.strip "  Value1 	" = "Value1".
Proof. reflexivity. Qed.
Example split_ex1 : Py.split "-" "1-3" = ["1"; "3"].
Proof. reflexivity. Qed.
Example split_ex2 : Py.split "  " "a    b  c" = ["a"; ""; "b"; "c"].
Proof. reflexivity. Qed.
Example split_ex3 : Py.split "," "1,3,5," = ["1"; "3"; "5"; ""].
Proof. reflexivity. Qed.
Example int_ex : Py.int " 12 " = Ok 12 /\ Py.int "-7" = Ok (-7) /\ Py.int "1_0" = Ok 10
                 /\ Py.int "all" = Raise ValueError /\ Py.int "" = Raise ValueError
                 /\ Py.int "1__0" = Raise ValueError /\ Py.int "end" = Raise ValueError.
Proof. repeat split; reflexivity. Qed.
Example concat_ex :
  Pd.concat [Pd.mkDF [(Pd.LStr "A", Pd.DObject)] [Pd.mkRow 0 [Pd.Text "x"]];
             Pd.mkDF [(Pd.LStr "B", Pd.DOther)] [Pd.mkRow 0 [Pd.Scalar "1"]]]
  = Ok (Pd.mkDF [(Pd.LStr "A", Pd.DObject); (Pd.LStr "B", Pd.DOther)]
                [Pd.mkRow 0 [Pd.Text "x"; Pd.Missing Pd.NaN];
                 Pd.mkRow 1 [Pd.Missing Pd.NaN; Pd.Scalar "1"]]).
Proof. vm_compute. reflexivity. Qed.
Example sorted_ex :
  Pd.sorted [Pd.LStr "b"; Pd.LStr "B"; Pd.LStr "a"] = Ok [Pd.LStr "B"; Pd.LStr "a"; Pd.LStr "b"]
  /\ Pd.sorted [Pd.LStr "b"; Pd.LInt 1] = Raise TypeError.
Proof. split; vm_compute; reflexivity. Qed.
Example slice_ex : slice 3 (-1) 2 = [] /\ slice 3 0 5 = [0; 1; 2]%nat /\ slice 3 1 2 = [1%nat].
Proof. repeat split; reflexivity. Qed.
Example range_ex : range (-1) 2 = [-1; 0; 1] /\ range 2 1 = [].
Proof. split; reflexivity. Qed.

(** * Method selection and dispatch *)

Section extractor_facts.

Import Pd PDFExtractor Facts.

Lemma try_reraise {A} (m : M A) log :
  try_except m (fun e => raise e) log = m log.
Proof. unfold try_except, raise. by destruct (m log) as [? [|]]. Qed.

Lemma available_tabula w : available w "tabula" = bool_decide (is_Some (tabula w)).
Proof. reflexivity. Qed.
Lemma available_camelot w : available w "camelot" = bool_decide (is_Some (camelot w)).
Proof. reflexivity. Qed.
Lemma available_pdfplumber w : available w "pdfplumber" = bool_decide (is_Some (pdfplumber w)).
Proof. reflexivity. Qed.

Lemma probe_tabula_total w log :
  exists log', probe_tabula w log = (log', Ok (if tabula_probe_ok w then Some "tabula" else None)).
Proof.
  unfold probe_tabula, try_except, bind, tabula_read_pdf, tabula_probe_ok.
  destruct (tabula w) as [f|]; simpl; [|by eexists].
  unfold invoke. destruct (f probe_args_tabula) as [[|[t|] l]|e]; simpl; try by eexists.
  destruct (empty t); simpl; by eexists.
Qed.

Lemma probe_camelot_total w log :
  exists log', probe_camelot w log = (log', Ok (if camelot_probe_ok w then Some "camelot" else None)).
Proof.
  unfold probe_camelot, try_except, bind, camelot_read_pdf, camelot_probe_ok.
  destruct (camelot w) as [f|]; simpl; [|by eexists].
  unfold invoke. destruct (f probe_args_camelot) as [[|t l]|e]; simpl; by eexists.
Qed.

Lemma tabula_probe_ok_available w : tabula_probe_ok w = true -> available w "tabula" = true.
Proof. rewrite available_tabula. unfold tabula_probe_ok. by destruct (tabula w). Qed.
Lemma camelot_probe_ok_available w : camelot_probe_ok w = true -> available w "camelot" = true.
Proof. rewrite available_camelot. unfold camelot_probe_ok. by destruct (camelot w). Qed.

Lemma detect_total w log :
  exists log', _detect_best_method w log = (log', Ok (detected w)).
Proof.
  unfold _detect_best_method, try_except, bind, detected.
  destruct (available w "tabula") eqn:Ht.
  - destruct (probe_tabula_total w log) as [l1 ->].
    destruct (tabula_probe_ok w); [by eexists|].
    destruct (available w "camelot") eqn:Hc.
    + destruct (probe_camelot_total w l1) as [l2 ->].
      destruct (camelot_probe_ok w); [by eexists|].
      rewrite available_pdfplumber. destruct (bool_decide _); by eexists.
    + destruct (camelot_probe_ok w) eqn:Hp.
      { apply camelot_probe_ok_available in Hp. congruence. }
      simpl. rewrite available_pdfplumber. destruct (bool_decide _); by eexists.
  - destruct (tabula_probe_ok w) eqn:Hp.
    { apply tabula_probe_ok_available in Hp. congruence. }
    simpl. destruct (available w "camelot") eqn:Hc.
    + destruct (probe_camelot_total w log) as [l2 ->].
      destruct (camelot_probe_ok w); [by eexists|].
      rewrite available_pdfplumber. destruct (bool_decide _); by eexists.
    + destruct (camelot_probe_ok w) eqn:Hp'.
      { apply camelot_probe_ok_available in Hp'. congruence. }
      simpl. rewrite available_pdfplumber. destruct (bool_decide _); by eexists.
Qed.

Lemma resolve_method_total w kwargs log :
  exists log' method, resolve_method w kwargs log = (log', Ok method).
Proof.
  unfold resolve_method. destruct (decide _); [|by do 2 eexists].
  unfold bind. destruct (detect_total w log) as [l ->]. by do 2 eexists.
Qed.

End extractor_facts.

Section selection.

Import Pd PDFExtractor Facts.

(** C1, counterexample: tabula is requested by name and is not installed;
    the call does not raise, it returns what the PyPDF2 backend
    extracted. *)
Lemma explicit_unavailable_falls_back :
  available Scenario.text_only "tabula" = false /\
  exists res,
    extract_data Scenario.text_only (<["method" := Py.PStr "tabula"]> ∅) []
      = ([mkCall PyPDF2 ∅], Ok res) /\
    res !! "method" = Some (DVal (Py.PStr "pypdf2")) /\
    res !! "extraction_method" = Some (DVal (Py.PStr "tabula")).
Proof.
  split; [reflexivity|].
  eexists. split; [vm_compute; reflexivity|]. split; reflexivity.
Qed.

(** C1, amended: when the caller names a method other than "auto" and that
    method is not available, [extract_data] runs the PyPDF2 backend: it
    raises exactly when that backend raises, and otherwise returns its
    result with the requested name recorded as [extraction_method]. *)
Theorem explicit_unavailable_uses_pypdf2 w kwargs m log :
  kwargs !! "method" = Some (Py.PStr m) ->
  m <> "auto" ->
  available w m = false ->
  path_exists w = true ->
  extract_data w kwargs log =
    match _extract_with_pypdf2 w kwargs log with
    | (log', Ok d) => (log', Ok (add_metadata w (Py.PStr m) d))
    | (log', Raise e) => (log', Raise e)
    end.
Proof.
  intros Hm Hauto Hav Hex.
  rewrite /extract_data try_reraise Hex /=.
  rewrite /bind /resolve_method /Py.get Hm.
  destruct (decide _) as [[=]|_]; [done|]. rewrite /ret /dispatch.
  assert (forall b, (bool_decide (Py.PStr m = Py.PStr b) && available w b) = false) as Hno.
  { intros b. destruct (decide (m = b)) as [->|Hne].
    - by rewrite Hav andb_false_r.
    - rewrite bool_decide_eq_false_2; [done|]. by intros [=]. }
  rewrite !Hno. by destruct (_extract_with_pypdf2 w kwargs log) as [? [|]].
Qed.

Lemma explicit_unavailable_uses_pypdf2_witness :
  extract_data Scenario.text_only (<["method" := Py.PStr "camelot"]> ∅) [] =
    match _extract_with_pypdf2 Scenario.text_only (<["method" := Py.PStr "camelot"]> ∅) [] with
    | (log', Ok d) => (log', Ok (add_metadata Scenario.text_only (Py.PStr "camelot") d))
    | (log', Raise e) => (log', Raise e)
    end.
Proof.
  apply (explicit_unavailable_uses_pypdf2 Scenario.text_only _ "camelot" []).
  - reflexivity.
  - discriminate.
  - reflexivity.
  - reflexivity.
Defined.

(** C2, counterexample: pdfplumber is the only table backend installed and
    its page holds no table, so every probe of the specification fails; the
    code still selects pdfplumber, not the raw-text backend. *)
Lemma pdfplumber_selected_without_probe :
  SpecSelector.select_by_probing Scenario.plumber_blank = "pypdf2" /\
  _detect_best_method Scenario.plumber_blank [] = ([], Ok "pdfplumber").
Proof. split; reflexivity. Qed.

(** C2, amended: with method "auto" the selector probes page 1 with tabula
    (lattice) and selects it when the call returns a list whose first table
    is not empty; else it probes page 1 with camelot and selects it when at
    least one table comes back; an exception during a probe counts as a
    failed probe; when neither probe succeeds it selects pdfplumber whenever
    pdfplumber is installed, without probing it, and pypdf2 otherwise.  The
    selection never raises. *)
Theorem detect_best_method_spec w log :
  exists log', _detect_best_method w log = (log', Ok (detected w)).
Proof. apply detect_total. Qed.

End selection.

(** * Extraction results *)

Section extraction.

Import Pd PDFExtractor Facts.

Lemma sum_rows_snoc l t : sum_rows (l ++ [t]) = (sum_rows l + len t)%nat.
Proof. induction l as [|x l IH]; simpl; [lia|]. rewrite IH. lia. Qed.

Lemma max_cols_snoc l t : max_cols (l ++ [t]) = Nat.max (max_cols l) (ncols t).
Proof. induction l as [|x l IH]; simpl; [lia|]. rewrite IH. lia. Qed.

Lemma acc_ok_0 : acc_ok acc0.
Proof. by split. Qed.

Lemma acc_ok_add a t : acc_ok a -> acc_ok (acc_add a t).
Proof.
  intros [Hr Hc]. split; simpl.
  - rewrite sum_rows_snoc. lia.
  - rewrite max_cols_snoc. lia.
Qed.

Lemma acc_ok_add_cleaned a d : acc_ok a -> acc_ok (add_cleaned a d).
Proof.
  intros Ha. destruct d as [t|]; simpl; [|done].
  destruct (negb (empty t)); [by apply acc_ok_add|done].
Qed.

Lemma acc_ok_foldl {A} (f : Acc -> A -> Acc) l a :
  (forall a x, acc_ok a -> acc_ok (f a x)) -> acc_ok a -> acc_ok (foldl f a l).
Proof. intros Hf. revert a. induction l as [|x l IH]; simpl; auto. Qed.

Lemma acc_ok_rfoldl {A} (f : Acc -> A -> result Acc) l a a' :
  (forall a x a', acc_ok a -> f a x = Ok a' -> acc_ok a') ->
  acc_ok a -> rfoldl f a l = Ok a' -> acc_ok a'.
Proof.
  intros Hf. revert a. induction l as [|x l IH]; simpl; intros a Ha Hr.
  - by injection Hr as <-.
  - destruct (f a x) as [a1|e] eqn:Hx; simpl in Hr; [|done]. eauto.
Qed.

Lemma acc_ok_add_table_data a td a' :
  acc_ok a -> add_table_data a td = Ok a' -> acc_ok a'.
Proof.
  intros Ha. destruct td as [|header data]; simpl.
  - by intros [= <-].
  - destruct (from_records data header) as [t|e]; simpl; [|done].
    destruct (negb (empty (_clean_dataframe t))); intros [= <-]; [by apply acc_ok_add|done].
Qed.

Lemma acc_ok_add_page pages a i a' :
  acc_ok a -> add_page pages a i = Ok a' -> acc_ok a'.
Proof.
  intros Ha. unfold add_page.
  destruct (default _ _) as [tds|e]; simpl; [|done].
  apply acc_ok_rfoldl; [|done]. intros ???. apply acc_ok_add_table_data.
Qed.

Lemma last_snoc_call (log : list Call) c : last (log ++ [c]) = Some c.
Proof. apply last_snoc. Qed.

Ltac map_lookup := by simplify_map_eq.

Lemma tabula_produced w kwargs log log' d :
  _extract_with_tabula w kwargs log = (log', Ok d) -> produced_by Tabula log' d.
Proof.
  rewrite /_extract_with_tabula try_reraise /bind /tabula_read_pdf.
  destruct (tabula w) as [f|]; [|done]. rewrite /invoke.
  destruct (f _) as [dfs|e]; [|done].
  destruct dfs as [|d0 dfs]; rewrite /ret; intros [= <- <-].
  - split; [eexists; apply last_snoc_call|]. split; [map_lookup|].
    exists []. repeat split; map_lookup.
  - split; [eexists; apply last_snoc_call|]. split; [map_lookup|].
    eexists. split; [map_lookup|].
    destruct (acc_ok_foldl add_cleaned (d0 :: dfs) acc0) as [Hr Hc];
      [apply acc_ok_add_cleaned|apply acc_ok_0|].
    rewrite -Hr -Hc. split; map_lookup.
Qed.

Lemma camelot_produced w kwargs log log' d :
  _extract_with_camelot w kwargs log = (log', Ok d) -> produced_by Camelot log' d.
Proof.
  rewrite /_extract_with_camelot try_reraise /bind /camelot_read_pdf.
  destruct (camelot w) as [f|]; [|done]. rewrite /invoke.
  destruct (f _) as [ts|e]; [|done].
  destruct ts as [|t0 ts]; rewrite /ret; intros [= <- <-].
  - split; [eexists; apply last_snoc_call|]. split; [map_lookup|].
    exists []. repeat split; map_lookup.
  - split; [eexists; apply last_snoc_call|]. split; [map_lookup|].
    eexists. split; [map_lookup|].
    destruct (acc_ok_foldl (fun a table => add_cleaned a (df table)) (t0 :: ts) acc0) as [Hr Hc];
      [intros; by apply acc_ok_add_cleaned|apply acc_ok_0|].
    rewrite -Hr -Hc. split; map_lookup.
Qed.

Lemma pdfplumber_produced w kwargs log log' d :
  _extract_with_pdfplumber w kwargs log = (log', Ok d) -> produced_by Pdfplumber log' d.
Proof.
  rewrite /_extract_with_pdfplumber try_reraise /bind /pdfplumber_open.
  destruct (pdfplumber w) as [r|]; [|done]. rewrite /invoke /lift.
  destruct r as [pages|e]; [|done].
  destruct (plumber_pages _ _) as [sel|e]; [|done].
  destruct (rfoldl _ _ _) as [a|e] eqn:Ha; [|done].
  rewrite /ret. intros [= <- <-].
  apply acc_ok_rfoldl in Ha as [Hr Hc]; [|intros ???; apply acc_ok_add_page|apply acc_ok_0].
  split; [eexists; apply last_snoc_call|]. split; [map_lookup|].
  eexists. split; [map_lookup|]. rewrite -Hr -Hc. split; map_lookup.
Qed.

Lemma pypdf2_produced w kwargs log log' d :
  _extract_with_pypdf2 w kwargs log = (log', Ok d) -> produced_by PyPDF2 log' d.
Proof.
  rewrite /_extract_with_pypdf2 try_reraise /bind /PdfReader /invoke /lift.
  destruct (pypdf2 w) as [pages|e]; [|done].
  destruct (pypdf2_pages _ _) as [sel|e]; [|done].
  destruct (rmapM _ _) as [texts|e]; [|done].
  rewrite /ret. intros [= <- <-].
  split; [eexists; apply last_snoc_call|]. split; [map_lookup|].
  eexists. repeat split; map_lookup.
Qed.

Lemma produced_by_metadata b w method log d :
  produced_by b log d -> produced_by b log (add_metadata w method d).
Proof.
  intros (Hl & Hm & tables & Ht & Hr & Hc). rewrite /add_metadata.
  split; [done|]. split; [by rewrite !lookup_insert_ne|].
  exists tables. by rewrite !lookup_insert_ne.
Qed.

Lemma dispatch_produced w method kwargs log log' d :
  dispatch w method kwargs log = (log', Ok d) -> exists b, produced_by b log' d.
Proof.
  rewrite /dispatch.
  destruct (_ && _); [intros ?%tabula_produced; by eexists|].
  destruct (_ && _); [intros ?%camelot_produced; by eexists|].
  destruct (_ && _); [intros ?%pdfplumber_produced; by eexists|].
  intros ?%pypdf2_produced; by eexists.
Qed.

(** C4: the dictionary of a successful [extract_data] names under [method]
    the backend whose library was called to produce the tables, also when
    the call fell back to PyPDF2; [total_rows] is the sum of the tables' row
    counts and [total_columns] the largest of their column counts. *)
Theorem metadata_matches_backend w kwargs log log' res :
  extract_data w kwargs log = (log', Ok res) ->
  exists b, produced_by b log' res.
Proof.
  rewrite /extract_data try_reraise.
  destruct (negb (path_exists w)); [done|]. rewrite /bind.
  destruct (resolve_method_total w kwargs log) as (l1 & method & ->).
  destruct (dispatch w method kwargs l1) as [l2 [d|e]] eqn:Hd; [|done].
  rewrite /ret. intros [= <- <-].
  apply dispatch_produced in Hd as [b Hb]. exists b. by apply produced_by_metadata.
Qed.

Lemma metadata_matches_backend_witness :
  exists b, produced_by b [mkCall PyPDF2 ∅] Scenario.fallback_result.
Proof.
  apply (metadata_matches_backend Scenario.tabula_people
           (<["method" := Py.PStr "camelot"]> ∅) []).
  vm_compute. reflexivity.
Defined.

Lemma tabula_error_surfaces w kwargs log f e :
  tabula w = Some f -> f (tabula_args kwargs) = Raise e ->
  _extract_with_tabula w kwargs log
    = ((log ++ [mkCall Tabula (tabula_args kwargs)])%list, Raise e).
Proof.
  intros Hf He. by rewrite /_extract_with_tabula try_reraise /bind /tabula_read_pdf Hf /invoke He.
Qed.

Lemma camelot_error_surfaces w kwargs log f e :
  camelot w = Some f -> f (camelot_args kwargs) = Raise e ->
  _extract_with_camelot w kwargs log
    = ((log ++ [mkCall Camelot (camelot_args kwargs)])%list, Raise e).
Proof.
  intros Hf He. by rewrite /_extract_with_camelot try_reraise /bind /camelot_read_pdf Hf /invoke He.
Qed.

Lemma pdfplumber_error_surfaces w kwargs log e :
  pdfplumber w = Some (Raise e) ->
  _extract_with_pdfplumber w kwargs log = ((log ++ [mkCall Pdfplumber ∅])%list, Raise e).
Proof.
  intros Hf. by rewrite /_extract_with_pdfplumber try_reraise /bind /pdfplumber_open Hf /invoke.
Qed.

Lemma pypdf2_error_surfaces w kwargs log e :
  pypdf2 w = Raise e ->
  _extract_with_pypdf2 w kwargs log = ((log ++ [mkCall PyPDF2 ∅])%list, Raise e).
Proof.
  intros Hf. by rewrite /_extract_with_pypdf2 try_reraise /bind /PdfReader /invoke Hf.
Qed.

(** The tabula process fails during the real extraction: the caller sees
    that very exception. *)
Example tabula_crash_surfaces :
  exists log, extract_data Scenario.tabula_crash (<["method" := Py.PStr "tabula"]> ∅) []
              = (log, Raise (LibraryError 1)).
Proof. eexists. vm_compute. reflexivity. Qed.

(** The same failure during automatic selection is absorbed by the probe;
    the extraction then runs on PyPDF2. *)
Example tabula_crash_probe_absorbed :
  exists log d, extract_data Scenario.tabula_crash ∅ [] = (log, Ok d).
Proof. do 2 eexists. vm_compute. reflexivity. Qed.

End extraction.

(** * Merging tables *)

Section merging.

Import Pd CSVConverter Facts.

Lemma renumber_length rs : length (renumber rs) = length rs.
Proof. apply length_imap. Qed.

Lemma imap_cells (f : nat -> nat) l :
  map cells (imap (fun i r => mkRow (f i) (cells r)) l) = map cells l.
Proof.
  revert f. induction l as [|r l IH]; intros f; simpl; [done|].
  f_equal. apply (IH (f ∘ S)).
Qed.

Lemma renumber_cells rs : map cells (renumber rs) = map cells rs.
Proof. apply (imap_cells id). Qed.

Lemma clean_merged_data_empty kwargs : _clean_merged_data empty_frame kwargs = empty_frame.
Proof.
  rewrite /_clean_merged_data.
  destruct (Py.truthy (Py.get kwargs "clean_data" _));
    destruct (Py.truthy (Py.get kwargs "skip_empty" _)); reflexivity.
Qed.

(** C10: [_merge_tables] always returns a table.  Whenever its merge
    computation raises, the result is the first input table as it was
    given, or the empty table when there is no input; merging the empty
    list gives the empty table under every policy. *)
Theorem merge_tables_total tables kwargs :
  (forall e, merge_body tables kwargs = Raise e ->
     _merge_tables tables kwargs = match tables with t :: _ => t | [] => empty_frame end) /\
  (concat [] = Raise ValueError /\ _merge_tables [] kwargs = empty_frame).
Proof.
  split; [|split].
  - intros e He. by rewrite /_merge_tables He.
  - reflexivity.
  - rewrite /_merge_tables /merge_body.
    destruct (decide _); [done|]. destruct (decide _); [|done].
    simpl. destruct (bool_decide _); [done|]. by rewrite clean_merged_data_empty.
Qed.

Lemma merge_tables_total_witness :
  merge_body [Scenario.twice_x; Scenario.only_y] ∅ = Raise InvalidIndexError /\
  _merge_tables [Scenario.twice_x; Scenario.only_y] ∅ = Scenario.twice_x.
Proof.
  split; [vm_compute; reflexivity|].
  apply (proj1 (merge_tables_total [Scenario.twice_x; Scenario.only_y] ∅) InvalidIndexError).
  vm_compute. reflexivity.
Defined.

Lemma column_at_length j df : length (column_at j df) = len df.
Proof. by rewrite /column_at length_map. Qed.

Lemma series_length df col d vals :
  series_of (getitem df col) = Ok (d, vals) -> length vals = len df.
Proof.
  rewrite /getitem. destruct (positions col (labels df)) as [|j [|? ?]]; simpl; try done.
  intros [= _ <-]. apply column_at_length.
Qed.

Lemma setitem_len df col vals : length vals = len df -> len (setitem df col vals) = len df.
Proof.
  intros Hl. rewrite /setitem. destruct (positions col (labels df)) as [|j [|? ?]]; try done.
  rewrite /len /= length_zip_with. rewrite /len in Hl. lia.
Qed.

Lemma map_length_len {A} (f : A -> cell) vals df :
  length vals = len df -> length (map f vals) = len df.
Proof. by rewrite length_map. Qed.

Lemma clean_merged_column_len df col df' :
  clean_merged_column df col = Ok df' -> len df' = len df.
Proof.
  rewrite /clean_merged_column.
  destruct (series_of (getitem df col)) as [[d vals]|e] eqn:H0; simpl; [|done].
  apply series_length in H0.
  set (df1 := setitem df col _).
  assert (len df1 = len df) as H1 by (apply setitem_len; by rewrite length_map).
  destruct (series_of (getitem df1 col)) as [[d1 vals1]|e] eqn:H2; simpl; [|done].
  apply series_length in H2.
  set (df2 := setitem df1 col _).
  assert (len df2 = len df1) as H3 by (apply setitem_len; by rewrite length_map).
  destruct (series_of (getitem df2 col)) as [[d2 vals2]|e] eqn:H4; simpl; [|done].
  apply series_length in H4. intros [= <-].
  rewrite setitem_len; [congruence|]. rewrite length_map. congruence.
Qed.

Lemma clean_merged_columns_len cols df :
  len (clean_merged_columns cols df).1 = len df.
Proof.
  revert df. induction cols as [|col cols IH]; intros df; simpl; [done|].
  destruct (clean_merged_column df col) as [df'|e] eqn:Hc; [|done].
  rewrite IH. by apply (clean_merged_column_len df col).
Qed.

Lemma dropna_rows_len df : (len (dropna_rows df) <= len df)%nat.
Proof. rewrite /len /dropna_rows /=. apply length_filter. Qed.





(** With cleaning switched off the two copies of the row both stay. *)
Example merge_keeps_duplicates_when_asked :
  len (_merge_tables [Scenario.alice; Scenario.alice] (<["clean_data" := Py.PBool false]> ∅)) = 2%nat.
Proof. vm_compute. reflexivity. Qed.

Lemma elem_of_positions j col (ls : list label) :
  j ∈ positions col ls <-> ls !! j = Some col.
Proof.
  rewrite /positions list_elem_of_fmap. split.
  - intros ([i l] & -> & Hin). apply list_elem_of_filter in Hin as [Hl Hin]. simpl in *. subst.
    apply elem_of_lookup_imap in Hin as (i' & y & [= -> ->] & Hy). done.
  - intros Hj. exists (j, col). split; [done|]. apply list_elem_of_filter. split; [done|].
    apply elem_of_lookup_imap. by exists j, col.
Qed.






Lemma rmapM_ok {A B} (f : A -> result B) (g : A -> B) l :
  Forall (fun x => f x = Ok (g x)) l -> rmapM f l = Ok (map g l).
Proof. induction 1 as [|x l Hx _ IH]; [done|]. simpl. by rewrite Hx /= IH. Qed.



Lemma imap_labels (g : nat -> label -> dtype) l :
  map fst (imap (fun j l => (l, g j l)) l) = l.
Proof.
  revert g. induction l as [|x l IH]; intros g; simpl; [done|].
  f_equal. apply (IH (fun j => g (S j))).
Qed.

Lemma concat_labels_same labs f0 fs :
  Forall (fun f => labels f = labs) (f0 :: fs) -> concat_labels (f0 :: fs) = labs.
Proof.
  intros [H0 Hall]%Forall_cons. rewrite /concat_labels.
  assert (forallb (fun f => bool_decide (labels f = labels f0)) fs = true) as ->; [|done].
  apply forallb_forall. intros f Hf%list_elem_of_In. apply bool_decide_eq_true.
  rewrite Forall_forall in Hall. rewrite H0. by apply Hall.
Qed.

Lemma concat_same_labels labs fs :
  fs <> [] -> Forall (fun f => labels f = labs) fs ->
  exists merged, concat fs = Ok merged /\ labels merged = labs /\
    map cells (rows merged) = flat_map (fun f => map cells (rows f)) fs.
Proof.
  intros Hne Hall. destruct fs as [|f0 fs]; [done|].
  rewrite /concat (concat_labels_same labs) //.
  assert (rmapM (concat_piece labs) (f0 :: fs) = Ok (map rows (f0 :: fs))) as ->.
  { apply rmapM_ok. eapply Forall_impl; [exact Hall|]. intros f Hf. rewrite /concat_piece.
    by destruct (decide _). }
  eexists. split; [done|]. split; [apply imap_labels|].
  rewrite renumber_cells. generalize (f0 :: fs). clear.
  intros l. induction l as [|f l IH]; [done|]. simpl. by rewrite map_app IH.
Qed.








End merging.

(** * Validation *)

Section validation.

Import Pd CSVConverter Facts.

(** The sparsity warning is issued exactly when the frame has cells and the
    quotient of empty cells by all cells, in binary64, exceeds 0.8. *)
Lemma sparse_warning_iff read_csv csv_data df :
  csv_data <> "" -> read_csv csv_data = Ok df ->
  forall ws, warnings (validate_csv_data read_csv csv_data) = Some ws ->
    (VerySparse ∈ ws <-> (0 < size df)%nat /\ sparse (count_null df) (size df) = true).
Proof.
  intros Hne Hr ws. rewrite /validate_csv_data.
  destruct (String.eqb_spec csv_data ""); [done|]. rewrite Hr /=. intros [= <-].
  rewrite !elem_of_app. split.
  - intros [Hw|[Hw|Hw]].
    + destruct (null_columns df); [by apply elem_of_nil in Hw|].
      by apply list_elem_of_singleton in Hw.
    + destruct (0 <? size df)%nat eqn:Hs; simpl in Hw; [|by apply elem_of_nil in Hw].
      destruct (sparse _ _); [|by apply elem_of_nil in Hw].
      split; [by apply Nat.ltb_lt|done].
    + destruct (inconsistent_rows csv_data); [by apply elem_of_nil in Hw|].
      by apply list_elem_of_singleton in Hw.
  - intros [Hs%Nat.ltb_lt Hsp]. right; left. rewrite Hs Hsp /=. left.
Qed.

(** C9: on the serialization of the 5 by 3 table with 3 values, the
    quotient 12/15 is the double 0.8 itself, which does not exceed 0.8: the
    report gives 80 percent of empty cells and no warning at all. *)
Theorem sparse_scenario_not_flagged read_csv :
  read_csv Scenario.sparse_csv = Ok Scenario.sparse_frame ->
  validate_csv_data read_csv Scenario.sparse_csv =
    mkReport true [] (Some []) (Some 5%nat) (Some 3%nat) (Some (NFloat 80%float)).
Proof.
  intros Hr. rewrite /validate_csv_data.
  change (String.eqb Scenario.sparse_csv "") with false. cbv iota. rewrite Hr.
  vm_compute. reflexivity.
Qed.

Lemma sparse_scenario_not_flagged_witness :
  validate_csv_data (fun _ => Ok Scenario.sparse_frame) Scenario.sparse_csv =
    mkReport true [] (Some []) (Some 5%nat) (Some 3%nat) (Some (NFloat 80%float)).
Proof. by apply (sparse_scenario_not_flagged (fun _ => Ok Scenario.sparse_frame)). Defined.

(** One more empty cell and the warning appears. *)
Example thirteen_of_fifteen_flagged : sparse 13 15 = true /\ sparse 12 15 = false.
Proof. split; reflexivity. Qed.

End validation.

(** * Page selection *)

Section pages.

Import Pd PDFExtractor Facts.

Lemma contains_char x s : Py.contains (String x EmptyString) s = occurs x s.
Proof.
  induction s as [|c s IH]; [done|]. simpl. rewrite IH.
  destruct (ascii_dec x c) as [->|Hne].
  - rewrite Ascii.eqb_refl. by destruct s.
  - assert (Ascii.eqb c x = false) as -> by (apply Ascii.eqb_neq; congruence). done.
Qed.

Lemma occurs_lstrip x s : occurs x s = false -> occurs x (Py.lstrip s) = false.
Proof.
  induction s as [|c s IH]; [done|]. simpl.
  intros [Hc Hs]%orb_false_elim. destruct (Py.isspace c); [auto|]. simpl. by rewrite Hc Hs.
Qed.

Lemma occurs_rstrip x s : occurs x s = false -> occurs x (Py.rstrip s) = false.
Proof.
  induction s as [|c s IH]; [done|]. simpl.
  intros [Hc Hs]%orb_false_elim. specialize (IH Hs).
  destruct (Py.rstrip s) as [|c' r].
  - destruct (Py.isspace c); [done|]. simpl. by rewrite Hc.
  - simpl in *. by rewrite Hc IH.
Qed.

Lemma occurs_strip x s : occurs x s = false -> occurs x (Py.strip s) = false.
Proof. intros. by apply occurs_lstrip, occurs_rstrip. Qed.

Lemma digit_of_nonneg c d : Py.digit_of c = Some d -> 0 <= d.
Proof.
  rewrite /Py.digit_of. destruct (_ && _) eqn:H; [|done]. intros [= <-].
  apply andb_true_iff in H as [H%Nat.leb_le _]. lia.
Qed.

Lemma int_digits_nonneg s acc prev z :
  0 <= acc -> Py.int_digits acc prev s = Some z -> 0 <= z.
Proof.
  revert acc prev. induction s as [|c s IH]; intros acc prev Hacc; simpl.
  - destruct prev; [by intros [= <-]|done].
  - destruct (Py.digit_of c) as [d|] eqn:Hd.
    + apply IH. apply digit_of_nonneg in Hd. lia.
    + destruct (_ && _); [|done]. destruct s as [|c' s']; [done|].
      destruct (Py.digit_of c'); [|done]. by apply IH.
Qed.

Lemma int_nonneg s z : occurs "-" s = false -> Py.int s = Ok z -> 0 <= z.
Proof.
  intros Ho%occurs_strip. rewrite /Py.int.
  assert (forall t, match Py.int_digits 0 false t with
                    | Some z0 => Ok (1 * z0)
                    | None => Raise ValueError
                    end = Ok z -> 0 <= z) as Hbody.
  { intros t. destruct (Py.int_digits 0 false t) as [z0|] eqn:Hz; [|done].
    intros [= <-]. apply int_digits_nonneg in Hz; lia. }
  destruct (Py.strip s) as [|c t]; [apply Hbody|].
  destruct (ascii_dec c "-") as [->|Hc]; [by rewrite /= in Ho|].
  destruct c as [[] [] [] [] [] [] [] []]; try apply Hbody; done.
Qed.

Lemma split_char_pieces x s p :
  p ∈ Py.split (String x EmptyString) s -> occurs x p = false.
Proof.
  rewrite /Py.split. revert p. induction s as [|c s IH]; intros p.
  - simpl. by intros ->%list_elem_of_singleton.
  - cbn [Py.split_go String.length Nat.sub]. cbn [String.prefix].
    destruct (ascii_dec x c) as [->|Hne].
    + replace (String.prefix "" s) with true by (by destruct s).
      intros [->|Hin]%elem_of_cons; [done|]. by apply IH.
    + destruct (Py.split_go _ 0 s) as [|h t] eqn:Hs.
      * intros ->%list_elem_of_singleton. simpl.
        rewrite orb_false_r. apply Ascii.eqb_neq. congruence.
      * intros [->|Hin]%elem_of_cons.
        -- simpl. rewrite (IH h); [|left]. rewrite orb_false_r. apply Ascii.eqb_neq. congruence.
        -- apply IH. by right.
Qed.


Lemma parse_range_nonneg n s start stop :
  (forall a b, Py.split "-" s = [a; b] -> Py.int a <> Ok 0) ->
  parse_range n s = Ok (start, stop) -> 0 <= start /\ 0 <= stop.
Proof.
  intros Hone. rewrite /parse_range.
  destruct (Py.split "-" s) as [|a [|b [|? ?]]] eqn:Hs; try done.
  assert (occurs "-" a = false /\ occurs "-" b = false) as [Ha Hb].
  { split; apply (split_char_pieces "-" s); rewrite Hs; [left|right; left]. }
  specialize (Hone a b eq_refl).
  destruct (decide (a = "")) as [->|Hne]; simpl.
  - destruct (decide (b = "end")); simpl.
    + intros [= <- <-]. lia.
    + destruct (Py.int b) as [z|] eqn:Hz; simpl; [|done]. intros [= <- <-].
      apply int_nonneg in Hz; [lia|done].
  - destruct (Py.int a) as [za|] eqn:Hza; simpl; [|done].
    pose proof (int_nonneg _ _ Ha Hza).
    assert (za <> 0) by congruence.
    destruct (decide (b = "end")); simpl.
    + intros [= <- <-]. lia.
    + destruct (Py.int b) as [z|] eqn:Hz; simpl; [|done]. intros [= <- <-].
      apply int_nonneg in Hz; [lia|done].
Qed.

Lemma rmapM_getindex_range n start len :
  0 <= start -> (Z.to_nat start + len <= n)%nat ->
  rmapM (getindex n) (map (fun k => start + Z.of_nat k) (seq 0 len)) = Ok (seq (Z.to_nat start) len).
Proof.
  revert start. induction len as [|len IH]; intros start Hs Hn; [done|].
  simpl. rewrite /getindex. destruct (decide _) as [_|Hno]; [|lia]. simpl.
  rewrite -seq_shift map_map.
  rewrite (map_ext _ (fun k => (start + 1) + Z.of_nat k)); [|intros k; lia].
  rewrite IH; [|lia|lia]. simpl. repeat f_equal; lia.
Qed.

Lemma range_slice n start stop :
  0 <= start -> 0 <= stop ->
  rmapM (getindex n) (range start (Z.min stop (Z.of_nat n))) = Ok (slice n start stop).
Proof.
  intros Hs He. rewrite /range /slice /slice_bound.
  destruct (decide (start < 0)); [lia|]. destruct (decide (stop < 0)); [lia|].
  destruct (decide (start < Z.of_nat n)) as [Hlt|Hge].
  - rewrite rmapM_getindex_range; [|done|lia]. f_equal. f_equal; lia.
  - replace (Z.to_nat (Z.min stop (Z.of_nat n) - start)) with 0%nat by lia.
    replace (_ - _)%nat with 0%nat by lia. done.
Qed.

Lemma pages_agree n pages_range :
  (forall s a b, pages_range = Py.PStr s -> Py.split "-" s = [a; b] -> Py.int a <> Ok 0) ->
  plumber_pages n pages_range = pypdf2_positions n pages_range.
Proof.
  intros Hone. rewrite /plumber_pages /pypdf2_positions /pypdf2_pages.
  assert (rmapM (getindex n) (range 0 (Z.of_nat n)) = Ok (seq 0 n)) as Hall.
  { clear. rewrite /range. replace (Z.to_nat (Z.of_nat n - 0)) with n by lia.
    by rewrite rmapM_getindex_range. }
  destruct pages_range as [| | |s]; try (by rewrite /= Hall).
  destruct (Py.truthy (Py.PStr s)); [|by rewrite /= Hall].
  destruct (Py.contains "-" s).
  - destruct (parse_range n s) as [[start stop]|e] eqn:Hp; [|done]. simpl.
    apply parse_range_nonneg in Hp as [? ?]; [|intros a b; by apply Hone].
    by rewrite range_slice.
  - by destruct (parse_list s).
Qed.


Lemma tabula_gets_raw_pages w kwargs log f :
  tabula w = Some f ->
  exists r,
    _extract_with_tabula w kwargs log
      = ((log ++ [mkCall Tabula (tabula_args kwargs)])%list, r) /\
    tabula_args kwargs !! "pages" = Some (Py.get kwargs "pages" (Py.PStr "all")).
Proof.
  intros Hf. rewrite /_extract_with_tabula try_reraise /bind /tabula_read_pdf Hf /invoke.
  destruct (f _) as [[|d0 dfs]|e]; (eexists; split; [reflexivity|by rewrite /tabula_args; simplify_map_eq]).
Qed.

Lemma camelot_gets_raw_pages w kwargs log f :
  camelot w = Some f ->
  exists r,
    _extract_with_camelot w kwargs log
      = ((log ++ [mkCall Camelot (camelot_args kwargs)])%list, r) /\
    camelot_args kwargs !! "pages" = Some (Py.get kwargs "pages" (Py.PStr "1-end")).
Proof.
  intros Hf. rewrite /_extract_with_camelot try_reraise /bind /camelot_read_pdf Hf /invoke.
  destruct (f _) as [[|d0 dfs]|e]; (eexists; split; [reflexivity|by rewrite /camelot_args; simplify_map_eq]).
Qed.

(** C5, counterexample: tabula is handed the caller's 1-based text as it
    is; the selector "all" makes the PyPDF2 and pdfplumber backends raise;
    and on "0-2" over three pages pdfplumber reads no page where PyPDF2
    reads the pages at positions 2, 0, 1. *)
Lemma page_selector_not_normalized :
  (exists kw res,
     extract_data Scenario.tabula_people
       (<["method" := Py.PStr "tabula"]> (<["pages" := Py.PStr "2-3"]> ∅)) []
       = ([mkCall Tabula kw], Ok res) /\
     kw !! "pages" = Some (Py.PStr "2-3")) /\
  (exists log,
     extract_data Scenario.three_pages
       (<["method" := Py.PStr "pypdf2"]> (<["pages" := Py.PStr "all"]> ∅)) []
       = (log, Raise ValueError)) /\
  (exists log,
     extract_data Scenario.three_pages
       (<["method" := Py.PStr "pdfplumber"]> (<["pages" := Py.PStr "all"]> ∅)) []
       = (log, Raise ValueError)) /\
  plumber_pages 3 (Py.PStr "0-2") = Ok [] /\
  pypdf2_positions 3 (Py.PStr "0-2") = Ok [2; 0; 1]%nat.
Proof.
  split; [|split; [|split; [|split]]].
  - do 2 eexists. split; [vm_compute; reflexivity|]. reflexivity.
  - eexists. vm_compute. reflexivity.
  - eexists. vm_compute. reflexivity.
  - reflexivity.
  - reflexivity.
Qed.

(** C5, amended: the page selector is not normalized by the coordinator.
    tabula and camelot are handed the caller's [pages] option as it is
    ("all" and "1-end" when there is none); pdfplumber and PyPDF2 each
    turn a "start-end" range or a comma-separated list of 1-based page
    numbers into 0-based positions themselves, and the two read the same
    positions for every selector whose range does not start at page 0. *)
Theorem page_selector_per_backend :
  (forall w kwargs log f,
     tabula w = Some f ->
     exists r,
       _extract_with_tabula w kwargs log
         = ((log ++ [mkCall Tabula (tabula_args kwargs)])%list, r) /\
       tabula_args kwargs !! "pages" = Some (Py.get kwargs "pages" (Py.PStr "all"))) /\
  (forall w kwargs log f,
     camelot w = Some f ->
     exists r,
       _extract_with_camelot w kwargs log
         = ((log ++ [mkCall Camelot (camelot_args kwargs)])%list, r) /\
       camelot_args kwargs !! "pages" = Some (Py.get kwargs "pages" (Py.PStr "1-end"))) /\
  (forall n pages_range,
     (forall s a b, pages_range = Py.PStr s -> Py.split "-" s = [a; b] -> Py.int a <> Ok 0) ->
     plumber_pages n pages_range = pypdf2_positions n pages_range).
Proof.
  split; [exact tabula_gets_raw_pages|]. split; [exact camelot_gets_raw_pages|].
  exact pages_agree.
Qed.

Lemma page_selector_per_backend_witness :
  plumber_pages 5 (Py.PStr "2-4") = pypdf2_positions 5 (Py.PStr "2-4") /\
  plumber_pages 5 (Py.PStr "2-4") = Ok [1; 2; 3]%nat.
Proof.
  split; [|reflexivity].
  apply (proj2 (proj2 page_selector_per_backend) 5%nat (Py.PStr "2-4")).
  intros s a b [= <-]. vm_compute. intros [= <- <-]. discriminate.
Defined.

End pages.

(** * Table clean-up *)

Section cleaning.

Import Pd PDFExtractor Facts.

(** strings *)
Lemma lstrip_idem s : Py.lstrip (Py.lstrip s) = Py.lstrip s.
Proof.
  induction s as [|c s IH]; [done|]. simpl.
  destruct (Py.isspace c) eqn:Hc; [done|]. by rewrite /= Hc.
Qed.

Lemma rstrip_idem s : Py.rstrip (Py.rstrip s) = Py.rstrip s.
Proof.
  induction s as [|c s IH]; [done|]. simpl.
  destruct (Py.rstrip s) as [|c' r] eqn:Hr.
  - destruct (Py.isspace c) eqn:Hc; [done|]. by rewrite /= Hc.
  - simpl in *. by rewrite IH.
Qed.

Lemma rstrip_lstrip s : Py.rstrip (Py.lstrip s) = Py.lstrip (Py.rstrip s).
Proof.
  induction s as [|c s IH]; [done|]. simpl.
  destruct (Py.isspace c) eqn:Hc.
  - rewrite IH. destruct (Py.rstrip s) as [|c' r]; [done|]. by rewrite /= Hc.
  - simpl. by destruct (Py.rstrip s); rewrite /= Hc.
Qed.

Lemma strip_idem s : Py.strip (Py.strip s) = Py.strip s.
Proof. by rewrite /Py.strip rstrip_lstrip rstrip_idem lstrip_idem. Qed.

Lemma clean_cell_idem c : clean_cell (clean_cell c) = clean_cell c.
Proof.
  rewrite /clean_cell /astype_str_strip /replace.
  destruct (decide (Text (Py.strip (str c)) = Text "nan")) as [He|Hne]; [done|].
  simpl. rewrite strip_idem. by destruct (decide _).
Qed.

Lemma clean_cell_notna c : notna (clean_cell c) = true.
Proof. rewrite /clean_cell /astype_str_strip /replace. by destruct (decide _). Qed.


(** select *)
Lemma select_map {A B} (f : A -> B) keep xs : map f (select keep xs) = select keep (map f xs).
Proof.
  revert xs. induction keep as [|b keep IH]; intros [|x xs]; simpl; try done.
  destruct b; simpl; by rewrite IH.
Qed.

Lemma select_zip_with {A B C} (f : A -> B -> C) keep xs ys :
  length xs = length ys ->
  zip_with f (select keep xs) (select keep ys) = select keep (zip_with f xs ys).
Proof.
  revert xs ys. induction keep as [|b keep IH]; intros [|x xs] [|y ys] Hl; simpl in *; try done.
  destruct b; simpl; rewrite IH; auto.
Qed.

Lemma select_length_eq {A B} keep (xs : list A) (ys : list B) :
  length xs = length ys -> length (select keep xs) = length (select keep ys).
Proof.
  revert xs ys. induction keep as [|b keep IH]; intros [|x xs] [|y ys] Hl; simpl in *; try done.
  destruct b; simpl; auto.
Qed.

Lemma select_replicate {A} keep n (x : A) :
  select keep (replicate n x) = replicate (length (select keep (replicate n x))) x.
Proof.
  revert n. induction keep as [|b keep IH]; intros [|n]; simpl; try done.
  destruct b; simpl; by rewrite -IH.
Qed.

Lemma select_self keep : select keep keep = replicate (length (select keep keep)) true.
Proof. induction keep as [|[] keep IH]; simpl; [done| |done]. by rewrite -IH. Qed.

Lemma select_all {A} n (xs : list A) : length xs = n -> select (replicate n true) xs = xs.
Proof.
  revert n. induction xs as [|x xs IH]; intros [|n] Hl; simpl in *; try done.
  rewrite IH; auto.
Qed.

(** masks *)

Lemma le_mask_refl a : le_mask a a.
Proof. by apply Forall2_same_length_lookup; split; [done|]; intros; simplify_eq. Qed.

Lemma le_mask_trans a b c : le_mask a b -> le_mask b c -> le_mask a c.
Proof. apply Forall2_trans. auto. Qed.

Lemma le_mask_orb_l a b : length a = length b -> le_mask a (zip_with orb a b).
Proof.
  revert b. induction a as [|x a IH]; intros [|y b] Hl; simpl in *; try done; constructor.
  - intros ->. done.
  - apply IH. lia.
Qed.

Lemma le_mask_orb_r a b c : length a = length b -> le_mask c b -> le_mask c (zip_with orb a b).
Proof.
  intros Hl Hcb. revert a Hl. induction Hcb as [|x y c b Hxy Hcb IH]; intros [|z a] Hl; simpl in *; try done;
    constructor.
  - intros ->%Hxy. by destruct z.
  - apply IH. lia.
Qed.

Lemma le_mask_orb_mono a a' b b' :
  le_mask a a' -> le_mask b b' -> le_mask (zip_with orb a b) (zip_with orb a' b').
Proof.
  intros Ha. revert b b'. induction Ha as [|x x' a a' Hx Ha IH]; intros b b' Hb; simpl.
  - constructor.
  - destruct Hb as [|y y' b b' Hy Hb]; [constructor|]. constructor; [|by apply IH].
    intros [->%Hx | ->%Hy]%orb_true_iff; [done|by destruct x'].
Qed.

Lemma le_mask_all_true n m : le_mask (replicate n true) m -> m = replicate n true.
Proof.
  revert m. induction n as [|n IH]; intros m Hm; inversion Hm; subst; simpl; [done|].
  f_equal; auto.
Qed.

Lemma any_notna_length n rs :
  Forall (fun r => length (cells r) = n) rs -> length (any_notna n rs) = n.
Proof.
  induction 1 as [|r rs Hr _ IH]; simpl; [by rewrite length_replicate|].
  rewrite length_zip_with length_map. lia.
Qed.

Lemma any_notna_ge n rs r :
  Forall (fun r => length (cells r) = n) rs -> r ∈ rs ->
  le_mask (map notna (cells r)) (any_notna n rs).
Proof.
  induction 1 as [|r0 rs Hr0 Hrs IH]; [by intros ?%elem_of_nil|].
  pose proof (any_notna_length n rs Hrs) as Hlen.
  intros [->|Hin]%elem_of_cons; simpl.
  - apply le_mask_orb_l. rewrite length_map. lia.
  - apply le_mask_orb_r; [rewrite length_map; lia|auto].
Qed.

Lemma existsb_select keep cs :
  le_mask (map notna cs) keep -> existsb notna cs = true -> existsb notna (select keep cs) = true.
Proof.
  revert keep. induction cs as [|c cs IH]; intros keep Hle; inversion Hle as [|? b ? keep' Hb Hle']; subst;
    simpl; [done|].
  intros [Hc|Hcs]%orb_true_iff.
  - rewrite (Hb Hc) /= Hc. done.
  - destruct b; simpl; rewrite IH //. by rewrite orb_true_r.
Qed.

Lemma existsb_mono (cs cs' : list cell) :
  le_mask (map notna cs) (map notna cs') -> existsb notna cs = true -> existsb notna cs' = true.
Proof.
  revert cs'. induction cs as [|c cs IH]; intros [|c' cs'] Hle; inversion Hle; subst; simpl; try done.
  intros [Hc|Hcs]%orb_true_iff.
  - by rewrite H2.
  - rewrite (IH cs') //. by rewrite orb_true_r.
Qed.

Lemma any_notna_select n keep rs :
  Forall (fun r => length (cells r) = n) rs ->
  any_notna (length (select keep (replicate n false)))
            (map (fun r => mkRow (index r) (select keep (cells r))) rs)
  = select keep (any_notna n rs).
Proof.
  induction 1 as [|r rs Hr Hrs IH]; simpl.
  - by rewrite -select_replicate.
  - rewrite IH select_map select_zip_with //.
    rewrite length_map any_notna_length //.
Qed.

Lemma any_notna_mono n rs rs' :
  Forall2 (fun r r' => le_mask (map notna (cells r)) (map notna (cells r'))) rs rs' ->
  le_mask (any_notna n rs) (any_notna n rs').
Proof.
  induction 1 as [|r r' rs rs' Hr Hrs IH]; simpl; [apply le_mask_refl|].
  by apply le_mask_orb_mono.
Qed.


(** alters *)
Lemma alters_length js cs : length (alters js cs) = length cs.
Proof.
  rewrite /alters. revert cs. induction js as [|j js IH]; intros cs; simpl; [done|].
  by rewrite IH length_alter.
Qed.

Lemma alters_lookup js cs i :
  alters js cs !! i = (if decide (i ∈ js) then clean_cell else id) <$> cs !! i.
Proof.
  rewrite /alters. revert cs. induction js as [|j js IH]; intros cs; simpl.
  - destruct (decide (i ∈ [])) as [Hin%elem_of_nil|_]; [done|]. by destruct (cs !! i).
  - rewrite IH list_lookup_alter.
    destruct (decide (i ∈ j :: js)) as [Hin'|Hin'];
      destruct (decide (j = i)) as [->|Hne];
      destruct (decide (i ∈ js)) as [Hin|Hin];
      destruct (cs !! i) as [c|]; simpl; try done;
      try (by rewrite clean_cell_idem);
      try (exfalso; apply Hin'; by constructor).
    exfalso. apply elem_of_cons in Hin' as [->|?]; done.
Qed.

Lemma alters_idem js cs : alters js (alters js cs) = alters js cs.
Proof.
  apply list_eq. intros i. rewrite !alters_lookup.
  destruct (cs !! i) as [c|]; simpl; [|done].
  destruct (decide (i ∈ js)); simpl; [by rewrite clean_cell_idem|done].
Qed.

Lemma alters_le_mask js cs : le_mask (map notna cs) (map notna (alters js cs)).
Proof.
  apply Forall2_same_length_lookup. split; [by rewrite !length_map alters_length|].
  intros i x y. rewrite !list_lookup_fmap alters_lookup.
  destruct (cs !! i) as [c|]; simpl; [|done]. intros [= <-] [= <-].
  destruct (decide (i ∈ js)); simpl; [by rewrite clean_cell_notna|done].
Qed.

Lemma row_eta r : mkRow (index r) (cells r) = r.
Proof. by destruct r. Qed.

Lemma alter_rows_nil rs : alter_rows [] rs = rs.
Proof. rewrite /alter_rows /=. induction rs as [|r rs IH]; [done|]. by rewrite /= row_eta IH. Qed.

Lemma alter_rows_cons j js rs : alter_rows js (alter_rows [j] rs) = alter_rows (j :: js) rs.
Proof. by rewrite /alter_rows map_map. Qed.

(** the column loop *)
Lemma zip_with_map_same {A B C} (f : A -> B -> C) (g : A -> B) l :
  zip_with f l (map g l) = map (fun x => f x (g x)) l.
Proof. induction l as [|x l IH]; [done|]. by rewrite /= IH. Qed.

Lemma insert_insert_alter (f g : cell -> cell) d j (l : list cell) :
  <[j := g (default d (<[j := f (default d (l !! j))]> l !! j))]> (<[j := f (default d (l !! j))]> l)
  = alter (g ∘ f) j l.
Proof.
  destruct (l !! j) as [c|] eqn:Hj.
  - pose proof (lookup_lt_Some _ _ _ Hj) as Hlt.
    rewrite list_lookup_insert_eq // list_insert_insert_eq /=.
    apply list_eq. intros i. rewrite list_lookup_insert list_lookup_alter.
    destruct (decide (j = i)) as [->|Hne].
    + destruct (decide _) as [_|Hn]; [by rewrite Hj|]. exfalso. by apply Hn.
    + destruct (decide _) as [[? _]|_]; done.
  - pose proof (lookup_ge_None_1 _ _ Hj) as Hge.
    rewrite !list_insert_ge //.
    apply list_eq. intros i. rewrite list_lookup_alter.
    destruct (decide (j = i)) as [->|Hne]; [by rewrite Hj|done].
Qed.

Lemma header_at H j col :
  positions col (map fst H) = [j] -> default DObject (map snd H !! j) = DObject ->
  H !! j = Some (col, DObject).
Proof.
  intros Hp Hd. assert (j ∈ positions col (map fst H)) as Hj by (rewrite Hp; left).
  apply elem_of_positions in Hj. rewrite !list_lookup_fmap in Hj, Hd.
  destruct (H !! j) as [[l d]|]; simpl in *; [|done]. by simplify_eq.
Qed.

Lemma setitem_closed H rs col j (f : cell -> cell) :
  positions col (map fst H) = [j] -> H !! j = Some (col, DObject) ->
  setitem (mkDF H rs) col (map f (column_at j (mkDF H rs)))
  = mkDF H (map (fun r => mkRow (index r)
                            (<[j := f (default (Missing NaN) (cells r !! j))]> (cells r))) rs).
Proof.
  intros Hp Hj. rewrite /setitem /labels /= Hp (list_insert_id _ _ _ Hj). f_equal.
  by rewrite /column_at /= map_map zip_with_map_same.
Qed.

Lemma getitem_closed H rs col j :
  positions col (map fst H) = [j] ->
  getitem (mkDF H rs) col
  = Ok (Series (default DObject (map snd H !! j)) (column_at j (mkDF H rs))).
Proof. intros Hp. by rewrite /getitem /labels /= Hp. Qed.

Lemma clean_column_closed H rs col :
  clean_column (mkDF H rs) col =
    match positions col (map fst H) with
    | [j] =>
        if decide (default DObject (map snd H !! j) = DObject)
        then Ok (mkDF H (alter_rows [j] rs))
        else Ok (mkDF H rs)
    | [] => Raise KeyError
    | _ => Raise AttributeError
    end.
Proof.
  rewrite /clean_column.
  destruct (positions col (map fst H)) as [|j [|j' ps]] eqn:Hp;
    [by rewrite /getitem /labels /= Hp| |by rewrite /getitem /labels /= Hp].
  rewrite (getitem_closed _ _ _ _ Hp) /=.
  destruct (decide _) as [Hd|Hd]; [|done].
  pose proof (header_at _ _ _ Hp Hd) as Hj.
  rewrite (setitem_closed _ _ _ _ _ Hp Hj) (getitem_closed _ _ _ _ Hp) /=.
  rewrite (setitem_closed _ _ _ _ _ Hp Hj). do 2 f_equal.
  rewrite /alter_rows map_map /=. apply map_ext. intros r. f_equal.
  apply insert_insert_alter.
Qed.

Lemma clean_columns_closed cols H rs :
  clean_columns cols (mkDF H rs) =
    (mkDF H (alter_rows (cleaned_positions cols H).1 rs), (cleaned_positions cols H).2).
Proof.
  revert rs. induction cols as [|col cols IH]; intros rs; simpl.
  - by rewrite alter_rows_nil.
  - rewrite clean_column_closed.
    destruct (positions col (map fst H)) as [|j [|j' ps]]; simpl; try by rewrite alter_rows_nil.
    destruct (decide _); [|apply IH].
    rewrite IH. destruct (cleaned_positions cols H) as [js st]. simpl.
    by rewrite alter_rows_cons.
Qed.


(** frames *)
Lemma filter_all {A} (P : A -> Prop) `{forall x, Decision (P x)} l :
  Forall P l -> filter P l = l.
Proof.
  induction 1 as [|x l Hx _ IH]; [done|]. by rewrite filter_cons_True // IH.
Qed.

Lemma any_notna_ext n rs rs' :
  map cells rs = map cells rs' -> any_notna n rs = any_notna n rs'.
Proof.
  revert rs'. induction rs as [|r rs IH]; intros [|r' rs'] Heq; simpl in *; try done.
  injection Heq as Hr Hrs. by rewrite Hr (IH rs').
Qed.

Lemma Forall_cells (P : list cell -> Prop) rs rs' :
  map cells rs = map cells rs' ->
  Forall (fun r => P (cells r)) rs -> Forall (fun r => P (cells r)) rs'.
Proof.
  intros Heq H1. apply (Forall_fmap cells P) in H1. apply (Forall_fmap cells P).
  change (cells <$> rs') with (map cells rs'). by rewrite -Heq.
Qed.

Lemma renumber_idem rs : renumber (renumber rs) = renumber rs.
Proof.
  rewrite /renumber. apply list_eq. intros i. rewrite !list_lookup_imap.
  by destruct (rs !! i).
Qed.

Lemma dropna_facts df :
  wf df ->
  let df1 := dropna_cols (dropna_rows df) in
  wf df1 /\
  Forall (fun r => existsb notna (cells r) = true) (rows df1) /\
  any_notna (ncols df1) (rows df1) = replicate (ncols df1) true.
Proof.
  destruct df as [H rs]. rewrite /wf /ncols /=. intros Hwf.
  set (rs0 := filter (fun r => existsb notna (cells r) = true) rs).
  assert (Forall (fun r => length (cells r) = length H) rs0) as Hwf0.
  { apply Forall_forall. intros r [_ Hr]%list_elem_of_filter.
    rewrite Forall_forall in Hwf. by apply Hwf. }
  assert (Forall (fun r => existsb notna (cells r) = true) rs0) as Hex0.
  { apply Forall_forall. by intros r [Hr _]%list_elem_of_filter. }
  set (keep := any_notna (length H) rs0).
  assert (length keep = length H) as Hk by (by apply any_notna_length).
  rewrite /dropna_cols /= -/rs0 -/keep.
  split; [|split].
  - apply Forall_fmap, Forall_forall. intros r Hr. simpl.
    apply select_length_eq. rewrite Forall_forall in Hwf0. by apply Hwf0.
  - apply Forall_fmap, Forall_forall. intros r Hr. simpl.
    apply existsb_select; [by apply any_notna_ge|].
    rewrite Forall_forall in Hex0. by apply Hex0.
  - rewrite (select_length_eq keep H (replicate (length H) false)); [|by rewrite length_replicate].
    rewrite any_notna_select // -/keep.
    rewrite (select_length_eq keep (replicate (length H) false) keep); [|by rewrite length_replicate].
    apply select_self.
Qed.

Lemma set_columns_facts df ls :
  length ls = ncols df ->
  labels (set_columns df ls) = ls /\ ncols (set_columns df ls) = ncols df /\
  rows (set_columns df ls) = rows df.
Proof.
  intros Hl. rewrite /set_columns /labels /ncols /dtypes /=. split; [|split; [|done]].
  - apply fst_zip. rewrite length_map. rewrite /ncols in Hl. lia.
  - rewrite length_zip length_map. rewrite /ncols in Hl. lia.
Qed.

Lemma Clean_intro H rs0 rs :
  map cells rs = map cells (alter_rows (cleaned_positions (map fst H) H).1 rs0) ->
  Forall (fun r => length (cells r) = length H) rs0 ->
  Forall (fun r => existsb notna (cells r) = true) rs0 ->
  any_notna (length H) rs0 = replicate (length H) true ->
  Forall (fun l => exists s, l = LStr s /\ Py.strip s = s) (map fst H) ->
  ((cleaned_positions (map fst H) H).2 = None -> renumber rs = rs) ->
  Clean (mkDF H rs).
Proof.
  intros Heq Hwf Hex Hmask Hlab Hren. rewrite /Clean /wf /ncols /labels /=.
  set (js := (cleaned_positions (map fst H) H).1) in *.
  assert (Forall2 (fun r r' => le_mask (map notna (cells r)) (map notna (cells r')))
            rs0 (alter_rows js rs0)) as Hle.
  { rewrite /alter_rows. apply Forall2_fmap_r, Forall_Forall2_diag, Forall_forall.
    intros r _. apply alters_le_mask. }
  split_and!.
  - apply (Forall_cells (fun cs => length cs = length H) _ _ (eq_sym Heq)).
    apply Forall_fmap, Forall_forall. intros r Hr. rewrite /= alters_length.
    rewrite Forall_forall in Hwf. by apply Hwf.
  - apply (Forall_cells (fun cs => existsb notna cs = true) _ _ (eq_sym Heq)).
    apply Forall_fmap, Forall_forall. intros r Hr. simpl.
    apply (existsb_mono (cells r)); [apply alters_le_mask|].
    rewrite Forall_forall in Hex. by apply Hex.
  - rewrite (any_notna_ext _ _ _ Heq). apply le_mask_all_true.
    rewrite -Hmask. by apply any_notna_mono.
  - done.
  - apply (Forall_cells (fun cs => alters js cs = cs) _ _ (eq_sym Heq)).
    apply Forall_fmap, Forall_forall. intros r Hr. apply alters_idem.
  - done.
Qed.

Lemma clean_makes_Clean df : wf df -> Clean (_clean_dataframe df).
Proof.
  intros Hwf. pose proof (dropna_facts df Hwf) as Hf. rewrite /_clean_dataframe.
  revert Hf. generalize (dropna_cols (dropna_rows df)). clear.
  intros [H1 rs1]. rewrite /wf /ncols /=. intros (Hwf1 & Hex1 & Hmask1).
  rewrite /set_columns /labels /dtypes /=.
  set (ls := map (fun col => LStr (Py.strip (label_str col))) (map fst H1)).
  set (H2 := zip ls (map snd H1)).
  assert (map fst H2 = ls) as Hfst.
  { apply fst_zip. by rewrite /ls !length_map. }
  assert (length H2 = length H1) as Hlen.
  { rewrite /H2 length_zip /ls !length_map. lia. }
  assert (Forall (fun l => exists s, l = LStr s /\ Py.strip s = s) (map fst H2)) as Hlab.
  { rewrite Hfst /ls. apply Forall_fmap, Forall_forall. intros l _. eexists. split; [done|].
    apply strip_idem. }
  rewrite Hfst clean_columns_closed. rewrite -Hlen in Hwf1, Hmask1.
  destruct (cleaned_positions ls H2) as [js st] eqn:Hcp. simpl.
  destruct st as [e|].
  - apply (Clean_intro H2 rs1); rewrite ?Hfst ?Hcp //. by rewrite -Hfst.
  - apply (Clean_intro H2 rs1); rewrite ?Hfst ?Hcp //=.
    + by rewrite renumber_cells.
    + by rewrite -Hfst.
    + intros _. apply renumber_idem.
Qed.

Lemma clean_fixed df : Clean df -> _clean_dataframe df = df.
Proof.
  destruct df as [H rs]. rewrite /Clean /wf /ncols /labels /=.
  intros (Hwf & Hex & Hmask & Hlab & Halt & Hren).
  rewrite /_clean_dataframe.
  assert (dropna_rows (mkDF H rs) = mkDF H rs) as ->.
  { rewrite /dropna_rows /=. by rewrite filter_all. }
  assert (dropna_cols (mkDF H rs) = mkDF H rs) as ->.
  { rewrite /dropna_cols /ncols /= Hmask select_all //. f_equal.
    rewrite -{2}(map_id rs). apply map_ext_in. intros r Hr%list_elem_of_In.
    rewrite Forall_forall in Hwf. rewrite select_all; [|by apply Hwf]. apply row_eta. }
  assert (set_columns (mkDF H rs) (map (fun col => LStr (Py.strip (label_str col))) (labels (mkDF H rs)))
          = mkDF H rs) as ->.
  { rewrite /set_columns /labels /dtypes /=. f_equal.
    assert (map (fun col => LStr (Py.strip (label_str col))) (map fst H) = map fst H) as ->.
    { rewrite -{2}(map_id (map fst H)). apply map_ext_in. intros l Hl%list_elem_of_In.
      rewrite Forall_forall in Hlab. destruct (Hlab l Hl) as (s & -> & Hs). by rewrite /= Hs. }
    apply zip_fst_snd. }
  rewrite /labels /= clean_columns_closed.
  destruct (cleaned_positions (map fst H) H) as [js st]. simpl in *.
  assert (alter_rows js rs = rs) as ->.
  { rewrite /alter_rows -{2}(map_id rs). apply map_ext_in. intros r Hr%list_elem_of_In.
    rewrite Forall_forall in Halt. rewrite (Halt r Hr). apply row_eta. }
  destruct st; [done|]. by rewrite /reset_index /= Hren.
Qed.

(** C6: cleaning a cleaned table changes nothing, for every table in which
    each row has one cell per column. *)
Theorem clean_dataframe_idempotent df :
  wf df -> _clean_dataframe (_clean_dataframe df) = _clean_dataframe df.
Proof. intros Hwf. by apply clean_fixed, clean_makes_Clean. Qed.

Lemma clean_dataframe_idempotent_witness :
  wf Scenario.messy /\
  _clean_dataframe (_clean_dataframe Scenario.messy) = _clean_dataframe Scenario.messy.
Proof.
  assert (wf Scenario.messy) as Hwf by (repeat constructor).
  split; [exact Hwf|]. exact (clean_dataframe_idempotent Scenario.messy Hwf).
Defined.

(** The all-missing row and column go, texts and labels are trimmed, the
    text "nan" and the float [nan] become the empty text, the rows are
    renumbered. *)
Example clean_messy :
  _clean_dataframe Scenario.messy =
    mkDF [(LStr "Col1", DObject); (LStr "Col2", DObject)]
         [mkRow 0 [Text "Value1"; Text "Value3"];
          mkRow 1 [Text "Value2"; Text "Value4"];
          mkRow 2 [Text ""; Text ""]].
Proof. vm_compute. reflexivity. Qed.

End cleaning.

(** * More on table clean-up *)

Section cleaning_more.

Import Pd PDFExtractor Facts More.

Lemma trimmed_header_labels df :
  map fst (trimmed_header df)
  = map (fun col => LStr (Py.strip (label_str col))) (labels (dropna_cols (dropna_rows df))).
Proof. rewrite /trimmed_header. apply fst_zip. by rewrite /labels /dtypes !length_map. Qed.

Lemma trimmed_header_length df :
  length (trimmed_header df) = ncols (dropna_cols (dropna_rows df)).
Proof. rewrite /trimmed_header length_zip /labels /dtypes /ncols !length_map. lia. Qed.

Lemma clean_dataframe_closed df :
  let H := trimmed_header df in
  let rs := rows (dropna_cols (dropna_rows df)) in
  let js := (cleaned_positions (map fst H) H).1 in
  _clean_dataframe df =
    match (cleaned_positions (map fst H) H).2 with
    | None => mkDF H (renumber (alter_rows js rs))
    | Some _ => mkDF H (alter_rows js rs)
    end.
Proof.
  intros H rs js. rewrite /_clean_dataframe /set_columns -/(trimmed_header df) -/H.
  rewrite {1}/labels /= clean_columns_closed -/rs -/js.
  by destruct (cleaned_positions (map fst H) H).2.
Qed.

Lemma clean_dataframe_columns df : columns (_clean_dataframe df) = trimmed_header df.
Proof. rewrite clean_dataframe_closed. by destruct (cleaned_positions _ _).2. Qed.

Lemma clean_dataframe_cells df :
  map cells (rows (_clean_dataframe df))
  = map cells (alter_rows (cleaned_positions (map fst (trimmed_header df)) (trimmed_header df)).1
                          (rows (dropna_cols (dropna_rows df)))).
Proof.
  rewrite clean_dataframe_closed. destruct (cleaned_positions _ _).2; simpl; [done|].
  by rewrite renumber_cells.
Qed.

Lemma clean_trimmed df : trimmed (_clean_dataframe df).
Proof.
  rewrite /trimmed /labels clean_dataframe_columns trimmed_header_labels.
  apply Forall_fmap, Forall_forall. intros l _. eexists. split; [done|]. apply strip_idem.
Qed.

(** X3: whatever the input, the column labels of a cleaned table are texts
    without leading or trailing whitespace. *)
Theorem clean_dataframe_labels_trimmed df :
  Forall (fun l => exists s, l = LStr s /\ Py.strip s = s) (labels (_clean_dataframe df)).
Proof. apply clean_trimmed. Qed.

Lemma select_length_le {A} keep (xs : list A) : (length (select keep xs) <= length xs)%nat.
Proof.
  revert xs. induction keep as [|b keep IH]; intros [|x xs]; simpl; try lia.
  destruct b; simpl; specialize (IH xs); lia.
Qed.

(** X4: cleaning never adds a row or a column. *)
Theorem clean_dataframe_shrinks df :
  (len (_clean_dataframe df) <= len df)%nat /\ (ncols (_clean_dataframe df) <= ncols df)%nat.
Proof.
  split.
  - rewrite /len -(length_map cells) clean_dataframe_cells /alter_rows !length_map.
    rewrite /dropna_cols /=. apply length_filter.
  - rewrite /ncols clean_dataframe_columns trimmed_header_length /ncols /dropna_cols /=.
    apply select_length_le.
Qed.


(** X1: cleaning keeps the shape of a table: when every row has one cell
    per column before, the same holds after. *)
Theorem clean_dataframe_wf df : wf df -> wf (_clean_dataframe df).
Proof. intros Hwf. by destruct (clean_makes_Clean df Hwf) as [? _]. Qed.

Lemma any_notna_true n rs j :
  any_notna n rs !! j = Some true ->
  exists r c, r ∈ rs /\ cells r !! j = Some c /\ notna c = true.
Proof.
  induction rs as [|r rs IH]; simpl.
  - by intros [? _]%lookup_replicate.
  - intros (x & y & Hxy & Hx & Hy)%lookup_zip_with_Some.
    destruct x.
    + rewrite list_lookup_fmap in Hx. destruct (cells r !! j) as [c|] eqn:Hc; [|done].
      injection Hx as Hx. exists r, c. split; [left|done].
    + simpl in Hxy. subst y. destruct (IH Hy) as (r' & c & Hr & Hc & Hn).
      exists r', c. split; [by right|done].
Qed.

(** X2: in a cleaned table every row holds a cell that is not missing and
    every column holds a cell that is not missing. *)
Theorem clean_dataframe_no_blank df :
  wf df ->
  (forall r, r ∈ rows (_clean_dataframe df) -> exists c, c ∈ cells r /\ notna c = true) /\
  (forall j, (j < ncols (_clean_dataframe df))%nat ->
     exists r c, r ∈ rows (_clean_dataframe df) /\ cells r !! j = Some c /\ notna c = true).
Proof.
  intros Hwf. destruct (clean_makes_Clean df Hwf) as (_ & Hex & Hmask & _). split.
  - intros r Hr. rewrite Forall_forall in Hex. specialize (Hex r Hr).
    apply existsb_exists in Hex as (c & Hc%list_elem_of_In & Hn). by exists c.
  - intros j Hj. apply (any_notna_true (ncols (_clean_dataframe df))).
    rewrite Hmask. by apply lookup_replicate.
Qed.

Lemma positions_shift_gen (g f : nat -> nat) col (ls : list label) :
  map fst (filter (fun p => p.2 = col) (imap (fun i x => (g (f i), x)) ls))
  = map g (map fst (filter (fun p => p.2 = col) (imap (fun i x => (f i, x)) ls))).
Proof.
  revert f. induction ls as [|x ls IH]; intros f; [done|].
  simpl. rewrite !filter_cons /=.
  destruct (decide (x = col)); simpl; [f_equal|]; apply (IH (f ∘ S)).
Qed.

Lemma positions_cons col x ls :
  positions col (x :: ls)
  = ((if decide (x = col) then [0%nat] else []) ++ map S (positions col ls))%list.
Proof.
  rewrite /positions /= filter_cons /=.
  pose proof (positions_shift_gen S id col ls) as Hs.
  destruct (decide (x = col)); simpl; [f_equal|]; exact Hs.
Qed.

Lemma positions_not_in col ls : col ∉ ls -> positions col ls = [].
Proof.
  induction ls as [|x ls IH]; [done|]. intros Hn. rewrite positions_cons.
  apply not_elem_of_cons in Hn as [Hx Hn].
  destruct (decide (x = col)) as [->|_]; [done|]. by rewrite IH.
Qed.

Lemma positions_unique col ls j :
  NoDup ls -> ls !! j = Some col -> positions col ls = [j].
Proof.
  intros Hnd. revert j. induction Hnd as [|x ls Hx Hnd IH]; intros j Hj; [done|].
  rewrite positions_cons. destruct j as [|j]; simpl in Hj.
  - injection Hj as ->. destruct (decide (col = col)); [|done]. by rewrite positions_not_in.
  - destruct (decide (x = col)) as [->|_].
    { exfalso. apply Hx. by eapply list_elem_of_lookup_2. }
    by rewrite (IH j).
Qed.

Lemma cleaned_positions_all cols H :
  NoDup (map fst H) -> Forall (fun col => col ∈ map fst H) cols ->
  (cleaned_positions cols H).2 = None /\
  forall j l, H !! j = Some (l, DObject) -> l ∈ cols -> j ∈ (cleaned_positions cols H).1.
Proof.
  intros Hnd. induction 1 as [|col cols Hcol Hcols [IH1 IH2]]; simpl.
  - split; [done|]. by intros j l _ ?%elem_of_nil.
  - apply list_elem_of_lookup_1 in Hcol as [i Hi].
    rewrite (positions_unique _ _ i) //.
    destruct (decide _) as [Hd|Hd].
    + destruct (cleaned_positions cols H) as [js st]. simpl in *. split; [done|].
      intros j l Hj [->|Hl]%elem_of_cons; [|right; by eapply IH2].
      assert (j = i) as ->; [|left].
      eapply NoDup_lookup; [exact Hnd| |exact Hi]. by rewrite list_lookup_fmap Hj.
    + split; [done|]. intros j l Hj [->|Hl]%elem_of_cons; [|by eapply IH2].
      exfalso. apply Hd.
      assert (j = i) as ->.
      { eapply NoDup_lookup; [exact Hnd| |exact Hi]. by rewrite list_lookup_fmap Hj. }
      by rewrite list_lookup_fmap Hj.
Qed.

Lemma clean_cell_text c :
  exists s, clean_cell c = Text s /\ Py.strip s = s /\ s <> "nan".
Proof.
  rewrite /clean_cell /astype_str_strip /replace.
  destruct (decide _) as [He|Hne].
  - by exists "".
  - eexists. split; [done|]. split; [apply strip_idem|]. by intros He; rewrite He in Hne.
Qed.

Lemma renumber_index rs : map index (renumber rs) = seq 0 (length rs).
Proof.
  rewrite /renumber. apply list_eq. intros i.
  rewrite list_lookup_fmap list_lookup_imap.
  destruct (rs !! i) as [r|] eqn:Hr; simpl.
  - symmetry. apply lookup_seq. split; [done|]. by eapply lookup_lt_Some.
  - symmetry. apply lookup_seq_ge. by apply lookup_ge_None.
Qed.

(** X5: when the trimmed labels are all different, the rows of the cleaned
    table are numbered 0, 1, 2, ... and every cell of an [object] column is
    a text without surrounding whitespace, different from "nan". *)
Theorem clean_dataframe_object_cells df :
  wf df -> NoDup (labels (_clean_dataframe df)) ->
  map index (rows (_clean_dataframe df)) = seq 0 (len (_clean_dataframe df)) /\
  forall r j l,
    r ∈ rows (_clean_dataframe df) ->
    columns (_clean_dataframe df) !! j = Some (l, DObject) ->
    exists s, cells r !! j = Some (Text s) /\ Py.strip s = s /\ s <> "nan".
Proof.
  intros Hwf Hnd. destruct (clean_makes_Clean df Hwf) as [Hwf' _].
  revert Hnd Hwf'. rewrite /labels /wf /ncols /len clean_dataframe_closed.
  set (H := trimmed_header df). set (rs := rows (dropna_cols (dropna_rows df))).
  destruct (cleaned_positions (map fst H) H) as [js st] eqn:Hcp. cbn [fst snd].
  intros Hnd Hwf'.
  destruct (cleaned_positions_all (map fst H) H) as [Hst Hjs]; [|by apply Forall_forall|];
    [by destruct st|].
  rewrite Hcp /= in Hst, Hjs. subst st. cbn [columns rows] in *. split.
  - by rewrite renumber_index renumber_length.
  - intros r j l Hr Hj.
    assert (cells r ∈ map cells (renumber (alter_rows js rs))) as Hc.
    { apply list_elem_of_fmap. by exists r. }
    rewrite renumber_cells /alter_rows map_map in Hc. cbn [cells] in Hc.
    apply list_elem_of_fmap in Hc as (r1 & Hc & Hr1).
    rewrite Forall_forall in Hwf'. specialize (Hwf' r Hr).
    rewrite Hc alters_lookup. rewrite Hc alters_length in Hwf'.
    destruct (cells r1 !! j) as [c|] eqn:Hcj.
    + simpl. destruct (decide _) as [_|Hno].
      * destruct (clean_cell_text c) as (s & -> & Hs). by exists s.
      * exfalso. apply Hno. eapply Hjs; [exact Hj|]. apply list_elem_of_fmap.
        exists (l, DObject). split; [done|]. by eapply list_elem_of_lookup_2.
    + apply lookup_ge_None in Hcj. apply lookup_lt_Some in Hj. lia.
Qed.

Lemma clean_dataframe_wf_witness :
  wf Scenario.messy /\ wf (_clean_dataframe Scenario.messy).
Proof.
  assert (wf Scenario.messy) as Hwf by (repeat constructor).
  split; [exact Hwf|]. exact (clean_dataframe_wf Scenario.messy Hwf).
Defined.

Lemma clean_dataframe_no_blank_witness :
  (forall r, r ∈ rows (_clean_dataframe Scenario.messy) -> exists c, c ∈ cells r /\ notna c = true) /\
  (forall j, (j < ncols (_clean_dataframe Scenario.messy))%nat ->
     exists r c, r ∈ rows (_clean_dataframe Scenario.messy) /\ cells r !! j = Some c
                 /\ notna c = true).
Proof. apply (clean_dataframe_no_blank Scenario.messy). repeat constructor. Defined.

Lemma clean_dataframe_object_cells_witness :
  map index (rows (_clean_dataframe Scenario.messy)) = seq 0 (len (_clean_dataframe Scenario.messy)) /\
  forall r j l,
    r ∈ rows (_clean_dataframe Scenario.messy) ->
    columns (_clean_dataframe Scenario.messy) !! j = Some (l, DObject) ->
    exists s, cells r !! j = Some (Text s) /\ Py.strip s = s /\ s <> "nan".
Proof.
  apply (clean_dataframe_object_cells Scenario.messy).
  - repeat constructor.
  - by apply (bool_decide_unpack _).
Defined.

End cleaning_more.

(** * More on extraction *)

Section extraction_more.

Import Pd PDFExtractor Facts More.


Lemma probe_tabula_trace w log :
  probe_tabula w log =
    ((log ++ (if bool_decide (is_Some (tabula w)) then [mkCall Tabula probe_args_tabula] else []))%list,
     Ok (if tabula_probe_ok w then Some "tabula" else None)).
Proof.
  rewrite /probe_tabula /try_except /bind /tabula_read_pdf /tabula_probe_ok.
  destruct (tabula w) as [f|]; simpl; [|by rewrite app_nil_r].
  rewrite /invoke. destruct (f probe_args_tabula) as [[|[t|] l]|e]; simpl; try done.
  by destruct (empty t).
Qed.

Lemma probe_camelot_trace w log :
  probe_camelot w log =
    ((log ++ (if bool_decide (is_Some (camelot w)) then [mkCall Camelot probe_args_camelot] else []))%list,
     Ok (if camelot_probe_ok w then Some "camelot" else None)).
Proof.
  rewrite /probe_camelot /try_except /bind /camelot_read_pdf /camelot_probe_ok.
  destruct (camelot w) as [f|]; simpl; [|by rewrite app_nil_r].
  rewrite /invoke. by destruct (f probe_args_camelot) as [[|t l]|e].
Qed.

Lemma detect_best_method_trace w log :
  _detect_best_method w log = ((log ++ probe_calls w)%list, Ok (detected w)).
Proof.
  rewrite /_detect_best_method /try_except /bind /detected /probe_calls.
  rewrite available_tabula available_camelot available_pdfplumber.
  destruct (bool_decide (is_Some (tabula w))) eqn:Ht.
  - rewrite probe_tabula_trace Ht.
    destruct (tabula_probe_ok w); simpl; [done|].
    destruct (bool_decide (is_Some (camelot w))) eqn:Hc.
    + rewrite probe_camelot_trace Hc -app_assoc.
      destruct (camelot_probe_ok w); simpl; [done|]. by destruct (bool_decide (is_Some (pdfplumber w))).
    + assert (camelot_probe_ok w = false) as ->.
      { rewrite /camelot_probe_ok. apply bool_decide_eq_false in Hc.
        destruct (camelot w); [|done]. exfalso. by apply Hc. }
      rewrite /= ?app_nil_r. by destruct (bool_decide (is_Some (pdfplumber w))).
  - assert (tabula_probe_ok w = false) as ->.
    { rewrite /tabula_probe_ok. apply bool_decide_eq_false in Ht.
      destruct (tabula w); [|done]. exfalso. by apply Ht. }
    simpl. destruct (bool_decide (is_Some (camelot w))) eqn:Hc.
    + rewrite probe_camelot_trace Hc.
      destruct (camelot_probe_ok w); simpl; [done|]. by destruct (bool_decide (is_Some (pdfplumber w))).
    + assert (camelot_probe_ok w = false) as ->.
      { rewrite /camelot_probe_ok. apply bool_decide_eq_false in Hc.
        destruct (camelot w); [|done]. exfalso. by apply Hc. }
      rewrite /= ?app_nil_r. by destruct (bool_decide (is_Some (pdfplumber w))).
Qed.

(** X6: the detection makes no library call but its probes: the tabula
    probe of page 1 when tabula is installed, then the camelot probe of
    page 1 when camelot is installed and the tabula probe did not succeed.
    pdfplumber and PyPDF2 are never called, and the detection returns its
    choice whatever the probes raise. *)
Theorem detect_trace w log :
  _detect_best_method w log = ((log ++ probe_calls w)%list, Ok (detected w)).
Proof. apply detect_best_method_trace. Qed.

Lemma backend_one_call w method kwargs log :
  exists c r, dispatch w method kwargs log = ((log ++ [c])%list, r) /\ lib c = chosen w method.
Proof.
  rewrite /dispatch /chosen.
  destruct (bool_decide (method = Py.PStr "tabula") && _) eqn:H1.
  { apply andb_true_iff in H1 as [_ H1]. rewrite available_tabula in H1.
    apply bool_decide_eq_true in H1 as [f Hf].
    rewrite /_extract_with_tabula try_reraise /bind /tabula_read_pdf Hf /invoke.
    destruct (f _) as [[|? ?]|e]; by do 2 eexists. }
  destruct (bool_decide (method = Py.PStr "camelot") && _) eqn:H2.
  { apply andb_true_iff in H2 as [_ H2]. rewrite available_camelot in H2.
    apply bool_decide_eq_true in H2 as [f Hf].
    rewrite /_extract_with_camelot try_reraise /bind /camelot_read_pdf Hf /invoke.
    destruct (f _) as [[|? ?]|e]; by do 2 eexists. }
  destruct (bool_decide (method = Py.PStr "pdfplumber") && _) eqn:H3.
  { apply andb_true_iff in H3 as [_ H3]. rewrite available_pdfplumber in H3.
    apply bool_decide_eq_true in H3 as [f Hf].
    rewrite /_extract_with_pdfplumber try_reraise /bind /pdfplumber_open Hf /invoke /lift.
    destruct f as [pages|e]; [|by do 2 eexists].
    destruct (plumber_pages _ _); [|by do 2 eexists].
    destruct (rfoldl _ _ _); by do 2 eexists. }
  rewrite /_extract_with_pypdf2 try_reraise /bind /PdfReader /invoke /lift.
  destruct (pypdf2 w) as [pages|e]; [|by do 2 eexists].
  destruct (pypdf2_pages _ _); [|by do 2 eexists].
  destruct (rmapM _ _); by do 2 eexists.
Qed.

(** X7: when the file exists, [extract_data] calls the libraries in this
    order and no others: the probes, when the method is to be detected,
    then one extraction call to the library of the backend that the method
    and the installed libraries select, also when the extraction fails. *)
Theorem extract_data_calls w kwargs log :
  path_exists w = true ->
  exists c r,
    extract_data w kwargs log = ((log ++ probes w kwargs ++ [c])%list, r) /\
    lib c = chosen w (resolved w kwargs).
Proof.
  intros Hex. rewrite /extract_data try_reraise Hex /= /bind /resolve_method /probes /resolved.
  destruct (decide (_ = Py.PStr "auto")) as [Ha|Ha].
  - rewrite /bind detect_best_method_trace /ret.
    destruct (backend_one_call w (Py.PStr (detected w)) kwargs (log ++ probe_calls w)%list)
      as (c & r & -> & Hc).
    exists c. rewrite -app_assoc. destruct r; by eexists.
  - rewrite /ret. destruct (backend_one_call w (Py.get kwargs "method" (Py.PStr "auto")) kwargs log)
      as (c & r & -> & Hc).
    exists c. destruct r; by eexists.
Qed.

Lemma extract_data_calls_witness :
  exists c r,
    extract_data Scenario.tabula_people (<["method" := Py.PStr "camelot"]> ∅) []
      = (([] ++ probes Scenario.tabula_people (<["method" := Py.PStr "camelot"]> ∅) ++ [c])%list, r) /\
    lib c = chosen Scenario.tabula_people
              (resolved Scenario.tabula_people (<["method" := Py.PStr "camelot"]> ∅)).
Proof. apply (extract_data_calls Scenario.tabula_people). reflexivity. Defined.

(** X8: when there is no file at the path, [extract_data] raises
    [FileNotFoundError] without calling any library, whatever the
    options. *)
Theorem missing_file w kwargs log :
  path_exists w = false -> extract_data w kwargs log = (log, Raise FileNotFoundError).
Proof. intros Hex. by rewrite /extract_data try_reraise Hex. Qed.

Lemma missing_file_witness :
  extract_data no_file ∅ [] = ([], Raise FileNotFoundError).
Proof. apply (missing_file no_file). reflexivity. Defined.

Lemma resolve_method_resolved w kwargs log :
  exists log', resolve_method w kwargs log = (log', Ok (resolved w kwargs)).
Proof.
  rewrite /resolve_method /resolved. destruct (decide _); [|by eexists].
  rewrite /bind detect_best_method_trace. by eexists.
Qed.

Lemma dispatch_chosen w method kwargs log log' d :
  dispatch w method kwargs log = (log', Ok d) -> produced_by (chosen w method) log' d.
Proof.
  rewrite /dispatch /chosen.
  destruct (bool_decide (method = Py.PStr "tabula") && _); [apply tabula_produced|].
  destruct (bool_decide (method = Py.PStr "camelot") && _); [apply camelot_produced|].
  destruct (bool_decide (method = Py.PStr "pdfplumber") && _); [apply pdfplumber_produced|].
  apply pypdf2_produced.
Qed.

Lemma chosen_detected w : backend_id (chosen w (Py.PStr (detected w))) = detected w.
Proof.
  rewrite /chosen /detected.
  destruct (tabula_probe_ok w) eqn:Ht.
  { by rewrite (tabula_probe_ok_available _ Ht). }
  destruct (camelot_probe_ok w) eqn:Hc.
  { by rewrite (camelot_probe_ok_available _ Hc). }
  rewrite available_pdfplumber. by destruct (bool_decide (is_Some (pdfplumber w))).
Qed.

Lemma extract_data_metadata_aux w kwargs log log' res :
  extract_data w kwargs log = (log', Ok res) ->
  res !! "source_file" = Some (DVal (Py.PStr (path w))) /\
  res !! "extraction_method" = Some (DVal (resolved w kwargs)) /\
  res !! "method" = Some (DVal (Py.PStr (backend_id (chosen w (resolved w kwargs))))) /\
  (Py.get kwargs "method" (Py.PStr "auto") = Py.PStr "auto" ->
   res !! "method" = res !! "extraction_method").
Proof.
  rewrite /extract_data try_reraise.
  destruct (negb (path_exists w)); [done|]. rewrite /bind.
  destruct (resolve_method_resolved w kwargs log) as (l1 & ->).
  destruct (dispatch w _ kwargs l1) as [l2 [d|e]] eqn:Hd; [|done].
  rewrite /ret. intros [= <- <-].
  apply dispatch_chosen in Hd as (_ & Hm & _).
  assert (add_metadata w (resolved w kwargs) d !! "method"
          = Some (DVal (Py.PStr (backend_id (chosen w (resolved w kwargs)))))) as Hm'.
  { by rewrite /add_metadata !lookup_insert_ne. }
  assert (add_metadata w (resolved w kwargs) d !! "extraction_method"
          = Some (DVal (resolved w kwargs))) as He.
  { rewrite /add_metadata. by simplify_map_eq. }
  split; [rewrite /add_metadata; by simplify_map_eq|]. split; [done|]. split; [done|].
  intros Ha. rewrite Hm' He /resolved. destruct (decide _); [|done].
  by rewrite chosen_detected.
Qed.

(** X9: a successful [extract_data] records the path under [source_file],
    the method it ran with under [extraction_method] and the backend that
    produced the tables under [method]; when the method was detected the
    two names agree. *)
Theorem extract_data_metadata w kwargs log log' res :
  extract_data w kwargs log = (log', Ok res) ->
  res !! "source_file" = Some (DVal (Py.PStr (path w))) /\
  res !! "extraction_method" = Some (DVal (resolved w kwargs)) /\
  res !! "method" = Some (DVal (Py.PStr (backend_id (chosen w (resolved w kwargs))))) /\
  (Py.get kwargs "method" (Py.PStr "auto") = Py.PStr "auto" ->
   res !! "method" = res !! "extraction_method").
Proof. apply extract_data_metadata_aux. Qed.

Lemma extract_data_metadata_witness :
  Scenario.fallback_result !! "extraction_method" = Some (DVal (Py.PStr "camelot")) /\
  Scenario.fallback_result !! "method" = Some (DVal (Py.PStr "pypdf2")).
Proof.
  destruct (extract_data_metadata Scenario.tabula_people (<["method" := Py.PStr "camelot"]> ∅)
              [] [mkCall PyPDF2 ∅] Scenario.fallback_result) as (_ & He & Hm & _).
  - vm_compute. reflexivity.
  - split; [exact He|exact Hm].
Defined.


End extraction_more.

(** * The tables of an extraction *)

Section extraction_tables.

Import Pd PDFExtractor Facts More.

Lemma foldl_acc_inv {A} (P : DataFrame -> Prop) (f : Acc -> A -> Acc) l a :
  (forall a x, Forall P (acc_tables a) -> Forall P (acc_tables (f a x))) ->
  Forall P (acc_tables a) -> Forall P (acc_tables (foldl f a l)).
Proof. intros Hf. revert a. induction l as [|x l IH]; simpl; auto. Qed.

Lemma rfoldl_acc_inv {A} (P : DataFrame -> Prop) (f : Acc -> A -> result Acc) l a a' :
  (forall a x a', Forall P (acc_tables a) -> f a x = Ok a' -> Forall P (acc_tables a')) ->
  Forall P (acc_tables a) -> rfoldl f a l = Ok a' -> Forall P (acc_tables a').
Proof.
  intros Hf. revert a. induction l as [|x l IH]; simpl; intros a Ha Hr.
  - by injection Hr as <-.
  - destruct (f a x) as [a1|e] eqn:Hx; simpl in Hr; [|done]. eauto.
Qed.

Lemma acc_add_inv (P : DataFrame -> Prop) a t :
  Forall P (acc_tables a) -> P t -> Forall P (acc_tables (acc_add a t)).
Proof. intros Ha Ht. rewrite /acc_add /=. apply Forall_app. split; [done|by constructor]. Qed.

Lemma add_cleaned_trimmed a d :
  Forall trimmed (acc_tables a) -> Forall trimmed (acc_tables (add_cleaned a d)).
Proof.
  intros Ha. destruct d as [t|]; simpl; [|done].
  destruct (negb (empty t)); [|done]. apply acc_add_inv; [done|apply clean_trimmed].
Qed.

Lemma from_records_wf data header t : from_records data header = Ok t -> wf t.
Proof.
  rewrite /from_records. destruct data as [|r0 data]; [intros [= <-]; constructor|].
  generalize (r0 :: data). clear. intros rs.
  destruct (decide _) as [Hk|]; [|done]. intros [= <-].
  rewrite /wf /ncols. cbn [columns rows]. rewrite length_map Hk.
  assert (Forall (fun r => (length r <= foldr (fun r m => Nat.max (length r) m) 0 rs)%nat) rs)
    as Hrs.
  { clear. induction rs as [|r rs IH]; constructor; simpl; [lia|].
    eapply Forall_impl; [exact IH|]. simpl. intros. lia. }
  revert Hrs. generalize (foldr (fun r m => Nat.max (length r) m) 0%nat rs). clear.
  intros k Hrs. apply Forall_forall. intros r Hr.
  apply elem_of_lookup_imap in Hr as (i & x & -> & Hx). simpl.
  rewrite length_app length_map length_replicate.
  rewrite Forall_forall in Hrs. specialize (Hrs x (list_elem_of_lookup_2 _ _ _ Hx)). lia.
Qed.

Lemma clean_kept data header t :
  from_records data header = Ok t -> empty (_clean_dataframe t) = false ->
  kept (_clean_dataframe t).
Proof.
  intros Hw%from_records_wf He. pose proof (clean_makes_Clean t Hw) as Hc.
  split; [|done]. split; [done|]. by destruct Hc.
Qed.

Lemma add_table_data_kept a td a' :
  Forall kept (acc_tables a) -> add_table_data a td = Ok a' -> Forall kept (acc_tables a').
Proof.
  intros Ha. destruct td as [|header data]; simpl.
  - by intros [= <-].
  - destruct (from_records data header) as [t|e] eqn:Ht; simpl; [|done].
    destruct (empty (_clean_dataframe t)) eqn:He; simpl; intros [= <-]; [done|].
    apply acc_add_inv; [done|]. by eapply clean_kept.
Qed.

Lemma add_page_kept pages a i a' :
  Forall kept (acc_tables a) -> add_page pages a i = Ok a' -> Forall kept (acc_tables a').
Proof.
  intros Ha. unfold add_page.
  destruct (default _ _) as [tds|e]; simpl; [|done].
  apply rfoldl_acc_inv; [|done]. intros ???. apply add_table_data_kept.
Qed.

Lemma text_table_kept text t : text_table text = Ok (Some t) -> kept t.
Proof.
  rewrite /text_table. destruct (omap line_cells _) as [|r0 rs]; [done|].
  destruct (map _ _) as [|header [|d0 data]]; try done.
  destruct (from_records _ _) as [t0|e] eqn:Ht; simpl; [|done].
  destruct (empty (_clean_dataframe t0)) eqn:He; simpl; intros [= <-].
  by eapply clean_kept.
Qed.

Lemma rmapM_Forall {A B} (f : A -> result B) (P : B -> Prop) l l' :
  (forall x y, f x = Ok y -> P y) -> rmapM f l = Ok l' -> Forall P l'.
Proof.
  intros Hf. revert l'. induction l as [|x l IH]; simpl; intros l'.
  - intros [= <-]. constructor.
  - destruct (f x) as [y|] eqn:Hy; simpl; [|done].
    destruct (rmapM f l) as [ys|]; simpl; [|done]. intros [= <-].
    constructor; eauto.
Qed.

Lemma parse_text_kept texts : Forall kept (_parse_text_to_table texts).
Proof.
  rewrite /_parse_text_to_table. destruct (rmapM text_table texts) as [found|e] eqn:Hf; [|done].
  apply (rmapM_Forall _ (fun o => forall t, o = Some t -> kept t)) in Hf;
    [|intros x [t|] Hx t' [= <-]; by eapply text_table_kept].
  induction Hf as [|o os Ho Hos IH]; simpl; [done|].
  destruct o as [t|]; simpl; [constructor; auto|done].
Qed.

Lemma parse_text_length texts : (length (_parse_text_to_table texts) <= length texts)%nat.
Proof.
  rewrite /_parse_text_to_table. destruct (rmapM text_table texts) as [found|e] eqn:Hf;
    [|simpl; lia].
  assert (length found = length texts) as <-.
  { revert found Hf. induction texts as [|x l IH]; simpl; intros found.
    - by intros [= <-].
    - destruct (text_table x); simpl; [|done]. destruct (rmapM text_table l); simpl; [|done].
      intros [= <-]. simpl. f_equal. by apply IH. }
  clear. induction found as [|[t|] os IH]; simpl; [lia| |];
    change (list_omap _ _ id os) with (omap id os); lia.
Qed.

(** X12: [_parse_text_to_table] returns at most one table per page text,
    and every table it returns holds something, has one cell per column in
    every row and is as [_clean_dataframe] leaves it. *)
Theorem parse_text_tables texts :
  (length (_parse_text_to_table texts) <= length texts)%nat /\
  Forall (fun t => empty t = false /\ wf t /\ _clean_dataframe t = t)
         (_parse_text_to_table texts).
Proof.
  split; [apply parse_text_length|].
  eapply Forall_impl; [apply parse_text_kept|].
  intros t [[He Hw] Hc]. by rewrite clean_fixed.
Qed.

(** X11: every table in a result of the pdfplumber or the PyPDF2 backend
    holds something, has one cell per column in every row and is as
    [_clean_dataframe] leaves it. *)
Theorem page_tables_kept w kwargs log log' d :
  _extract_with_pdfplumber w kwargs log = (log', Ok d) \/
  _extract_with_pypdf2 w kwargs log = (log', Ok d) ->
  exists tables, d !! "tables" = Some (DTables tables) /\
    Forall (fun t => empty t = false /\ wf t /\ _clean_dataframe t = t) tables.
Proof.
  assert (forall ts, Forall kept ts ->
            Forall (fun t => empty t = false /\ wf t /\ _clean_dataframe t = t) ts) as Hk.
  { intros ts Hts. eapply Forall_impl; [exact Hts|]. intros t [[He Hw] Hc]. by rewrite clean_fixed. }
  intros [H|H]; revert H.
  - rewrite /_extract_with_pdfplumber try_reraise /bind /pdfplumber_open.
    destruct (pdfplumber w) as [r|]; [|done]. rewrite /invoke /lift.
    destruct r as [pages|e]; [|done].
    destruct (plumber_pages _ _) as [sel|e]; [|done].
    destruct (rfoldl _ _ _) as [a|e] eqn:Ha; [|done].
    rewrite /ret. intros [= <- <-].
    eexists. split; [by simplify_map_eq|]. apply Hk.
    eapply rfoldl_acc_inv; [| |exact Ha]; [intros ???; apply add_page_kept|constructor].
  - rewrite /_extract_with_pypdf2 try_reraise /bind /PdfReader /invoke /lift.
    destruct (pypdf2 w) as [pages|e]; [|done].
    destruct (pypdf2_pages _ _) as [sel|e]; [|done].
    destruct (rmapM _ _) as [texts|e]; [|done].
    rewrite /ret. intros [= <- <-].
    eexists. split; [by simplify_map_eq|]. apply Hk, parse_text_kept.
Qed.

Lemma dispatch_trimmed w method kwargs log log' d :
  dispatch w method kwargs log = (log', Ok d) ->
  exists tables, d !! "tables" = Some (DTables tables) /\ Forall trimmed tables.
Proof.
  assert (forall ts, Forall kept ts -> Forall trimmed ts) as Hk.
  { intros ts Hts. eapply Forall_impl; [exact Hts|]. by intros t [_ (_ & _ & _ & Ht & _)]. }
  rewrite /dispatch.
  destruct (bool_decide (method = Py.PStr "tabula") && _).
  { rewrite /_extract_with_tabula try_reraise /bind /tabula_read_pdf.
    destruct (tabula w) as [f|]; [|done]. rewrite /invoke.
    destruct (f _) as [dfs|e]; [|done].
    destruct dfs as [|d0 dfs]; rewrite /ret; intros [= <- <-].
    - exists []. split; [by simplify_map_eq|constructor].
    - eexists. split; [by simplify_map_eq|].
      apply (foldl_acc_inv trimmed add_cleaned (d0 :: dfs) acc0);
        [apply add_cleaned_trimmed|constructor]. }
  destruct (bool_decide (method = Py.PStr "camelot") && _).
  { rewrite /_extract_with_camelot try_reraise /bind /camelot_read_pdf.
    destruct (camelot w) as [f|]; [|done]. rewrite /invoke.
    destruct (f _) as [ts|e]; [|done].
    destruct ts as [|t0 ts]; rewrite /ret; intros [= <- <-].
    - exists []. split; [by simplify_map_eq|constructor].
    - eexists. split; [by simplify_map_eq|].
      apply (foldl_acc_inv trimmed (fun a table => add_cleaned a (df table)) (t0 :: ts) acc0);
        [intros; by apply add_cleaned_trimmed|constructor]. }
  intros H.
  assert (_extract_with_pdfplumber w kwargs log = (log', Ok d) \/
          _extract_with_pypdf2 w kwargs log = (log', Ok d)) as H'.
  { destruct (_ && _); auto. }
  clear H. revert H'. intros [H|H]; revert H.
  - rewrite /_extract_with_pdfplumber try_reraise /bind /pdfplumber_open.
    destruct (pdfplumber w) as [r|]; [|done]. rewrite /invoke /lift.
    destruct r as [pages|e]; [|done].
    destruct (plumber_pages _ _) as [sel|e]; [|done].
    destruct (rfoldl _ _ _) as [a|e] eqn:Ha; [|done].
    rewrite /ret. intros [= <- <-].
    eexists. split; [by simplify_map_eq|]. apply Hk.
    eapply rfoldl_acc_inv; [| |exact Ha]; [intros ???; apply add_page_kept|constructor].
  - rewrite /_extract_with_pypdf2 try_reraise /bind /PdfReader /invoke /lift.
    destruct (pypdf2 w) as [pages|e]; [|done].
    destruct (pypdf2_pages _ _) as [sel|e]; [|done].
    destruct (rmapM _ _) as [texts|e]; [|done].
    rewrite /ret. intros [= <- <-].
    eexists. split; [by simplify_map_eq|]. apply Hk, parse_text_kept.
Qed.

(** X10: whichever backend ran, the column labels of every table in a
    successful result of [extract_data] are texts without leading or
    trailing whitespace. *)
Theorem extracted_labels_trimmed w kwargs log log' res :
  extract_data w kwargs log = (log', Ok res) ->
  exists tables, res !! "tables" = Some (DTables tables) /\
    Forall (fun t => Forall (fun l => exists s, l = LStr s /\ Py.strip s = s) (labels t)) tables.
Proof.
  rewrite /extract_data try_reraise.
  destruct (negb (path_exists w)); [done|]. rewrite /bind.
  destruct (resolve_method_resolved w kwargs log) as (l1 & ->).
  destruct (dispatch w _ kwargs l1) as [l2 [d|e]] eqn:Hd; [|done].
  rewrite /ret. intros [= <- <-].
  apply dispatch_trimmed in Hd as (tables & Ht & Hall).
  exists tables. split; [|done]. by rewrite /add_metadata !lookup_insert_ne.
Qed.

Lemma page_tables_kept_witness :
  exists tables, plumber_result !! "tables" = Some (DTables tables) /\
    Forall (fun t => empty t = false /\ wf t /\ _clean_dataframe t = t) tables.
Proof.
  apply (page_tables_kept plumber_people ∅ [] [mkCall Pdfplumber ∅] plumber_result).
  left. vm_compute. reflexivity.
Defined.

Lemma extracted_labels_trimmed_witness :
  exists tables, people_result !! "tables" = Some (DTables tables) /\
    Forall (fun t => Forall (fun l => exists s, l = LStr s /\ Py.strip s = s) (labels t)) tables.
Proof.
  eapply (extracted_labels_trimmed Scenario.tabula_people ∅ [] _ people_result).
  vm_compute. reflexivity.
Defined.

Example people_result_tables :
  people_result !! "tables"
  = Some (DTables [mkDF [(LStr "Name", DObject); (LStr "Age", DOther)]
                        [mkRow 0 [Text "John"; Scalar "25"]; mkRow 1 [Text "Jane"; Scalar "30"]]]).
Proof. vm_compute. reflexivity. Qed.

Example plumber_people_tables :
  plumber_result !! "tables"
  = Some (DTables [mkDF [(LStr "Name", DObject); (LStr "Age", DObject)]
                        [mkRow 0 [Text "John"; Text "25"]; mkRow 1 [Text "Jane"; Text "30"]]]).
Proof. vm_compute. reflexivity. Qed.

End extraction_tables.

(** * More on page selection *)

Section page_selection.

Import Pd PDFExtractor Facts More.

Lemma split_none x s : occurs x s = false -> Py.split (String x EmptyString) s = [s].
Proof.
  rewrite /Py.split. induction s as [|c s IH]; [done|]. simpl.
  intros [Hc Hs]%orb_false_elim.
  apply Ascii.eqb_neq in Hc.
  destruct (ascii_dec x c) as [->|_]; [done|]. by rewrite IH.
Qed.

Lemma split_two_contains s sa sb :
  Py.split "-" s = [sa; sb] -> Py.contains "-" s = true /\ s <> "".
Proof.
  intros Hs. split.
  - rewrite contains_char. destruct (occurs "-" s) eqn:Ho; [done|].
    by rewrite (split_none _ _ Ho) in Hs.
  - by intros ->.
Qed.

Lemma slice_range n a b :
  0 <= a -> 0 <= b ->
  slice n a b = seq (Z.to_nat a) (Nat.min (Z.to_nat b) n - Z.to_nat a).
Proof.
  intros Ha Hb. rewrite /slice /slice_bound.
  destruct (decide (a < 0)); [lia|]. destruct (decide (b < 0)); [lia|].
  destruct (decide (Z.to_nat a <= n)%nat).
  - by rewrite (Nat.min_l (Z.to_nat a)).
  - by replace (_ - _)%nat with 0%nat by lia; replace (_ - _)%nat with 0%nat by lia.
Qed.

(** X13: a selector "a-b" of two integer literals with 1 <= a makes both
    page backends read the pages a to b, counted from 1 and both included,
    cut off at the end of the document. *)
Theorem page_range_positions n s sa sb a b :
  Py.split "-" s = [sa; sb] -> Py.int sa = Ok a -> Py.int sb = Ok b -> 1 <= a ->
  let sel := seq (Z.to_nat (a - 1)) (Nat.min (Z.to_nat b) n - Z.to_nat (a - 1)) in
  plumber_pages n (Py.PStr s) = Ok sel /\ pypdf2_positions n (Py.PStr s) = Ok sel.
Proof.
  intros Hs Ha Hb Hone sel.
  assert (plumber_pages n (Py.PStr s) = Ok sel) as Hp.
  { destruct (split_two_contains _ _ _ Hs) as [Hc Hne].
    assert (occurs "-" sb = false) as Hob.
    { apply (split_char_pieces "-" s). rewrite Hs. right; left. }
    pose proof (int_nonneg _ _ Hob Hb) as Hb0.
    rewrite /plumber_pages /Py.truthy.
    assert (String.eqb s "" = false) as -> by by apply String.eqb_neq.
    rewrite /= Hc /parse_range Hs.
    destruct (decide (sa = "")) as [->|_]; [done|]. rewrite Ha /=.
    destruct (decide (sb = "end")) as [->|_]; [done|]. rewrite Hb /=.
    rewrite slice_range //; lia. }
  split; [done|]. rewrite -pages_agree //.
  intros s' a' b' [= <-]. rewrite Hs. intros [= <- <-]. rewrite Ha. intros [= ->]. lia.
Qed.

Lemma page_range_positions_witness :
  plumber_pages 5 (Py.PStr "2-9") = Ok [1; 2; 3; 4]%nat /\
  pypdf2_positions 5 (Py.PStr "2-9") = Ok [1; 2; 3; 4]%nat.
Proof.
  apply (page_range_positions 5 "2-9" "2" "9" 2 9); [reflexivity|reflexivity|reflexivity|lia].
Defined.

Lemma parse_list_ints s zs :
  rmapM Py.int (Py.split "," s) = Ok zs -> parse_list s = Ok (map (fun z => z - 1) zs).
Proof.
  rewrite /parse_list. generalize (Py.split "," s). intros ps. revert zs.
  induction ps as [|p ps IH]; simpl; intros zs.
  - by intros [= <-].
  - destruct (Py.int p) as [z|]; simpl; [|done].
    destruct (rmapM Py.int ps) as [zs'|]; simpl; [|done]. intros [= <-].
    by rewrite (IH zs').
Qed.

Lemma rmapM_getindex_pages n zs :
  Forall (fun z => 1 <= z) zs ->
  rmapM (getindex n) (filter (fun i => i < Z.of_nat n) (map (fun z => z - 1) zs))
  = Ok (map (fun z => Z.to_nat (z - 1)) (filter (fun z => z <= Z.of_nat n) zs)).
Proof.
  induction 1 as [|z zs Hz Hzs IH]; [done|].
  simpl. rewrite !filter_cons.
  destruct (decide (z - 1 < Z.of_nat n)) as [Hlt|Hge].
  - destruct (decide (z <= Z.of_nat n)); [|lia]. simpl. rewrite IH /getindex.
    destruct (decide (0 <= z - 1 < Z.of_nat n)); [done|lia].
  - destruct (decide (z <= Z.of_nat n)); [lia|]. done.
Qed.

(** X14: a comma-separated selector of page numbers from 1 on makes both
    page backends read the listed pages in the listed order, repetitions
    included; a number beyond the last page is skipped without an error. *)
Theorem page_list_positions n s zs :
  s <> "" -> Py.contains "-" s = false ->
  rmapM Py.int (Py.split "," s) = Ok zs -> Forall (fun z => 1 <= z) zs ->
  let sel := map (fun z => Z.to_nat (z - 1)) (filter (fun z => z <= Z.of_nat n) zs) in
  plumber_pages n (Py.PStr s) = Ok sel /\ pypdf2_positions n (Py.PStr s) = Ok sel.
Proof.
  intros Hne Hc Hzs Hone sel.
  rewrite /pypdf2_positions /plumber_pages /pypdf2_pages /Py.truthy.
  assert (String.eqb s "" = false) as -> by by apply String.eqb_neq.
  rewrite /= Hc (parse_list_ints _ _ Hzs) /= rmapM_getindex_pages //.
Qed.

Lemma page_list_positions_witness :
  plumber_pages 4 (Py.PStr "3, 1,7,3") = Ok [2; 0; 2]%nat /\
  pypdf2_positions 4 (Py.PStr "3, 1,7,3") = Ok [2; 0; 2]%nat.
Proof.
  apply (page_list_positions 4 "3, 1,7,3" [3; 1; 7; 3]); [done|reflexivity|reflexivity|].
  repeat constructor; lia.
Defined.

End page_selection.

(** * More on merging *)

Section merging_more.

Import Pd CSVConverter Facts More MoreCsv.

Lemma insert_as_alter (f : cell -> cell) d j (l : list cell) :
  <[j := f (default d (l !! j))]> l = alter f j l.
Proof.
  apply list_eq. intros i. rewrite list_lookup_alter.
  destruct (decide (j = i)) as [->|Hne].
  - destruct (l !! i) as [c|] eqn:Hi; simpl.
    + by rewrite list_lookup_insert_eq //; eapply lookup_lt_Some.
    + rewrite list_insert_ge //. by apply lookup_ge_None.
  - by rewrite list_lookup_insert_ne.
Qed.

Lemma clean_merged_column_closed H rs col j :
  positions col (map fst H) = [j] -> H !! j = Some (col, DObject) ->
  clean_merged_column (mkDF H rs) col
  = Ok (mkDF H (map (fun r => mkRow (index r) (alter merged_cell j (cells r))) rs)).
Proof.
  intros Hp Hj. rewrite /clean_merged_column.
  rewrite (getitem_closed _ _ _ _ Hp) /= (setitem_closed _ _ _ _ _ Hp Hj).
  rewrite (getitem_closed _ _ _ _ Hp) /= (setitem_closed _ _ _ _ _ Hp Hj).
  rewrite (getitem_closed _ _ _ _ Hp) /= (setitem_closed _ _ _ _ _ Hp Hj).
  do 2 f_equal. rewrite !map_map /=. apply map_ext. intros r. f_equal.
  rewrite !insert_as_alter !list_alter_alter_eq. done.
Qed.

Lemma clean_merged_columns_closed cols H rs :
  Forall (fun col => exists j, positions col (map fst H) = [j] /\ H !! j = Some (col, DObject)) cols ->
  clean_merged_columns cols (mkDF H rs)
  = (mkDF H (map (fun r => mkRow (index r)
                     (alters_merged (flat_map (fun col => positions col (map fst H)) cols) (cells r)))
                 rs), None).
Proof.
  intros Hall. revert rs. induction Hall as [|col cols (j & Hp & Hj) _ IH]; intros rs; simpl.
  - do 2 f_equal. rewrite -{1}(map_id rs). apply map_ext. by intros [].
  - rewrite (clean_merged_column_closed _ _ _ _ Hp Hj) IH Hp /=. by rewrite map_map.
Qed.

Lemma alters_merged_in js cs j c :
  j ∈ js -> alters_merged js cs !! j = Some c -> exists c0, c = merged_cell c0.
Proof.
  rewrite /alters_merged. induction js as [|j' js IH] using rev_ind; [by intros ?%elem_of_nil|].
  rewrite foldl_app /= list_lookup_alter. intros Hin.
  destruct (decide (j' = j)) as [->|Hne].
  - destruct (foldl _ _ _ !! j) as [c0|]; simpl; [|done]. intros [= <-]. by exists c0.
  - apply elem_of_app in Hin as [Hin|Hin%list_elem_of_singleton]; [by apply IH|congruence].
Qed.

Lemma alters_merged_length js cs : length (alters_merged js cs) = length cs.
Proof.
  rewrite /alters_merged. revert cs. induction js as [|j js IH]; intros cs; simpl; [done|].
  by rewrite IH length_alter.
Qed.

Lemma merged_cell_tidy c : tidy (merged_cell c).
Proof.
  rewrite /merged_cell /astype_str_strip /replace.
  destruct (decide (Text (Py.strip (str c)) = Text "nan")) as [He|Hne].
  - destruct (decide _); [by left|done].
  - destruct (decide _) as [He|Hne']; [by left|]. right. eexists. split; [done|].
    split; [apply strip_idem|]. split; intros E; rewrite E in Hne, Hne'; done.
Qed.

Lemma object_columns_positions H :
  NoDup (map fst H) ->
  Forall (fun col => exists j, positions col (map fst H) = [j] /\ H !! j = Some (col, DObject))
         (map fst (filter (fun c => c.2 = DObject) H)).
Proof.
  intros Hnd. apply Forall_forall. intros col Hcol.
  apply list_elem_of_fmap in Hcol as ([l d] & -> & [Hd Hin]%list_elem_of_filter).
  simpl in *. subst d. apply list_elem_of_lookup_1 in Hin as [j Hj].
  exists j. split; [|done]. apply positions_unique; [done|]. by rewrite list_lookup_fmap Hj.
Qed.

Lemma drop_duplicates_columns df : columns (drop_duplicates df) = columns df.
Proof. rewrite /drop_duplicates. by destruct (empty df). Qed.

Lemma clean_merged_data_tidy_aux df kwargs :
  NoDup (labels df) ->
  let out := _clean_merged_data df kwargs in
  columns out = columns df /\
  map index (rows out) = seq 0 (len out) /\
  (Py.truthy (Py.get kwargs "skip_empty" (Py.PBool true)) = true ->
   Forall (fun r => existsb notna (cells r) = true) (rows out)) /\
  (Py.truthy (Py.get kwargs "clean_data" (Py.PBool true)) = true ->
   forall r j l c, r ∈ rows out -> columns out !! j = Some (l, DObject) ->
     cells r !! j = Some c -> tidy c).
Proof.
  intros Hnd. rewrite /_clean_merged_data.
  set (skip := Py.truthy (Py.get kwargs "skip_empty" _)).
  destruct (Py.truthy (Py.get kwargs "clean_data" _)).
  - pose proof (drop_duplicates_columns df) as Hcols.
    destruct (drop_duplicates df) as [H rs]. simpl in Hcols. subst H.
    rewrite /object_columns /=.
    rewrite clean_merged_columns_closed; [|by apply object_columns_positions].
    set (js := flat_map _ _). set (rs' := map _ rs).
    assert (forall r j l c, r ∈ rs' -> columns df !! j = Some (l, DObject) ->
              cells r !! j = Some c -> tidy c) as Htidy.
    { intros r j l c Hr Hj Hc. apply list_elem_of_fmap in Hr as (r0 & -> & _). simpl in Hc.
      apply alters_merged_in in Hc as [c0 ->]; [apply merged_cell_tidy|].
      rewrite /js. apply list_elem_of_In, in_flat_map. exists l. split.
      - apply list_elem_of_In, list_elem_of_fmap. exists (l, DObject). split; [done|].
        apply list_elem_of_filter. split; [done|]. by eapply list_elem_of_lookup_2.
      - apply list_elem_of_In, elem_of_positions. by rewrite list_lookup_fmap Hj. }
    cbn zeta. split; [by destruct skip|]. split.
    { by rewrite /reset_index /= renumber_index /len /= renumber_length. }
    split.
    + intros ->. rewrite /reset_index /dropna_rows /=.
      eapply (Forall_cells (fun cs => existsb notna cs = true)); [symmetry; apply renumber_cells|].
      apply Forall_forall. by intros r [Hr _]%list_elem_of_filter.
    + intros _ r j l c Hr Hj Hc.
      assert (cells r ∈ map cells rs') as Hin.
      { assert (cells r ∈ map cells (rows (reset_index (if skip then dropna_rows (mkDF (columns df) rs')
                                                       else mkDF (columns df) rs')))) as Hin.
        { apply list_elem_of_fmap. by exists r. }
        rewrite /reset_index /= renumber_cells in Hin.
        apply list_elem_of_fmap in Hin as (r1 & Hr1 & Hin). rewrite Hr1.
        apply list_elem_of_fmap. exists r1. split; [done|].
        destruct skip; [|done]. by apply list_elem_of_filter in Hin as [_ ?]. }
      apply list_elem_of_fmap in Hin as (r1 & Heq & Hr1).
      eapply (Htidy r1 j l c); [done| |by rewrite -Heq].
      by destruct skip.
  - cbn zeta. split; [by destruct skip|]. split.
    { by rewrite /reset_index /= renumber_index /len /= renumber_length. }
    split; [|done].
    intros ->. rewrite /reset_index /dropna_rows /=.
    eapply (Forall_cells (fun cs => existsb notna cs = true)); [symmetry; apply renumber_cells|].
    apply Forall_forall. by intros r [Hr _]%list_elem_of_filter.
Qed.

(** X16: on a merged table whose column labels are all different,
    [_clean_merged_data] keeps the header and numbers the rows 0, 1, 2, ...;
    under [skip_empty] every row that is left holds a value, and under
    [clean_data] every cell of an [object] column is [pd.NA] or a text
    without surrounding whitespace that is neither empty nor "nan". *)
Theorem clean_merged_data_tidy df kwargs :
  NoDup (labels df) ->
  let out := _clean_merged_data df kwargs in
  columns out = columns df /\
  map index (rows out) = seq 0 (len out) /\
  (Py.truthy (Py.get kwargs "skip_empty" (Py.PBool true)) = true ->
   Forall (fun r => existsb notna (cells r) = true) (rows out)) /\
  (Py.truthy (Py.get kwargs "clean_data" (Py.PBool true)) = true ->
   forall r j l c, r ∈ rows out -> columns out !! j = Some (l, DObject) ->
     cells r !! j = Some c -> tidy c).
Proof. apply clean_merged_data_tidy_aux. Qed.

Lemma clean_merged_data_tidy_witness :
  columns (_clean_merged_data Scenario.messy ∅) = columns Scenario.messy /\
  map index (rows (_clean_merged_data Scenario.messy ∅))
  = seq 0 (len (_clean_merged_data Scenario.messy ∅)).
Proof.
  destruct (clean_merged_data_tidy Scenario.messy ∅) as (Hc & Hi & _).
  - by apply (bool_decide_unpack _).
  - split; [exact Hc|exact Hi].
Defined.

Lemma sum_rows_concat (pieces : list (list Row)) :
  length (List.concat pieces) = foldr (fun p n => (length p + n)%nat) 0%nat pieces.
Proof. induction pieces as [|p ps IH]; [done|]. by rewrite /= length_app IH. Qed.

Lemma concat_pieces_len labs fs pieces :
  rmapM (concat_piece labs) fs = Ok pieces ->
  foldr (fun p n => (length p + n)%nat) 0%nat pieces = PDFExtractor.sum_rows fs.
Proof.
  revert pieces. induction fs as [|f fs IH]; simpl; intros pieces.
  - by intros [= <-].
  - destruct (concat_piece labs f) as [p|] eqn:Hp; simpl; [|done].
    destruct (rmapM _ fs) as [ps|]; simpl; [|done]. intros [= <-]. simpl.
    rewrite (IH ps) //. f_equal. revert Hp. rewrite /concat_piece /len.
    destruct (decide _); [by intros [= <-]|].
    destruct (decide _); [|done]. intros [= <-]. by rewrite length_map.
Qed.

Lemma concat_len fs merged : concat fs = Ok merged -> len merged = PDFExtractor.sum_rows fs.
Proof.
  rewrite /concat. destruct fs as [|f0 fs]; [done|].
  destruct (rmapM _ _) as [pieces|] eqn:Hp; simpl; [|done]. intros [= <-].
  rewrite /len. cbn [rows]. rewrite renumber_length sum_rows_concat.
  by apply (concat_pieces_len _ (f0 :: fs)) in Hp.
Qed.

Lemma reindex_all_len labs fill fs aligned_tables :
  rmapM (fun table => reindex table labs fill) fs = Ok aligned_tables ->
  PDFExtractor.sum_rows aligned_tables = PDFExtractor.sum_rows fs.
Proof.
  revert aligned_tables. induction fs as [|f fs IH]; simpl; intros ats.
  - by intros [= <-].
  - destruct (reindex f labs fill) as [a|] eqn:Ha; simpl; [|done].
    destruct (rmapM _ fs) as [as'|]; simpl; [|done]. intros [= <-]. simpl.
    rewrite (IH as') //. f_equal. revert Ha. rewrite /reindex.
    destruct (decide _); [|done]. intros [= <-]. by rewrite /len /aligned /= length_map.
Qed.

Lemma union_len fs merged : _union_tables fs = Ok merged -> len merged = PDFExtractor.sum_rows fs.
Proof.
  rewrite /_union_tables. destruct (union_body fs) as [m|e] eqn:Hu; [|apply concat_len].
  intros [= <-]. revert Hu. rewrite /union_body. destruct fs as [|f0 fs]; [by intros [= <-]|].
  destruct (sorted _) as [cols|]; [|done]. cbn [rbind].
  destruct (rmapM _ (f0 :: fs)) as [ats|] eqn:Ha; [|done]. cbn [rbind].
  intros Hc%concat_len. rewrite Hc. by apply reindex_all_len in Ha.
Qed.

Lemma drop_seen_length seen rs : (length (drop_seen seen rs) <= length rs)%nat.
Proof.
  revert seen. induction rs as [|r rs IH]; intros seen; simpl; [done|].
  destruct (existsb _ _); simpl; [specialize (IH seen)|specialize (IH (cells r :: seen))]; lia.
Qed.

Lemma drop_duplicates_len df : (len (drop_duplicates df) <= len df)%nat.
Proof.
  rewrite /drop_duplicates. destruct (empty df); [done|]. apply drop_seen_length.
Qed.

Lemma clean_merged_data_len df kwargs : (len (_clean_merged_data df kwargs) <= len df)%nat.
Proof.
  rewrite /_clean_merged_data.
  destruct (Py.truthy (Py.get kwargs "clean_data" _)).
  - pose proof (clean_merged_columns_len (object_columns (drop_duplicates df)) (drop_duplicates df)) as Hl.
    pose proof (drop_duplicates_len df) as Hd.
    destruct (clean_merged_columns _ _) as [df' [e|]]; simpl in Hl; [lia|].
    rewrite {1}/len /reset_index /= renumber_length.
    destruct (Py.truthy _); [pose proof (dropna_rows_len df') as Hn|];
      rewrite /len /= in Hl, Hd |- *; [rewrite /len /= in Hn|]; lia.
  - rewrite {1}/len /reset_index /= renumber_length.
    destruct (Py.truthy _); [apply dropna_rows_len|done].
Qed.

(** X17: whatever the policy and the options, and also when the merge
    falls back to the first table, the table [_merge_tables] returns has no
    more rows than the input tables have together. *)
Theorem merge_tables_rows_bound tables kwargs :
  (len (_merge_tables tables kwargs) <= PDFExtractor.sum_rows tables)%nat.
Proof.
  rewrite /_merge_tables /merge_body.
  set (merged := if decide _ then _ else _).
  assert (forall m, merged = Ok m -> len m = PDFExtractor.sum_rows tables) as Hm.
  { intros m. rewrite /merged. destruct (decide _); [apply concat_len|].
    destruct (decide _); [apply union_len|apply concat_len]. }
  assert (len match tables with t :: _ => t | [] => empty_frame end
          <= PDFExtractor.sum_rows tables)%nat as Hfirst.
  { destruct tables as [|t ts]; simpl; [done|lia]. }
  destruct merged as [m|e]; simpl; [|done].
  destruct (bool_decide _); [done|].
  rewrite -(Hm m eq_refl). apply clean_merged_data_len.
Qed.

Lemma rmapM_raise {A B} (f : A -> result B) l x e :
  x ∈ l -> f x = Raise e -> (forall y e', f y = Raise e' -> e' = e) ->
  rmapM f l = Raise e.
Proof.
  intros Hin Hx Hone. induction l as [|y l IH]; [by apply elem_of_nil in Hin|].
  simpl. destruct (f y) as [b|e'] eqn:Hy; simpl.
  - apply elem_of_cons in Hin as [->|Hin]; [congruence|]. by rewrite IH.
  - f_equal. by eapply Hone.
Qed.

(** X18: when one of the tables repeats a column label, the union merge
    cannot align the tables and gives what plain concatenation gives. *)
Theorem union_repeated_label tables t :
  t ∈ tables -> ~ NoDup (labels t) -> _union_tables tables = concat tables.
Proof.
  intros Hin Hdup. rewrite /_union_tables.
  assert (exists e, union_body tables = Raise e) as [e ->]; [|done].
  rewrite /union_body. destruct tables as [|t0 ts]; [by apply elem_of_nil in Hin|].
  destruct (sorted _) as [cols|e]; [|by eexists]. cbn [rbind].
  exists ValueError.
  rewrite (rmapM_raise _ _ t ValueError) //.
  - rewrite /reindex. by destruct (decide _).
  - intros y e'. rewrite /reindex. destruct (decide _); [done|]. by intros [= <-].
Qed.

Lemma union_repeated_label_witness :
  _union_tables [Scenario.only_y; Scenario.twice_x] = concat [Scenario.only_y; Scenario.twice_x].
Proof.
  apply (union_repeated_label [Scenario.only_y; Scenario.twice_x] Scenario.twice_x).
  - right; left.
  - intros Hnd. apply NoDup_cons in Hnd as [Hn _]. apply Hn. left.
Defined.

(** X19: tables of [object] columns that all carry the same, pairwise
    different labels are stacked under every policy but "union", when no
    option is named [df]: the concatenation succeeds, its rows are the input
    rows in input order, and the table returned is the cleaned concatenation
    under those labels. *)
Theorem merge_same_labels tables kwargs labs :
  tables <> [] -> NoDup labs -> Forall (fun t => labels t = labs) tables ->
  Forall all_object tables ->
  Py.get kwargs "merge_method" (Py.PStr "concat") <> Py.PStr "union" ->
  kwargs !! "df" = None ->
  exists merged,
    concat tables = Ok merged /\
    _merge_tables tables kwargs = _clean_merged_data merged kwargs /\
    labels (_merge_tables tables kwargs) = labs /\
    map cells (rows merged) = flat_map (fun t => map cells (rows t)) tables.
Proof.
  intros Hne Hnd Hall _ Hm Hdf.
  destruct (concat_same_labels labs tables Hne Hall) as (merged & Hc & Hl & Hrows).
  exists merged. split; [done|].
  assert (_merge_tables tables kwargs = _clean_merged_data merged kwargs) as Heq.
  { rewrite /_merge_tables /merge_body Hdf.
    destruct (decide _); [by rewrite Hc|].
    destruct (decide _); [done|]. by rewrite Hc. }
  split; [done|]. split; [|done].
  rewrite Heq /labels.
  destruct (clean_merged_data_tidy_aux merged kwargs) as [-> _]; [by rewrite Hl|done].
Qed.

Lemma merge_same_labels_witness :
  exists merged,
    concat [Scenario.table_ab; Scenario.table_ab] = Ok merged /\
    _merge_tables [Scenario.table_ab; Scenario.table_ab] ∅ = _clean_merged_data merged ∅ /\
    labels (_merge_tables [Scenario.table_ab; Scenario.table_ab] ∅) = [LStr "A"; LStr "B"] /\
    map cells (rows merged)
    = flat_map (fun t => map cells (rows t)) [Scenario.table_ab; Scenario.table_ab].
Proof.
  apply (merge_same_labels [Scenario.table_ab; Scenario.table_ab] ∅ [LStr "A"; LStr "B"]).
  - done.
  - by apply (bool_decide_unpack _).
  - by repeat constructor.
  - by repeat constructor.
  - done.
  - done.
Defined.

(** An option named [df] never reaches [_clean_merged_data]: the call
    fails and the first table comes back as it was given. *)
Example merge_with_df_option :
  _merge_tables [Scenario.alice; Scenario.alice] (<["df" := Py.PInt 1]> ∅) = Scenario.alice.
Proof. vm_compute. reflexivity. Qed.

End merging_more.

(** * More on validation *)

Section validation_more.

Import Pd CSVConverter Facts More MoreCsv.

Variable read_csv : string -> result DataFrame.

(** X20: the report of [validate_csv_data] is marked valid exactly when the
    text is not empty, [read_csv] parses it and the frame it gives has at
    least one row and one column; no warning makes a report invalid. *)
Theorem validate_valid_iff csv_data :
  valid (validate_csv_data read_csv csv_data) = true <->
  csv_data <> "" /\ exists df, read_csv csv_data = Ok df /\ empty df = false.
Proof.
  rewrite /validate_csv_data. destruct (String.eqb_spec csv_data "") as [->|Hne].
  - simpl. split; [done|]. by intros [? _].
  - destruct (read_csv csv_data) as [df|e]; simpl.
    + destruct (empty df) eqn:He; simpl.
      * split; [done|]. intros [_ (df' & [= <-] & He')]. congruence.
      * split; [|done]. intros _. split; [done|]. by exists df.
    + split; [done|]. by intros [_ (df' & ? & _)].
Qed.

Lemma inconsistent_rows_elem csv_data i :
  i ∈ inconsistent_rows csv_data <->
  exists first line,
    Py.split NL (Py.strip csv_data) !! 0%nat = Some first /\
    Py.split NL (Py.strip csv_data) !! i = Some line /\
    (1 <= i)%nat /\
    length (Py.split "," line) <> length (Py.split "," first).
Proof.
  rewrite /inconsistent_rows.
  destruct (Py.split NL (Py.strip csv_data)) as [|first [|l1 others]] eqn:Hs.
  - split; [by intros ?%elem_of_nil|]. by intros (? & ? & ? & _).
  - split; [by intros ?%elem_of_nil|]. intros (f & l & _ & Hl & Hi & _).
    destruct i as [|i]; [lia|]. done.
  - rewrite list_elem_of_fmap. split.
    + intros ([k line] & -> & [Hne Hin]%list_elem_of_filter). cbn [fst snd] in *.
      apply elem_of_lookup_imap in Hin as (k' & y & [= -> ->] & Hy).
      exists first, y. split; [done|]. split; [done|]. split; [lia|done].
    + intros (f & line & [= <-] & Hl & Hi & Hne).
      destruct i as [|i]; [lia|]. simpl in Hl.
      exists (S i, line). split; [done|]. apply list_elem_of_filter. split; [done|].
      apply elem_of_lookup_imap. by exists i, line.
Qed.

(** X21: when [validate_csv_data] warns about inconsistent rows it names at
    least one and at most five line numbers, and every one of them is a
    line after the first whose number of comma-separated fields differs
    from that of the first line. *)
Theorem inconsistent_rows_reported csv_data ws ls :
  warnings (validate_csv_data read_csv csv_data) = Some ws ->
  InconsistentRows ls ∈ ws ->
  ls <> [] /\ (length ls <= 5)%nat /\
  forall i, i ∈ ls ->
    exists first line,
      Py.split NL (Py.strip csv_data) !! 0%nat = Some first /\
      Py.split NL (Py.strip csv_data) !! i = Some line /\
      (1 <= i)%nat /\
      length (Py.split "," line) <> length (Py.split "," first).
Proof.
  rewrite /validate_csv_data. destruct (String.eqb csv_data ""); [done|].
  destruct (read_csv csv_data) as [df|e]; simpl; [|by intros [= <-] ?%elem_of_nil].
  intros [= <-]. rewrite !elem_of_app. intros [Hw|[Hw|Hw]].
  - destruct (null_columns df); [by apply elem_of_nil in Hw|].
    by apply list_elem_of_singleton in Hw.
  - destruct (_ && _); [|by apply elem_of_nil in Hw]. by apply list_elem_of_singleton in Hw.
  - destruct (inconsistent_rows csv_data) as [|i0 rest] eqn:Hi; [by apply elem_of_nil in Hw|].
    apply list_elem_of_singleton in Hw. injection Hw as ->.
    split; [done|]. split; [simpl; rewrite length_take; lia|].
    intros i Hin. apply inconsistent_rows_elem. rewrite Hi.
    change (i0 :: take 4 rest) with (take 5 (i0 :: rest)) in Hin.
    apply elem_of_take in Hin as (k & Hk & _). by eapply list_elem_of_lookup_2.
Qed.

End validation_more.

Section validation_witnesses.

Import Pd CSVConverter Facts More MoreCsv.

Lemma inconsistent_rows_reported_witness :
  [2]%nat <> [] /\ (length [2]%nat <= 5)%nat /\
  forall i, i ∈ [2]%nat ->
    exists first line,
      Py.split NL (Py.strip short_line_csv) !! 0%nat = Some first /\
      Py.split NL (Py.strip short_line_csv) !! i = Some line /\
      (1 <= i)%nat /\
      length (Py.split "," line) <> length (Py.split "," first).
Proof.
  apply (inconsistent_rows_reported (fun _ => Ok short_line_frame) short_line_csv
           [InconsistentRows [2]%nat]).
  - vm_compute. reflexivity.
  - left.
Defined.

(** The whole report for that text: valid, with the one warning. *)
Example short_line_report :
  validate_csv_data (fun _ => Ok short_line_frame) short_line_csv
  = mkReport true [] (Some [InconsistentRows [2]%nat]) (Some 2%nat) (Some 2%nat)
             (Some (NFloat 25%float)).
Proof. vm_compute. reflexivity. Qed.

End validation_witnesses.

(** * Conversion, preview and the pipeline *)

Section pipeline_facts.

Import Pd PDFExtractor Facts More Converter PDFProcessor.

Variable to_csv : DataFrame -> Py.pyval -> Py.pyval -> result string.
Variable validate_pdf : World -> bool.
Variable write : string -> bool.

(** X22: [preview_csv] forwards its options to [_dataframe_to_csv], which
    knows [delimiter] and [header_row] only: with any other option, such as
    [preview_rows], the preview is lost and the answer is the dictionary
    without preview, with 0 rows and 0 columns, whatever the tables. *)
Theorem preview_csv_rejects_options extracted_data kwargs key :
  is_Some (kwargs !! key) -> key <> "delimiter" -> key <> "header_row" ->
  preview_csv to_csv extracted_data kwargs = no_preview.
Proof.
  intros Hk Hd Hh. rewrite /preview_csv.
  destruct (get_tables extracted_data) as [|main_table rest]; [done|].
  destruct (head main_table _) as [t|e]; [|done]. simpl.
  rewrite /_dataframe_to_csv_kw bool_decide_eq_false_2 //.
  intros Hsub. apply elem_of_dom in Hk. specialize (Hsub _ Hk).
  by apply elem_of_union in Hsub as [?%elem_of_singleton|?%elem_of_singleton].
Qed.

Lemma take_ge_len {A} (l : list A) n : (length l <= n)%nat -> take n l = l.
Proof. apply take_ge. Qed.

(** X23: without options, [preview_csv] serializes the first ten rows of
    the first table, or all of them when there are fewer, and reports the
    row count and the column count of the whole first table and the number
    of tables; the other tables are not looked at. *)
Theorem preview_csv_default main rest extracted_data csv :
  get_tables extracted_data = main :: rest ->
  _dataframe_to_csv to_csv (mkDF (columns main) (take 10 (rows main)))
                    (Py.PStr ",") (Py.PBool true) = Ok csv ->
  preview_csv to_csv extracted_data ∅
  = mkPreview csv (len main) (ncols main) (Some (labels main)) (Some (S (length rest))).
Proof.
  intros Ht Hc. rewrite /preview_csv Ht /Py.get lookup_empty /head.
  assert (take (slice_bound (len main) 10) (rows main) = take 10 (rows main)) as ->.
  { rewrite /slice_bound. destruct (decide _); [lia|].
    change (Z.to_nat 10) with 10%nat.
    destruct (decide (len main <= 10)%nat) as [Hle|Hgt].
    - rewrite Nat.min_r //. rewrite /len in Hle. rewrite !take_ge //.
    - rewrite Nat.min_l //. lia. }
  cbn [rbind]. rewrite /_dataframe_to_csv_kw bool_decide_eq_true_2; [|set_solver].
  by rewrite /Py.get !lookup_empty Hc.
Qed.

Lemma extract_data_not_empty w kwargs log log' d :
  extract_data w kwargs log = (log', Ok d) -> d <> ∅.
Proof.
  intros (He & _)%extract_data_metadata_aux Hd. by rewrite Hd in He.
Qed.

Lemma process_single_pdf_unfold w kwargs log :
  process_single_pdf to_csv validate_pdf write w kwargs log =
    if negb (validate_pdf w) then (log, Ok false)
    else if binds kwargs ["pdf_path"] then (log, Ok false)
    else match extract_data w kwargs log with
         | (l1, Ok d) =>
             (l1, Ok (if binds kwargs ["extracted_data"] then false
                      else match convert_to_csv to_csv d kwargs with
                           | Ok csv => save_csv write csv
                           | Raise _ => false
                           end))
         | (l1, Raise _) => (l1, Ok false)
         end.
Proof.
  rewrite /process_single_pdf /try_except /bind.
  destruct (negb (validate_pdf w)); [done|].
  destruct (binds kwargs ["pdf_path"]); [done|].
  destruct (extract_data w kwargs log) as [l1 [d|e]] eqn:He; [|done].
  rewrite bool_decide_eq_false_2; [|by eapply extract_data_not_empty].
  rewrite /lift. destruct (binds kwargs ["extracted_data"]); [done|].
  by destruct (convert_to_csv to_csv d kwargs).
Qed.

Lemma process_single_pdf_returns w kwargs log :
  exists log' ok, process_single_pdf to_csv validate_pdf write w kwargs log = (log', Ok ok).
Proof.
  rewrite process_single_pdf_unfold.
  destruct (negb (validate_pdf w)); [by eexists _, _|].
  destruct (binds kwargs ["pdf_path"]); [by eexists _, _|].
  destruct (extract_data w kwargs log) as [l1 [d|e]]; by eexists _, _.
Qed.

(** X24: [process_single_pdf] never raises.  It answers [False] without
    calling a PDF library when the file checks fail, and it answers [True]
    only when the extraction succeeded with at least one table, the
    conversion gave a text that is not empty, and that text was written. *)
Theorem process_single_pdf_outcome w kwargs log :
  exists log' ok,
    process_single_pdf to_csv validate_pdf write w kwargs log = (log', Ok ok) /\
    (validate_pdf w = false -> log' = log /\ ok = false) /\
    (ok = true ->
       validate_pdf w = true /\
       exists d csv,
         extract_data w kwargs log = (log', Ok d) /\
         get_tables d <> [] /\
         convert_to_csv to_csv d kwargs = Ok csv /\
         csv <> "" /\ write csv = true).
Proof.
  rewrite process_single_pdf_unfold.
  destruct (validate_pdf w) eqn:Hv; cbn [negb];
    [|exists log, false; split; [done|]; split; [done|discriminate]].
  destruct (binds kwargs ["pdf_path"]);
    [exists log, false; split; [done|]; split; [done|discriminate]|].
  destruct (extract_data w kwargs log) as [l1 [d|e]];
    [|exists l1, false; split; [done|]; split; [done|discriminate]].
  destruct (binds kwargs ["extracted_data"]);
    [exists l1, false; split; [done|]; split; [done|discriminate]|].
  destruct (convert_to_csv to_csv d kwargs) as [csv|e] eqn:Hc;
    [|exists l1, false; split; [done|]; split; [done|discriminate]].
  exists l1, (save_csv write csv). split; [done|]. split; [done|].
  rewrite /save_csv. destruct (String.eqb_spec csv "") as [->|Hne]; [done|]. intros Hw.
  split; [done|]. exists d, csv. split; [done|]. split; [|done].
  intros Hnil. rewrite /convert_to_csv Hnil in Hc. by injection Hc as <-.
Qed.

Lemma process_files_counts pdf_files kwargs results log log' r :
  process_files to_csv validate_pdf write pdf_files kwargs results log = (log', Ok r) ->
  (success r + failed r = success results + failed results + length pdf_files)%nat /\
  total r = total results.
Proof.
  revert results log. induction pdf_files as [|f fs IH]; intros results log;
    cbn [process_files length].
  - rewrite /ret. intros [= _ <-]. lia.
  - rewrite /bind. destruct (binds kwargs ["input_path"; "output_path"]); [done|].
    destruct (process_single_pdf_returns f kwargs log) as (l1 & ok & ->).
    intros [Hs Ht]%IH. rewrite Ht. destruct ok; simpl in *; lia.
Qed.

(** X25: when [process_batch] returns, its counters add up: every file is
    counted once, as a success or as a failure, and [total] is the number
    of files. *)
Theorem process_batch_counts pdf_files kwargs log log' r :
  process_batch to_csv validate_pdf write pdf_files kwargs log = (log', Ok r) ->
  (success r + failed r = total r)%nat /\ total r = length pdf_files.
Proof.
  rewrite /process_batch. destruct pdf_files as [|f fs].
  - rewrite /ret. by intros [= _ <-].
  - intros [Hs Ht]%process_files_counts. simpl in *. lia.
Qed.

End pipeline_facts.

Section pipeline_witnesses.

Import Pd PDFExtractor Facts More Converter PDFProcessor.

Lemma preview_csv_rejects_options_witness :
  preview_csv (fun _ _ _ => Ok "Name,Age") people_result (<["preview_rows" := Py.PInt 5]> ∅)
  = no_preview.
Proof.
  apply (preview_csv_rejects_options (fun _ _ _ => Ok "Name,Age") people_result
           (<["preview_rows" := Py.PInt 5]> ∅) "preview_rows"); [|done|done].
  by rewrite lookup_insert_eq.
Defined.

Lemma preview_csv_default_witness :
  preview_csv (fun _ _ _ => Ok "Name,Age") people_result ∅
  = mkPreview "Name,Age" 2 2 (Some [LStr "Name"; LStr "Age"]) (Some 1%nat).
Proof.
  apply (preview_csv_default (fun _ _ _ => Ok "Name,Age")
           (mkDF [(LStr "Name", DObject); (LStr "Age", DOther)]
                 [mkRow 0 [Text "John"; Scalar "25"]; mkRow 1 [Text "Jane"; Scalar "30"]])
           [] people_result "Name,Age").
  - vm_compute. reflexivity.
  - reflexivity.
Defined.

(** The two-row table of tabula goes through: detection, extraction, one
    table, a text, a file. *)
Example process_people :
  exists log,
    process_single_pdf (fun _ _ _ => Ok "Name,Age") (fun _ => true) (fun _ => true)
      Scenario.tabula_people ∅ [] = (log, Ok true).
Proof. eexists. vm_compute. reflexivity. Qed.

(** A file without any table is a failure: there is nothing to write. *)
Example process_text_only :
  exists log,
    process_single_pdf (fun _ _ _ => Ok "Name,Age") (fun _ => true) (fun _ => true)
      Scenario.text_only ∅ [] = (log, Ok false).
Proof. eexists. vm_compute. reflexivity. Qed.

Lemma process_batch_counts_witness :
  (1 + 1 = 2)%nat /\ 2%nat = length [Scenario.tabula_people; Scenario.text_only].
Proof.
  eapply (process_batch_counts (fun _ _ _ => Ok "Name,Age") (fun _ => true) (fun _ => true)
            [Scenario.tabula_people; Scenario.text_only] ∅ [] _ (mkSummary 1 1 2)).
  vm_compute. reflexivity.
Defined.

End pipeline_witnesses.

(** * The configuration store *)

Section config.

Import ConfigManager.

Lemma set_keys_last h config k v :
  set_keys h config [k] v =
    match config with
    | VDict l =>
        match h !! l with
        | Some d => (<[l := <[k := v]> d]> h, true)
        | None => (h, false)
        end
    | _ => (h, false)
    end.
Proof. done. Qed.

Lemma set_keys_step h config k k2 keys v :
  set_keys h config (k :: k2 :: keys) v =
    match config with
    | VDict l =>
        match h !! l with
        | Some d =>
            match d !! k with
            | Some config' => set_keys h config' (k2 :: keys) v
            | None =>
                set_keys (<[l := <[k := VDict (length h)]> d]> (h ++ [∅])%list) (VDict (length h))
                         (k2 :: keys) v
            end
        | None => (h, false)
        end
    | _ => (h, false)
    end.
Proof. done. Qed.

Lemma walk_fresh h l d (k : string) keys :
  (l < length h)%nat ->
  walk (<[l := d]> (h ++ [∅])%list) (length h) keys = [length h].
Proof.
  intros Hl. destruct keys as [|k' keys]; [done|]. simpl.
  rewrite list_lookup_insert_ne; [|lia].
  rewrite lookup_app_r // Nat.sub_diag /=. by rewrite lookup_empty.
Qed.

Lemma set_keys_frame keys : forall h config v h' b l0,
  set_keys h config keys v = (h', b) ->
  (forall l, config = VDict l -> l0 ∉ walk h l (removelast keys)) ->
  (l0 < length h)%nat ->
  h' !! l0 = h !! l0.
Proof.
  induction keys as [|k [|k2 keys] IH]; intros h config v h' b l0.
  - by intros [= <- _].
  - rewrite set_keys_last. destruct config as [| |l]; try by intros [= <- _].
    destruct (h !! l) as [d|] eqn:Hd; [|by intros [= <- _]].
    intros [= <- _] Hw _. rewrite list_lookup_insert_ne //.
    intros <-. apply (Hw l eq_refl). left.
  - rewrite set_keys_step. destruct config as [| |l]; try by intros [= <- _].
    destruct (h !! l) as [d|] eqn:Hd; [|by intros [= <- _]].
    pose proof (lookup_lt_Some _ _ _ Hd) as Hl.
    destruct (d !! k) as [c|] eqn:Hk.
    + intros Hs Hw Hl0. eapply IH; [exact Hs| |done].
      intros l' ->. specialize (Hw l eq_refl).
      change (removelast (k :: k2 :: keys)) with (k :: removelast (k2 :: keys)) in Hw.
      simpl in Hw. rewrite Hd /= Hk in Hw. intros Hin. apply Hw. by right.
    + intros Hs Hw Hl0. specialize (Hw l eq_refl).
      erewrite IH; [|exact Hs| |rewrite length_insert length_app /=; lia].
      * rewrite list_lookup_insert_ne; [|intros <-; apply Hw; left].
        by rewrite lookup_app_l.
      * intros l' [= <-]. rewrite (walk_fresh h l _ k) //.
        intros ->%list_elem_of_singleton. lia.
Qed.

Lemma set_keys_get keys : forall h config v h' d,
  set_keys h config keys v = (h', true) ->
  (forall l, config = VDict l -> NoDup (walk h l (removelast keys))) ->
  get_keys h' config keys d = v.
Proof.
  induction keys as [|k [|k2 keys] IH]; intros h config v h' dflt.
  - done.
  - rewrite set_keys_last. destruct config as [| |l]; try done.
    destruct (h !! l) as [d|] eqn:Hd; [|done]. intros [= <-] _. simpl.
    rewrite list_lookup_insert_eq; [|by eapply lookup_lt_Some].
    by rewrite lookup_insert_eq.
  - rewrite set_keys_step. destruct config as [| |l]; try done.
    destruct (h !! l) as [d|] eqn:Hd; [|done].
    pose proof (lookup_lt_Some _ _ _ Hd) as Hl.
    destruct (d !! k) as [c|] eqn:Hk.
    + intros Hs Hnd. specialize (Hnd l eq_refl).
      change (removelast (k :: k2 :: keys)) with (k :: removelast (k2 :: keys)) in Hnd.
      simpl in Hnd. rewrite Hd /= Hk in Hnd.
      assert (h' !! l = Some d) as Hd'.
      { rewrite -Hd. eapply set_keys_frame; [exact Hs| |done].
        intros l' ->. by apply NoDup_cons in Hnd as [? _]. }
      change (get_keys h' (VDict l) (k :: k2 :: keys) dflt)
        with (match h' !! l with
              | Some d => match d !! k with
                          | Some v' => get_keys h' v' (k2 :: keys) dflt
                          | None => dflt
                          end
              | None => dflt
              end).
      rewrite Hd' Hk. eapply IH; [exact Hs|].
      intros l' ->. by apply NoDup_cons in Hnd as [_ ?].
    + intros Hs _.
      set (h1 := <[l := <[k := VDict (length h)]> d]> (h ++ [∅])%list) in *.
      assert (h' !! l = Some (<[k := VDict (length h)]> d)) as Hd'.
      { erewrite set_keys_frame; [|exact Hs| |rewrite /h1 length_insert length_app /=; lia].
        - rewrite /h1 list_lookup_insert_eq // length_app /=. lia.
        - intros l' [= <-]. rewrite /h1 (walk_fresh h l _ k) //.
          intros ->%list_elem_of_singleton. lia. }
      change (get_keys h' (VDict l) (k :: k2 :: keys) dflt)
        with (match h' !! l with
              | Some d => match d !! k with
                          | Some v' => get_keys h' v' (k2 :: keys) dflt
                          | None => dflt
                          end
              | None => dflt
              end).
      rewrite Hd' lookup_insert_eq. eapply IH; [exact Hs|].
      intros l' [= <-]. rewrite /h1 (walk_fresh h l _ k) //. apply NoDup_singleton.
Qed.

Lemma set_keys_empty_ok keys : forall h l v,
  keys <> [] -> h !! l = Some ∅ -> (set_keys h (VDict l) keys v).2 = true.
Proof.
  induction keys as [|k [|k2 keys] IH]; intros h l v Hne Hl; [done| |].
  - by rewrite set_keys_last Hl.
  - rewrite set_keys_step Hl lookup_empty. apply IH; [done|].
    pose proof (lookup_lt_Some _ _ _ Hl).
    rewrite list_lookup_insert_ne; [|lia].
    by rewrite lookup_app_r // Nat.sub_diag.
Qed.

Lemma set_keys_false keys : forall h config v h',
  set_keys h config keys v = (h', false) -> h' = h.
Proof.
  induction keys as [|k [|k2 keys] IH]; intros h config v h'.
  - by intros [= <-].
  - rewrite set_keys_last. destruct config as [| |l]; try by intros [= <-].
    by destruct (h !! l); intros [= <-].
  - rewrite set_keys_step. destruct config as [| |l]; try by intros [= <-].
    destruct (h !! l) as [d|] eqn:Hd; [|by intros [= <-]].
    destruct (d !! k) as [c|]; [apply IH|].
    intros Hs. exfalso.
    pose proof (lookup_lt_Some _ _ _ Hd).
    pose proof (set_keys_empty_ok (k2 :: keys)
                  (<[l := <[k := VDict (length h)]> d]> (h ++ [∅])%list) (length h) v) as Hok.
    rewrite Hs in Hok. simpl in Hok. discriminate Hok; [done|].
    rewrite list_lookup_insert_ne; [|lia]. by rewrite lookup_app_r // Nat.sub_diag.
Qed.

(** X26: a [set] that reports success is seen by [get]: the same key then
    gives the value that was set, provided the dictionaries on the way to
    the key are different objects (as in every configuration read from a
    file or built by [__init__]). *)
Theorem set_then_get s key v d :
  (set s key v).2 = true ->
  NoDup (walk (heap s) (config_data s) (removelast (Py.split "." key))) ->
  get (set s key v).1 key d = v.
Proof.
  rewrite /set /get.
  destruct (set_keys (heap s) (VDict (config_data s)) (Py.split "." key) v) as [h' b] eqn:Hs.
  simpl. intros -> Hnd. eapply set_keys_get; [exact Hs|]. by intros l [= <-].
Qed.

(** X27: a [set] that reports failure has changed nothing: the store and
    both attributes are as before. *)
Theorem set_failure_changes_nothing s key v :
  (set s key v).2 = false -> (set s key v).1 = s.
Proof.
  rewrite /set.
  destruct (set_keys (heap s) (VDict (config_data s)) (Py.split "." key) v) as [h' b] eqn:Hs.
  simpl. intros ->. apply set_keys_false in Hs as ->. by destruct s.
Qed.

Lemma init_state :
  init = mkState [output_format; processing; advanced; defaults 0%nat 1%nat 2%nat; ∅; defaults 0%nat 1%nat 2%nat] 5%nat 3%nat.
Proof. reflexivity. Qed.

Lemma defaults_section sec :
  sec ∈ ["output_format"; "processing"; "advanced"] ->
  exists i d, defaults 0%nat 1%nat 2%nat !! sec = Some (VDict i) /\
    [output_format; processing; advanced; defaults 0%nat 1%nat 2%nat; ∅; defaults 0%nat 1%nat 2%nat] !! i = Some d /\
    (i < 3)%nat.
Proof.
  intros Hs. repeat (apply elem_of_cons in Hs as [->|Hs]);
    [exists 0%nat, output_format|exists 1%nat, processing|exists 2%nat, advanced|
     by apply elem_of_nil in Hs]; (split; [by vm_compute|split; [done|lia]]).
Qed.

(** X28: [load_default_config] copies the top dictionary only, so the
    three nested dictionaries of a fresh configuration are those of
    [default_config].  A [set] on one of their keys is therefore still there
    after [reset_to_defaults], while a [set] on a top-level key is undone. *)
Theorem reset_keeps_nested_settings key v d :
  (forall sec k,
     Py.split "." key = [sec; k] -> sec ∈ ["output_format"; "processing"; "advanced"] ->
     get (reset_to_defaults (set init key v).1).1 key d = v) /\
  (forall k,
     Py.split "." key = [k] ->
     get (reset_to_defaults (set init key v).1).1 key d = get init key d).
Proof.
  split.
  - intros sec k Hk Hsec.
    destruct (defaults_section sec Hsec) as (i & di & Hi & Hdi & Hlt).
    rewrite /get /set init_state Hk. cbn [heap config_data default_config].
    rewrite set_keys_step. cbn [lookup list_lookup]. rewrite Hi set_keys_last Hdi.
    rewrite /reset_to_defaults /load_default_config /alloc. cbn [fst snd heap config_data default_config].
    rewrite list_lookup_insert_ne; [|lia]. cbn [lookup list_lookup default].
    rewrite length_insert. cbn [length].
    rewrite /get_keys lookup_app_r length_insert //. cbn [length Nat.sub lookup list_lookup].
    rewrite Hi lookup_app_l; [|rewrite length_insert /=; lia].
    rewrite list_lookup_insert_eq; [|simpl; lia]. by rewrite lookup_insert_eq.
  - intros k Hk. rewrite /get /set init_state Hk. cbn [heap config_data default_config].
    rewrite set_keys_last. cbn [lookup list_lookup].
    rewrite /reset_to_defaults /load_default_config /alloc. cbn [fst snd heap config_data default_config].
    done.
Qed.

End config.

Section config_witnesses.

Import ConfigManager.

Lemma set_then_get_witness :
  get (set init "output_format.delimiter" (VScalar (Py.PStr ";"))).1
      "output_format.delimiter" (VScalar Py.PNone)
  = VScalar (Py.PStr ";").
Proof.
  apply (set_then_get init "output_format.delimiter" (VScalar (Py.PStr ";"))).
  - vm_compute. reflexivity.
  - by apply (bool_decide_unpack _).
Defined.

Lemma set_failure_changes_nothing_witness :
  (set init "extraction_method.name" (VScalar (Py.PStr "tabula"))).1 = init.
Proof.
  apply (set_failure_changes_nothing init "extraction_method.name"). vm_compute. reflexivity.
Defined.

Lemma reset_keeps_nested_settings_witness :
  get (reset_to_defaults (set init "output_format.delimiter" (VScalar (Py.PStr ";"))).1).1
      "output_format.delimiter" (VScalar Py.PNone)
  = VScalar (Py.PStr ";") /\
  get (reset_to_defaults (set init "extraction_method" (VScalar (Py.PStr "tabula"))).1).1
      "extraction_method" (VScalar Py.PNone)
  = VScalar (Py.PStr "auto").
Proof.
  split.
  - apply (proj1 (reset_keeps_nested_settings "output_format.delimiter" (VScalar (Py.PStr ";"))
                    (VScalar Py.PNone)) "output_format" "delimiter"); [reflexivity|].
    left.
  - rewrite (proj2 (reset_keeps_nested_settings "extraction_method" (VScalar (Py.PStr "tabula"))
                      (VScalar Py.PNone)) "extraction_method"); reflexivity.
Defined.

End config_witnesses.

(** * Which exceptions come out of [extract_data] *)

Section propagation.

Import Pd PDFExtractor Facts More.

Lemma dispatch_backend_function w method kwargs :
  dispatch w method kwargs = backend_function (chosen w method) w kwargs.
Proof.
  rewrite /dispatch /chosen.
  destruct (bool_decide (method = Py.PStr "tabula") && _); [done|].
  destruct (bool_decide (method = Py.PStr "camelot") && _); [done|].
  by destruct (bool_decide (method = Py.PStr "pdfplumber") && _).
Qed.

Lemma resolve_method_trace w kwargs log :
  resolve_method w kwargs log = ((log ++ probes w kwargs)%list, Ok (resolved w kwargs)).
Proof.
  rewrite /resolve_method /resolved /probes. destruct (decide _).
  - by rewrite /bind detect_best_method_trace.
  - by rewrite /ret app_nil_r.
Qed.

Lemma extract_data_unfold w kwargs log :
  path_exists w = true ->
  extract_data w kwargs log =
    match backend_function (chosen w (resolved w kwargs)) w kwargs
            (log ++ probes w kwargs)%list with
    | (log2, Ok d) => (log2, Ok (add_metadata w (resolved w kwargs) d))
    | (log2, Raise e) => (log2, Raise e)
    end.
Proof.
  intros Hex.
  rewrite /extract_data try_reraise Hex /= /bind resolve_method_trace dispatch_backend_function.
  by destruct (backend_function _ _ _ _) as [l2 [d|e]].
Qed.

(** C3, counterexample: tabula is asked for by name and returns a table
    whose two columns are both labelled x.  During the extraction the
    column loop of [_clean_dataframe] raises [AttributeError]; the handler
    of [_clean_dataframe] absorbs it, and [extract_data] returns the table
    as it stood. *)
Lemma cleanup_error_absorbed :
  (clean_columns (labels Scenario.twice_x) Scenario.twice_x).2 = Some AttributeError /\
  exists log d,
    extract_data tabula_twice_x (<["method" := Py.PStr "tabula"]> ∅) [] = (log, Ok d) /\
    d !! "tables" = Some (DTables [Scenario.twice_x]).
Proof. split; [reflexivity|]. do 2 eexists. split; vm_compute; reflexivity. Qed.

(** C3, amended: on an existing file, resolving the method never raises,
    the probes of the automatic selection included, and whatever the
    backend function that [extract_data] runs raises is raised by
    [extract_data] unchanged; in particular what the library of that
    backend raises when it is called for the extraction reaches the caller
    as it is, right after the call.  (Exceptions inside the clean-up of a
    table and inside the parsing of page text do not leave these two
    functions.) *)
Theorem extraction_errors_propagate w kwargs log :
  path_exists w = true ->
  resolve_method w kwargs log = ((log ++ probes w kwargs)%list, Ok (resolved w kwargs)) /\
  (forall log2 e,
     backend_function (chosen w (resolved w kwargs)) w kwargs (log ++ probes w kwargs)%list
       = (log2, Raise e) ->
     extract_data w kwargs log = (log2, Raise e)) /\
  (chosen w (resolved w kwargs) = Tabula ->
   forall f e, tabula w = Some f -> f (tabula_args kwargs) = Raise e ->
     extract_data w kwargs log
       = ((log ++ probes w kwargs ++ [mkCall Tabula (tabula_args kwargs)])%list, Raise e)) /\
  (chosen w (resolved w kwargs) = Camelot ->
   forall f e, camelot w = Some f -> f (camelot_args kwargs) = Raise e ->
     extract_data w kwargs log
       = ((log ++ probes w kwargs ++ [mkCall Camelot (camelot_args kwargs)])%list, Raise e)) /\
  (chosen w (resolved w kwargs) = Pdfplumber ->
   forall e, pdfplumber w = Some (Raise e) ->
     extract_data w kwargs log
       = ((log ++ probes w kwargs ++ [mkCall Pdfplumber ∅])%list, Raise e)) /\
  (chosen w (resolved w kwargs) = PyPDF2 ->
   forall e, pypdf2 w = Raise e ->
     extract_data w kwargs log
       = ((log ++ probes w kwargs ++ [mkCall PyPDF2 ∅])%list, Raise e)).
Proof.
  intros Hex. split; [apply resolve_method_trace|]. split.
  { intros log2 e Hb. by rewrite extract_data_unfold // Hb. }
  split_and!.
  - intros Hb f e Hf He.
    by rewrite extract_data_unfold // Hb /= (tabula_error_surfaces _ _ _ f e) // app_assoc.
  - intros Hb f e Hf He.
    by rewrite extract_data_unfold // Hb /= (camelot_error_surfaces _ _ _ f e) // app_assoc.
  - intros Hb e Hf.
    by rewrite extract_data_unfold // Hb /= (pdfplumber_error_surfaces _ _ _ e) // app_assoc.
  - intros Hb e Hf.
    by rewrite extract_data_unfold // Hb /= (pypdf2_error_surfaces _ _ _ e) // app_assoc.
Qed.

Lemma extraction_errors_propagate_witness :
  extract_data Scenario.tabula_crash (<["method" := Py.PStr "tabula"]> ∅) []
  = ([mkCall Tabula (tabula_args (<["method" := Py.PStr "tabula"]> ∅))], Raise (LibraryError 1)).
Proof.
  destruct (extraction_errors_propagate Scenario.tabula_crash
              (<["method" := Py.PStr "tabula"]> ∅) [] eq_refl) as (_ & _ & Ht & _).
  exact (Ht eq_refl (fun _ => Raise (LibraryError 1)) (LibraryError 1) eq_refl eq_refl).
Defined.

End propagation.
